(** * FragNation registration bot: a shallow embedding of [fragnation_bot.py]

    The bot's command handlers are embedded as programs of a small
    state-and-exception monad over a [World] that holds the JSON file
    ([data.json]), the replies still to come from the user in the current
    dialogue, the notices present on the chat platform and a log of what the
    bot did.  Handlers are followed one at a time, from their first statement
    to their last; interleavings of several handlers at their [await]s are
    outside this development.

    Strings are byte strings.  Message texts are those of the source up to
    its non-ASCII glyphs (emoji, currency sign, dashes), which are left out
    or written in ASCII. *)

From Stdlib Require Import ZArith String Ascii List Bool Arith Lia DecimalString
  DecimalPos.
Import ListNotations.
Open Scope string_scope.
Open Scope Z_scope.

Set Implicit Arguments.

(** ** Python strings *)

(** [str.isspace] on one ASCII character. *)
Definition is_space (c : ascii) : bool :=
  let n := nat_of_ascii c in
  (((9 <=? n) && (n <=? 13)) || ((28 <=? n) && (n <=? 32)))%nat.

Fixpoint lstrip (s : string) : string :=
  match s with
  | EmptyString => EmptyString
  | String c r => if is_space c then lstrip r else s
  end.

Fixpoint rstrip (s : string) : string :=
  match s with
  | EmptyString => EmptyString
  | String c r =>
      match rstrip r with
      | EmptyString => if is_space c then EmptyString else String c EmptyString
      | r' => String c r'
      end
  end.

(** [s.strip()] *)
Definition strip (s : string) : string := rstrip (lstrip s).

Definition lower_char (c : ascii) : ascii :=
  let n := nat_of_ascii c in
  if ((65 <=? n) && (n <=? 90))%nat then ascii_of_nat (n + 32) else c.

Definition upper_char (c : ascii) : ascii :=
  let n := nat_of_ascii c in
  if ((97 <=? n) && (n <=? 122))%nat then ascii_of_nat (n - 32) else c.

Fixpoint map_string (f : ascii -> ascii) (s : string) : string :=
  match s with
  | EmptyString => EmptyString
  | String c r => String (f c) (map_string f r)
  end.

(** [s.lower()] and [s.upper()] *)
Definition lower : string -> string := map_string lower_char.
Definition upper : string -> string := map_string upper_char.

(** [str(n)] for an [int]. *)
Definition str (z : Z) : string := NilZero.string_of_int (Z.to_int z).

(** [", ".join(l)] *)
Fixpoint join (sep : string) (l : list string) : string :=
  match l with
  | [] => EmptyString
  | [s] => s
  | s :: r => s ++ sep ++ join sep r
  end.

(** Truth value of an optional string: [None] and the empty string are
    falsy. *)
Definition truthy (o : option string) : bool :=
  match o with
  | None => false
  | Some s => negb (s =? EmptyString)%string
  end.

(** [o or default] *)
Definition or_default (o : option string) (default : string) : string :=
  match o with
  | Some s => if (s =? EmptyString)%string then default else s
  | None => default
  end.

(** ** Python dicts with string keys

    A [dict] keeps its keys in insertion order, and [json.dump] and
    [json.load] keep that order, so a dict is an association list: assigning
    to a key that is present replaces its value in place, assigning to a new
    key appends it. *)
Module Dict.

Definition t (V : Type) : Type := list (string * V).

Definition empty {V} : t V := [].

Fixpoint get {V} (k : string) (d : t V) : option V :=
    match d with
    | [] => None
    | (k', v) :: r => if (k' =? k)%string then Some v else get k r
    end.

  (** [k in d] *)
Definition mem {V} (k : string) (d : t V) : bool :=
    match get k d with Some _ => true | None => false end.

  (** [d[k] = v] *)
Fixpoint set {V} (k : string) (v : V) (d : t V) : t V :=
    match d with
    | [] => [(k, v)]
    | (k', v') :: r =>
        if (k' =? k)%string then (k', v) :: r else (k', v') :: set k v r
    end.

Definition keys {V} (d : t V) : list string := map fst d.

Definition values {V} (d : t V) : list V := map snd d.

End Dict.

(** ** The persisted data model ([data.json]) *)

(** [{"channel_id": ..., "message_id": ...}] *)
Record MsgRef := mkMsgRef { ref_channel_id : Z; ref_message_id : Z }.

Module Solo.
Record t := mk {
    discord_id : Z;
    real_name : string;
    ign : string;
    current_rank : string;
    peak_rank : string;
    paid : bool;
    payment_proof : string;
    payment_msg : option MsgRef;
    (** the key ["payment_txn"] is absent until the first [!verify] *)
    payment_txn : option string
  }.

Definition set_paid (b : bool) (s : t) : t :=
    mk (discord_id s) (real_name s) (ign s) (current_rank s) (peak_rank s)
       b (payment_proof s) (payment_msg s) (payment_txn s).
Definition set_payment_msg (r : option MsgRef) (s : t) : t :=
    mk (discord_id s) (real_name s) (ign s) (current_rank s) (peak_rank s)
       (paid s) (payment_proof s) r (payment_txn s).
Definition set_payment_txn (x : option string) (s : t) : t :=
    mk (discord_id s) (real_name s) (ign s) (current_rank s) (peak_rank s)
       (paid s) (payment_proof s) (payment_msg s) x.
End Solo.

Module Member.
Record t := mk {
    discord_id : Z;
    ign : option string;
    paid : bool;
    payment_proof : option string;
    payment_msg : option MsgRef;
    payment_txn : option string
  }.

Definition set_paid (b : bool) (m : t) : t :=
    mk (discord_id m) (ign m) b (payment_proof m) (payment_msg m)
       (payment_txn m).
Definition set_payment_proof (p : option string) (m : t) : t :=
    mk (discord_id m) (ign m) (paid m) p (payment_msg m) (payment_txn m).
Definition set_payment_msg (r : option MsgRef) (m : t) : t :=
    mk (discord_id m) (ign m) (paid m) (payment_proof m) r (payment_txn m).
Definition set_payment_txn (x : option string) (m : t) : t :=
    mk (discord_id m) (ign m) (paid m) (payment_proof m) (payment_msg m) x.
End Member.

Module Team.
Record t := mk {
    team_name : string;
    captain_id : Z;
    members : list Member.t;
    confirmed : bool;
    (** the key ["admin_msg"] is absent until the creation notice is posted *)
    admin_msg : option MsgRef
  }.

Definition set_members (l : list Member.t) (x : t) : t :=
    mk (team_name x) (captain_id x) l (confirmed x) (admin_msg x).
Definition set_confirmed (b : bool) (x : t) : t :=
    mk (team_name x) (captain_id x) (members x) b (admin_msg x).
Definition set_admin_msg (r : option MsgRef) (x : t) : t :=
    mk (team_name x) (captain_id x) (members x) (confirmed x) r.
End Team.

Module Payment.
Record t := mk {
    type : string;
    user_id : option Z;
    team_code : option string;
    channel_id : Z;
    message_id : Z;
    status : string
  }.

Definition set_status (s : string) (p : t) : t :=
    mk (type p) (user_id p) (team_code p) (channel_id p) (message_id p) s.
End Payment.

Record Data := mkData {
  solos : Dict.t Solo.t;
  teams : Dict.t Team.t;
  payments : Dict.t Payment.t
}.

Definition set_solos (x : Dict.t Solo.t) (d : Data) : Data :=
  mkData x (teams d) (payments d).
Definition set_teams (x : Dict.t Team.t) (d : Data) : Data :=
  mkData (solos d) x (payments d).
Definition set_payments (x : Dict.t Payment.t) (d : Data) : Data :=
  mkData (solos d) (teams d) x.

(** [{"solos": {}, "teams": {}, "payments": {}}] *)
Definition empty_data : Data := mkData Dict.empty Dict.empty Dict.empty.

(** ** The chat platform, as far as the handlers see it *)

Record User := mkUser { uid : Z; name : string }.

(** [user.mention], also written [f"<@{id}>"] in the source *)
Definition mention_or_id (user_id : Z) : string := "<@" ++ str user_id ++ ">".
Definition mention (u : User) : string := mention_or_id (uid u).

Record Embed := mkEmbed {
  title : option string;
  color : string;
  fields : list (string * string);
  footer : option string
}.

(** [discord.Embed()] *)
Definition blank_embed : Embed := mkEmbed None "default" [] None.

(** A text channel.  [readable] is false when the bot may not read the
    channel's history: [fetch_message] then raises [Forbidden]. *)
Record Channel := mkChannel {
  ch_id : Z;
  ch_name : string;
  readable : bool
}.

Record Guild := mkGuild {
  guild_id : Z;
  text_channels : list Channel
}.

(** A message carrying embeds.  [editable] is false when the platform
    refuses the bot's edit: [msg.edit] then raises [Forbidden]. *)
Record Message := mkMessage {
  msg_channel : Z;
  msg_id : Z;
  embeds : list Embed;
  editable : bool
}.

Definition CHANNEL_REGISTRATION : string := "registration".
Definition CHANNEL_PAYMENTS : string := "payments".
Definition ROLE_PARTICIPANT : string := "Registered Player".
Definition ROLE_CAPTAIN : string := "Team Captain".

(** Where a text message goes: a user's DM channel, a guild channel, or the
    channel the command was invoked in ([ctx.send]). *)
Inductive Dest :=
| DM (user_id : Z)
| Chan (channel_id : Z)
| Ctx.

(** What the bot did, as an outside observer sees it. *)
Inductive Event :=
| Send (dest : Dest) (text : string)
| Wait (timeout : Z)
| Save (d : Data)
| Post (channel_id message_id : Z) (e : Embed)
| EditMsg (channel_id message_id : Z) (e : Embed)
| GrantRole (user_id : Z) (role : string).

Record World := mkWorld {
  (** [data.json]; [None] while the file does not exist *)
  disk : option Data;
  (** outcomes of the coming [bot.wait_for] calls of the dialogue: the
      content of the next matching message, or [None] for a timeout; when no
      reply is left the wait times out *)
  inbox : list (option string);
  (** the embed messages present in guild channels *)
  messages : list Message;
  (** the id the platform gives to the next message *)
  next_message_id : Z;
  (** the pseudo-random generator: draw number [i] *)
  rng : nat -> nat;
  rng_pos : nat;
  (** how many rounds of a [while] loop a run is followed for *)
  loop_budget : nat;
  (** [bot.guilds] *)
  bot_guilds : list Guild;
  GUILD_ID : option Z;
  UPI_ID : string;
  (** users who do not accept direct messages *)
  dms_closed : list Z;
  (** the events so far, most recent first *)
  log : list Event
}.

Definition set_disk (x : option Data) (w : World) : World :=
  mkWorld x (inbox w) (messages w) (next_message_id w) (rng w) (rng_pos w)
    (loop_budget w) (bot_guilds w) (GUILD_ID w) (UPI_ID w) (dms_closed w)
    (log w).
Definition set_inbox (x : list (option string)) (w : World) : World :=
  mkWorld (disk w) x (messages w) (next_message_id w) (rng w) (rng_pos w)
    (loop_budget w) (bot_guilds w) (GUILD_ID w) (UPI_ID w) (dms_closed w)
    (log w).
Definition set_messages (x : list Message) (w : World) : World :=
  mkWorld (disk w) (inbox w) x (next_message_id w) (rng w) (rng_pos w)
    (loop_budget w) (bot_guilds w) (GUILD_ID w) (UPI_ID w) (dms_closed w)
    (log w).
Definition set_next_message_id (x : Z) (w : World) : World :=
  mkWorld (disk w) (inbox w) (messages w) x (rng w) (rng_pos w)
    (loop_budget w) (bot_guilds w) (GUILD_ID w) (UPI_ID w) (dms_closed w)
    (log w).
Definition set_rng_pos (x : nat) (w : World) : World :=
  mkWorld (disk w) (inbox w) (messages w) (next_message_id w) (rng w) x
    (loop_budget w) (bot_guilds w) (GUILD_ID w) (UPI_ID w) (dms_closed w)
    (log w).
Definition set_log (x : list Event) (w : World) : World :=
  mkWorld (disk w) (inbox w) (messages w) (next_message_id w) (rng w)
    (rng_pos w) (loop_budget w) (bot_guilds w) (GUILD_ID w) (UPI_ID w)
    (dms_closed w) x.

Definition emit (e : Event) (w : World) : World := set_log (e :: log w) w.

(** ** The monad of handlers: state, exceptions, early [return] *)

Inductive Exn := TimeoutError | Forbidden | NotFound | IndexError | KeyError.

Inductive Outcome (A : Type) :=
| Normal (a : A)
(** a bare [return] that has not yet reached its function's boundary *)
| Returned
| Raised (e : Exn)
(** a loop that was still running when [loop_budget] ran out *)
| Diverged.

Arguments Normal {A} a.
Arguments Returned {A}.
Arguments Raised {A} e.
Arguments Diverged {A}.

Definition M (A : Type) : Type := World -> Outcome A * World.

Definition ret {A} (a : A) : M A := fun w => (Normal a, w).

Definition bind {A B} (m : M A) (k : A -> M B) : M B :=
  fun w =>
    match m w with
    | (Normal a, w') => k a w'
    | (Returned, w') => (Returned, w')
    | (Raised e, w') => (Raised e, w')
    | (Diverged, w') => (Diverged, w')
    end.

Declare Scope py_scope.
Delimit Scope py_scope with py.
Notation "x <- m ;; k" := (bind m (fun x => k))
  (at level 61, m at next level, right associativity) : py_scope.
Notation "m ;; k" := (bind m (fun _ => k))
  (at level 61, right associativity) : py_scope.
Notation "'pass'" := (ret tt) : py_scope.
Open Scope py_scope.

(** [return] *)
Definition return_ {A} : M A := fun w => (Returned, w).

(** [raise e] *)
Definition raise {A} (e : Exn) : M A := fun w => (Raised e, w).

(** [try: body except <caught>: handler] *)
Definition try_except {A} (body : M A) (caught : Exn -> bool) (handler : M A)
  : M A :=
  fun w =>
    match body w with
    | (Raised e, w') => if caught e then handler w' else (Raised e, w')
    | r => r
    end.

(** The boundary of a [def]: a [return] inside the body ends the call. *)
Definition def (body : M unit) : M unit :=
  fun w =>
    match body w with
    | (Returned, w') => (Normal tt, w')
    | r => r
    end.

Definition is_timeout (e : Exn) : bool :=
  match e with TimeoutError => true | _ => false end.
Definition is_forbidden (e : Exn) : bool :=
  match e with Forbidden => true | _ => false end.
Definition is_not_found_or_forbidden (e : Exn) : bool :=
  match e with NotFound | Forbidden => true | _ => false end.
Definition any_exception (e : Exn) : bool := true.

(** The world a program leaves, and its outcome. *)
Definition run {A} (m : M A) (w : World) : World := snd (m w).
Definition outcome {A} (m : M A) (w : World) : Outcome A := fst (m w).

(** ** Primitive operations *)

(** [load_data]: reads [data.json], creating it with empty collections when
    it is missing. *)
Definition load_data : M Data :=
  fun w =>
    match disk w with
    | None => (Normal empty_data, set_disk (Some empty_data) w)
    | Some data => (Normal data, w)
    end.

(** [save_data] *)
Definition save_data (data : Data) : M unit :=
  fun w => (Normal tt, emit (Save data) (set_disk (Some data) w)).

(** [channel.send(text)] / [ctx.send(text)] *)
Definition send (dest : Dest) (text : string) : M unit :=
  fun w => (Normal tt, emit (Send dest text) w).

(** Opening a DM and sending to a user who may refuse direct messages:
    raises [discord.Forbidden] then. *)
Definition send_dm (user_id : Z) (text : string) : M unit :=
  fun w =>
    if existsb (Z.eqb user_id) (dms_closed w)
    then (Raised Forbidden, w)
    else (Normal tt, emit (Send (DM user_id) text) w).

(** [bot.wait_for("message", check=..., timeout=timeout)]: the content of the
    next message of the session's user, or [asyncio.TimeoutError]. *)
Definition wait_for (timeout : Z) : M string :=
  fun w =>
    match inbox w with
    | Some content :: rest =>
        (Normal content, emit (Wait timeout) (set_inbox rest w))
    | None :: rest =>
        (Raised TimeoutError, emit (Wait timeout) (set_inbox rest w))
    | [] => (Raised TimeoutError, emit (Wait timeout) w)
    end.

(** [d[k]], raising [KeyError] *)
Definition getitem {V} (d : Dict.t V) (k : string) : M V :=
  match Dict.get k d with
  | Some v => ret v
  | None => raise KeyError
  end.

(** Role provisioning and granting belong to the platform; the handlers
    swallow its failures, so a grant is recorded as an event only. *)
Definition grant_role (user_id : Z) (role : string) : M unit :=
  fun w => (Normal tt, emit (GrantRole user_id role) w).

Definition get_UPI_ID : M string := fun w => (Normal (UPI_ID w), w).

(** ** Join codes *)

(** [string.ascii_uppercase + string.digits] *)
Definition alphabet : list ascii :=
  list_ascii_of_string "ABCDEFGHIJKLMNOPQRSTUVWXYZ0123456789".

(** One draw of an index below [n], as [random.choices] makes for each of
    its picks. *)
Definition random_index (n : nat) : M nat :=
  fun w =>
    (Normal (Nat.modulo (rng w (rng_pos w)) n), set_rng_pos (S (rng_pos w)) w).

(** [random.choices(population, k=k)] *)
Fixpoint random_choices (population : list ascii) (k : nat) : M (list ascii) :=
  match k with
  | O => ret []
  | S k' =>
      i <- random_index (List.length population) ;;
      rest <- random_choices population k' ;;
      ret (nth i population zero :: rest)
  end.

(** [make_join_code(length)]; the source calls it with the default
    [length = 6]. *)
Definition make_join_code (length : nat) : M string :=
  picks <- random_choices alphabet length ;;
  ret (string_of_list_ascii picks).

(** [while code in data["teams"]: code = make_join_code()] *)
Fixpoint ensure_unique_code (budget : nat) (data : Data) (code : string)
  : M string :=
  if Dict.mem code (teams data) then
    match budget with
    | O => fun w => (Diverged, w)
    | S budget' =>
        code' <- make_join_code 6 ;;
        ensure_unique_code budget' data code'
    end
  else ret code.

(** ** Guild lookup and notices *)

(** [bot.get_guild(GUILD_ID) if GUILD_ID else
     (bot.guilds[0] if bot.guilds else None)] *)
Definition default_guild_in (w : World) : option Guild :=
  let first := hd_error (bot_guilds w) in
  match GUILD_ID w with
  | None => first
  | Some gid =>
      if gid =? 0 then first
      else find (fun g => guild_id g =? gid) (bot_guilds w)
  end.

Definition default_guild : M (option Guild) :=
  fun w => (Normal (default_guild_in w), w).

(** [guild or (...)] *)
Definition target_guild_of (guild : option Guild) : M (option Guild) :=
  match guild with
  | Some g => ret (Some g)
  | None => default_guild
  end.

(** [discord.utils.get(guild.text_channels, name=name)] *)
Definition channel_named (guild : Guild) (name : string) : option Channel :=
  find (fun c => (ch_name c =? name)%string) (text_channels guild).

(** [guild.get_channel(channel_id)] *)
Definition get_channel (guild : Guild) (channel_id : Z) : option Channel :=
  find (fun c => ch_id c =? channel_id) (text_channels guild).

Definition same_message (channel_id message_id : Z) (m : Message) : bool :=
  (msg_channel m =? channel_id) && (msg_id m =? message_id).

(** [ch.send(embed=embed)]: a new message of the bot; its id is returned. *)
Definition send_embed (ch : Channel) (embed : Embed) : M Z :=
  fun w =>
    let id := next_message_id w in
    (Normal id,
     emit (Post (ch_id ch) id embed)
       (set_next_message_id (id + 1)
          (set_messages (messages w ++ [mkMessage (ch_id ch) id [embed] true])
             w))).

(** [ch.fetch_message(message_id)] *)
Definition fetch_message (ch : Channel) (message_id : Z) : M Message :=
  fun w =>
    if readable ch then
      match find (same_message (ch_id ch) message_id) (messages w) with
      | Some m => (Normal m, w)
      | None => (Raised NotFound, w)
      end
    else (Raised Forbidden, w).

(** [msg.edit(embed=embed)] *)
Definition edit_message (msg : Message) (embed : Embed) : M unit :=
  fun w =>
    if editable msg then
      (Normal tt,
       emit (EditMsg (msg_channel msg) (msg_id msg) embed)
         (set_messages
            (map (fun m =>
                    if same_message (msg_channel msg) (msg_id msg) m
                    then mkMessage (msg_channel m) (msg_id m) [embed]
                           (editable m)
                    else m)
               (messages w))
            w))
    else (Raised Forbidden, w).

Definition footer_text (upi : string) : string :=
  "FragNation Genesis 2025 - UPI: " ++ upi.

(** [post_payment_embed(guild, title, fields)] *)
Definition post_payment_embed (guild : Guild) (title : string)
    (fields : list (string * string)) : M (Z * Z) :=
  ch <- match channel_named guild CHANNEL_PAYMENTS with
        | Some ch => ret ch
        | None =>
            match text_channels guild with
            | ch :: _ => ret ch
            | [] => raise IndexError
            end
        end ;;
  upi <- get_UPI_ID ;;
  let embed := mkEmbed (Some title) "orange" fields (Some (footer_text upi)) in
  msg_id <- send_embed ch embed ;;
  ret (ch_id ch, msg_id).

(** [edit_payment_embed(guild, channel_id, message_id, new_fields,
    new_title)], over the [ch.send(embed=embed)] of its last line: the only
    platform call of the function that no [try] guards. *)
Definition edit_payment_embed_with (send_embed : Channel -> Embed -> M Z)
    (guild : Guild) (channel_id message_id : Z)
    (new_fields : list (string * string)) (new_title : option string)
  : M unit :=
  def (
    match get_channel guild channel_id with
    | None => return_
    | Some ch =>
        msg <- try_except (fetch_message ch message_id)
                 is_not_found_or_forbidden return_ ;;
        let embed :=
          match embeds msg with e :: _ => e | [] => blank_embed end in
        let embed :=
          if truthy new_title
          then mkEmbed new_title (color embed) (fields embed) (footer embed)
          else embed in
        upi <- get_UPI_ID ;;
        let embed :=
          mkEmbed (title embed) (color embed) new_fields
            (Some (footer_text upi)) in
        try_except (edit_message msg embed) is_forbidden
          (send_embed ch embed ;; pass)
    end).

(** The function on the platform of the model, where a channel accepts what
    the bot sends. *)
Definition edit_payment_embed (guild : Guild) (channel_id message_id : Z)
    (new_fields : list (string * string)) (new_title : option string)
  : M unit :=
  edit_payment_embed_with send_embed guild channel_id message_id new_fields
    new_title.

(** ** Invocation context *)

Record Context := mkContext {
  author : User;
  (** [isinstance(ctx.channel, discord.DMChannel)] *)
  in_dm : bool;
  (** [ctx.guild] *)
  guild : option Guild;
  (** whether the author holds the [manage_guild] permission *)
  manage_guild : bool
}.

Definition CANCEL : string := "cancel".
Definition TIMED_OUT_REGISTER : string :=
  "Timed out. Please run `!register` again when ready.".
Definition TIMED_OUT_JOIN : string :=
  "Timed out. Please run `!jointeam <CODE>` again when ready.".
Definition REGISTRATION_CANCELLED : string := "Registration cancelled.".
Definition JOIN_CANCELLED : string := "Join cancelled.".
Definition NOT_IN_DM : string :=
  "Please use this command in a DM with the bot (privacy).".
Definition JOIN_USAGE : string :=
  "Usage: `!jointeam <CODE>` (the join code is provided by team captain).".
Definition INVALID_CODE : string :=
  "Invalid join code. Please check with your team captain.".
Definition ALREADY_MEMBER : string := "You are already a member of this team.".
Definition TEAM_FULL : string := "This team already has 5 members.".
Definition PENDING_STATUS : string := "Pending Verification".

(** ** Solo registration (in DM) *)

Definition solo_questions (upi : string) : list (string * string) :=
  [ ("What is your REAL NAME? (exact full name)", "real_name");
    ("Enter your VALORANT IGN (In-Game Name)", "ign");
    ("Current Rank (e.g., Gold II)", "current_rank");
    ("Peak Rank (e.g., Immortal I)", "peak_rank");
    ("Please pay Rs 50 to UPI ID: `" ++ upi ++
     "` and reply here with the **transaction ID** OR upload a screenshot link. After payment, enter the transaction ID or paste the screenshot URL:",
     "payment_proof") ].

(** The body of [for q_text, key in questions: ...] *)
Fixpoint ask_questions (user : User) (questions : list (string * string))
    (answers : Dict.t string) : M (Dict.t string) :=
  match questions with
  | [] => ret answers
  | (q_text, key) :: rest =>
      send (DM (uid user)) q_text ;;
      content <- wait_for 600 ;;
      let text := strip content in
      if (lower text =? CANCEL)%string then
        send (DM (uid user)) REGISTRATION_CANCELLED ;;
        return_
      else ask_questions user rest (Dict.set key text answers)
  end.

Definition handle_solo_registration (user : User) (guild : option Guild)
  : M unit :=
  def (
    upi <- get_UPI_ID ;;
    answers <- try_except (ask_questions user (solo_questions upi) Dict.empty)
                 is_timeout
                 (send (DM (uid user)) TIMED_OUT_REGISTER ;; return_) ;;
    data <- load_data ;;
    real_name <- getitem answers "real_name" ;;
    ign <- getitem answers "ign" ;;
    current_rank <- getitem answers "current_rank" ;;
    peak_rank <- getitem answers "peak_rank" ;;
    payment_proof <- getitem answers "payment_proof" ;;
    let record :=
      Solo.mk (uid user) real_name ign current_rank peak_rank false
        payment_proof None None in
    let data := set_solos (Dict.set (str (uid user)) record (solos data)) data in
    target_guild <- target_guild_of guild ;;
    match target_guild with
    | None =>
        send (DM (uid user))
          "Registration saved locally but bot is not in any guild to post payments. Contact admin." ;;
        save_data data ;;
        return_
    | Some target_guild =>
        let fields :=
          [ ("Type", "Solo Registration");
            ("Player", mention user ++ " (ID: " ++ str (uid user) ++ ")");
            ("Real Name", real_name);
            ("IGN", ign);
            ("Current Rank", current_rank);
            ("Peak Rank", peak_rank);
            ("Payment Proof", payment_proof);
            ("Status", PENDING_STATUS) ] in
        posted <- post_payment_embed target_guild "New Solo Registration"
                    fields ;;
        let '(channel_id, message_id) := posted in
        let record := Solo.set_payment_msg (Some (mkMsgRef channel_id message_id)) record in
        let data :=
          set_solos (Dict.set (str (uid user)) record (solos data)) data in
        let data :=
          set_payments
            (Dict.set ("solo-" ++ str (uid user))
               (Payment.mk "solo" (Some (uid user)) None channel_id message_id
                  "pending")
               (payments data))
            data in
        save_data data ;;
        send (DM (uid user))
          "Thanks - your solo registration is submitted and sent to admins for verification. You will be notified once verified." ;;
        match channel_named target_guild CHANNEL_REGISTRATION with
        | Some reg_ch =>
            match channel_named target_guild CHANNEL_PAYMENTS with
            | Some pay_ch =>
                send (Chan (ch_id reg_ch))
                  ("New solo registration received from " ++ mention user ++
                   " (check <#" ++ str (ch_id pay_ch) ++ ">).")
            | None => pass
            end
        | None => pass
        end
    end).

(** ** Team registration (in DM) *)

Definition handle_team_registration (user : User) (guild : option Guild)
  : M unit :=
  def (
    team_name <-
      try_except
        (send (DM (uid user)) "Enter your desired TEAM NAME (keep it short)." ;;
         content <- wait_for 300 ;;
         let team_name := strip content in
         if (lower team_name =? CANCEL)%string then
           send (DM (uid user)) REGISTRATION_CANCELLED ;;
           return_
         else ret team_name)
        is_timeout
        (send (DM (uid user)) TIMED_OUT_REGISTER ;; return_) ;;
    code <- make_join_code 6 ;;
    data <- load_data ;;
    code <- (fun w => ensure_unique_code (loop_budget w) data code w) ;;
    let team :=
      Team.mk team_name (uid user)
        [ Member.mk (uid user) None false None None None ] false None in
    let data := set_teams (Dict.set code team (teams data)) data in
    save_data data ;;
    send (DM (uid user))
      ("Team **" ++ team_name ++
       "** created. Share this join code with your teammates: `" ++ code ++
       "` Each teammate should DM the bot and run the command: `!jointeam <CODE>`") ;;
    target_guild <- target_guild_of guild ;;
    match target_guild with
    | Some target_guild =>
        let fields :=
          [ ("Type", "Team Created (Awaiting members/payments)");
            ("Team Name", team_name);
            ("Join Code", code);
            ("Captain", mention user ++ " (ID: " ++ str (uid user) ++ ")");
            ("Members (so far)", mention user) ] in
        posted <- post_payment_embed target_guild "New Team Created" fields ;;
        let '(channel_id, message_id) := posted in
        let team := Team.set_admin_msg (Some (mkMsgRef channel_id message_id)) team in
        let data := set_teams (Dict.set code team (teams data)) data in
        let data :=
          set_payments
            (Dict.set ("team-" ++ code ++ "-created")
               (Payment.mk "team_created" None (Some code) channel_id
                  message_id "awaiting_members")
               (payments data))
            data in
        save_data data
    | None => pass
    end).

(** ** [!register] *)

Definition register_cmd (ctx : Context) : M unit :=
  def (
    let user := author ctx in
    try_except
      (send_dm (uid user)
         ("Hello " ++ name user ++
          "! Welcome to **FragNation Genesis 2025** registration. Do you want to register as `solo` or `team`? Reply with `solo` or `team`."))
      is_forbidden
      (send Ctx
         (mention user ++ ", I couldn't DM you. Please enable DMs and try again.") ;;
       return_) ;;
    reply <- try_except (wait_for 300) is_timeout
               (send (DM (uid user)) TIMED_OUT_REGISTER ;; return_) ;;
    let choice := lower (strip reply) in
    if (choice =? "solo")%string then
      send (DM (uid user))
        "You chose **Solo** registration. I'll ask a few private questions. (Reply 'cancel' at any time to abort.)" ;;
      handle_solo_registration user (guild ctx)
    else if (choice =? "team")%string then
      send (DM (uid user))
        "You chose **Team** registration. I'll ask for the Team Name and create a join code that your teammates can use in DM. (Reply 'cancel' at any time to abort.)" ;;
      handle_team_registration user (guild ctx)
    else
      send (DM (uid user))
        "Unrecognized option. Please run `!register` and reply with `solo` or `team`.").

(** ** [!jointeam <CODE>] (DM only) *)

Definition is_member (user_id : Z) (m : Member.t) : bool :=
  Member.discord_id m =? user_id.

(** Mutates in place the first element of a list that satisfies [p], as a
    [for] loop does that assigns to the element it finds and then stops. *)
Fixpoint update_first {A} (p : A -> bool) (f : A -> A) (l : list A) : list A :=
  match l with
  | [] => []
  | x :: r => if p x then f x :: r else x :: update_first p f r
  end.

Definition opt_str (o : option string) : string :=
  match o with Some s => s | None => "None" end.

Definition members_str (members : list Member.t) : string :=
  join ", " (map (fun m => mention_or_id (Member.discord_id m)) members).

(** [!jointeam <CODE>], over [bot.wait_for] as the event loop serves it to
    this handler: the handler is suspended there, and other handlers may run
    before its reply arrives. *)
Definition jointeam_cmd_with (wait_for : Z -> M string) (ctx : Context)
    (code : option string) : M unit :=
  def (
    let user := author ctx in
    (if negb (in_dm ctx) then send Ctx NOT_IN_DM ;; return_ else pass) ;;
    code <- match code with
            | None => send Ctx JOIN_USAGE ;; return_
            | Some c =>
                if (c =? EmptyString)%string
                then send Ctx JOIN_USAGE ;; return_
                else ret c
            end ;;
    data <- load_data ;;
    let code := upper (strip code) in
    team <- match Dict.get code (teams data) with
            | None => send Ctx INVALID_CODE ;; return_
            | Some team => ret team
            end ;;
    (if existsb (is_member (uid user)) (Team.members team)
     then send Ctx ALREADY_MEMBER ;; return_ else pass) ;;
    (if (5 <=? List.length (Team.members team))%nat
     then send Ctx TEAM_FULL ;; return_ else pass) ;;
    send Ctx
      ("Joining team **" ++ Team.team_name team ++
       "**. Please reply with your VALORANT IGN:") ;;
    upi <- get_UPI_ID ;;
    replies <-
      try_except
        (content <- wait_for 300 ;;
         let ign := strip content in
         if (lower ign =? CANCEL)%string then
           send Ctx JOIN_CANCELLED ;; return_
         else
           send Ctx
             ("Please pay Rs 50 to `" ++ upi ++
              "` and reply here with the transaction ID or paste a screenshot link:") ;;
           content <- wait_for 600 ;;
           let payment_proof := strip content in
           ret (ign, payment_proof))
        is_timeout
        (send Ctx TIMED_OUT_JOIN ;; return_) ;;
    let '(ign, payment_proof) := replies in
    let member_entry :=
      Member.mk (uid user) (Some ign) false (Some payment_proof) None None in
    let team := Team.set_members (Team.members team ++ [member_entry]) team in
    let data := set_teams (Dict.set code team (teams data)) data in
    save_data data ;;
    target_guild <- default_guild ;;
    match target_guild with
    | None =>
        send Ctx
          "Bot is not connected to any guild to post payments. Contact admins."
    | Some target_guild =>
        let fields :=
          [ ("Type", "Team Join - " ++ Team.team_name team);
            ("Team Code", code);
            ("Player", mention user ++ " (ID: " ++ str (uid user) ++ ")");
            ("IGN", ign);
            ("Payment Proof", payment_proof);
            ("Status", PENDING_STATUS) ] in
        posted <- post_payment_embed target_guild
                    "Team Member Payment (Pending)" fields ;;
        let '(channel_id, message_id) := posted in
        let payment_key := "team-" ++ code ++ "-member-" ++ str (uid user) in
        data <- load_data ;;
        team <- getitem (teams data) code ;;
        let team :=
          Team.set_members
            (update_first (is_member (uid user))
               (fun m =>
                  Member.set_payment_proof (Some payment_proof)
                    (Member.set_payment_msg
                       (Some (mkMsgRef channel_id message_id)) m))
               (Team.members team))
            team in
        let data := set_teams (Dict.set code team (teams data)) data in
        let data :=
          set_payments
            (Dict.set payment_key
               (Payment.mk "team_member" (Some (uid user)) (Some code)
                  channel_id message_id "pending")
               (payments data))
            data in
        save_data data ;;
        send Ctx
          "Thanks - your join request and payment proof have been submitted for admin verification." ;;
        match Team.admin_msg team with
        | Some admin_msg_info =>
            let new_fields :=
              [ ("Type", "Team Created (Awaiting members/payments)");
                ("Team Name", Team.team_name team);
                ("Join Code", code);
                ("Captain", mention_or_id (Team.captain_id team));
                ("Members (so far)", members_str (Team.members team)) ] in
            edit_payment_embed target_guild (ref_channel_id admin_msg_info)
              (ref_message_id admin_msg_info) new_fields None
        | None => pass
        end
    end).

(** The handler when nothing else runs while it waits. *)
Definition jointeam_cmd (ctx : Context) (code : option string) : M unit :=
  jointeam_cmd_with wait_for ctx code.

(** ** Admin commands: [!verify] and [!reject] *)

Definition nl : string := String (ascii_of_nat 10) EmptyString.

Definition VERIFIED_BY_ADMIN : string := "verified-by-admin".

(** [any(m["discord_id"] == user_id for m in team["members"])] on an item of
    [data["teams"].items()] *)
Definition has_member (user_id : Z) (item : string * Team.t) : bool :=
  existsb (is_member user_id) (Team.members (snd item)).

(** [len(team["members"]) == 5 and all(mbr.get("paid", False) ...)] *)
Definition complete (team : Team.t) : bool :=
  (List.length (Team.members team) =? 5)%nat
  && forallb Member.paid (Team.members team).

Definition solo_fields (member : User) (solo : Solo.t) (status : string)
  : list (string * string) :=
  [ ("Type", "Solo Registration");
    ("Player", mention member ++ " (ID: " ++ str (uid member) ++ ")");
    ("Real Name", Solo.real_name solo);
    ("IGN", Solo.ign solo);
    ("Current Rank", Solo.current_rank solo);
    ("Peak Rank", Solo.peak_rank solo);
    ("Payment Proof", Solo.payment_proof solo);
    ("Status", status) ].

Definition member_fields (member : User) (code : string) (team : Team.t)
    (m : Member.t) (status : string) : list (string * string) :=
  [ ("Type", "Team Join - " ++ Team.team_name team);
    ("Team Code", code);
    ("Player", mention member ++ " (ID: " ++ str (uid member) ++ ")");
    ("IGN", opt_str (Member.ign m));
    ("Payment Proof", opt_str (Member.payment_proof m));
    ("Status", status) ].

(** [!verify @user [txn_ref]].  The two nested loops over teams and members
    run their body once, at the first member entry of the first team (in
    dict order) whose [discord_id] is the member's, and return. *)
Definition verify_cmd (ctx : Context) (guild : Guild) (member : User)
    (txn_ref : option string) : M unit :=
  def (
    data <- load_data ;;
    let uid_ := str (uid member) in
    let status :=
      "Verified by " ++ mention (author ctx) ++ nl ++ "Txn: " ++
      or_default txn_ref "N/A" in
    match Dict.get uid_ (solos data) with
    | Some solo =>
        let solo :=
          Solo.set_payment_txn (Some (or_default txn_ref VERIFIED_BY_ADMIN))
            (Solo.set_paid true solo) in
        let data := set_solos (Dict.set uid_ solo (solos data)) data in
        let pay_key := "solo-" ++ uid_ in
        data <-
          match Dict.get pay_key (payments data) with
          | Some pay =>
              let pay := Payment.set_status "verified" pay in
              let data :=
                set_payments (Dict.set pay_key pay (payments data)) data in
              edit_payment_embed guild (Payment.channel_id pay)
                (Payment.message_id pay) (solo_fields member solo status)
                (Some "Solo Payment Verified") ;;
              ret data
          | None => ret data
          end ;;
        grant_role (uid member) ROLE_PARTICIPANT ;;
        save_data data ;;
        send Ctx ("Marked " ++ mention member ++ " (solo) as verified.") ;;
        try_except
          (send_dm (uid member)
             ("Your payment for FragNation Genesis 2025 has been verified by "
              ++ name (author ctx) ++ "."))
          any_exception pass ;;
        return_
    | None =>
        match find (has_member (uid member)) (teams data) with
        | None =>
            send Ctx
              "Could not find this user in solos or teams data. Make sure they registered via DM before verifying."
        | Some (code, team) =>
            let mark m :=
              Member.set_payment_txn
                (Some (or_default txn_ref VERIFIED_BY_ADMIN))
                (Member.set_paid true m) in
            let team :=
              Team.set_members
                (update_first (is_member (uid member)) mark
                   (Team.members team))
                team in
            let pay_key := "team-" ++ code ++ "-member-" ++ str (uid member) in
            data <-
              match Dict.get pay_key (payments data) with
              | Some pay =>
                  let pay := Payment.set_status "verified" pay in
                  let data :=
                    set_payments (Dict.set pay_key pay (payments data)) data in
                  match find (is_member (uid member)) (Team.members team) with
                  | Some m =>
                      edit_payment_embed guild (Payment.channel_id pay)
                        (Payment.message_id pay)
                        (member_fields member code team m status)
                        (Some "Team Member Payment Verified")
                  | None => pass
                  end ;;
                  ret data
              | None => ret data
              end ;;
            grant_role (uid member) ROLE_PARTICIPANT ;;
            send Ctx
              ("Marked " ++ mention member ++ " as verified for team `" ++
               Team.team_name team ++ "`.") ;;
            try_except
              (send_dm (uid member)
                 ("Your payment for FragNation Genesis 2025 (team " ++
                  Team.team_name team ++ ") has been verified by " ++
                  name (author ctx) ++ "."))
              any_exception pass ;;
            team <-
              (if complete team then
                 let team := Team.set_confirmed true team in
                 match channel_named guild CHANNEL_REGISTRATION with
                 | Some reg_ch =>
                     send (Chan (ch_id reg_ch))
                       ("Team **" ++ Team.team_name team ++ "** (code `" ++
                        code ++ "`) is fully registered and confirmed!" ++ nl
                        ++ "Members: " ++ members_str (Team.members team))
                 | None => pass
                 end ;;
                 grant_role (Team.captain_id team) ROLE_CAPTAIN ;;
                 ret team
               else ret team) ;;
            let data :=
              set_teams
                (update_first (has_member (uid member))
                   (fun item => (fst item, team)) (teams data))
                data in
            save_data data ;;
            return_
        end
    end).

(** [!reject @user <reason>] *)
Definition reject_cmd (ctx : Context) (guild : Guild) (member : User)
    (reason : string) : M unit :=
  def (
    data <- load_data ;;
    let uid_ := str (uid member) in
    let status :=
      "Rejected by " ++ mention (author ctx) ++ nl ++ "Reason: " ++ reason in
    match Dict.get uid_ (solos data) with
    | Some solo =>
        let pay_key := "solo-" ++ uid_ in
        data <-
          match Dict.get pay_key (payments data) with
          | Some pay =>
              let pay := Payment.set_status "rejected" pay in
              let data :=
                set_payments (Dict.set pay_key pay (payments data)) data in
              edit_payment_embed guild (Payment.channel_id pay)
                (Payment.message_id pay) (solo_fields member solo status)
                (Some "Solo Payment Rejected") ;;
              ret data
          | None => ret data
          end ;;
        save_data data ;;
        try_except
          (send_dm (uid member)
             ("Your payment submission for FragNation Genesis 2025 was rejected by "
              ++ name (author ctx) ++ "." ++ nl ++ "Reason: " ++ reason ++ nl
              ++ "Please re-submit your payment proof or contact the admins."))
          any_exception pass ;;
        send Ctx ("Rejected solo payment for " ++ mention member ++ ".") ;;
        return_
    | None =>
        match find (has_member (uid member)) (teams data) with
        | None => send Ctx "Could not find this user in registration records."
        | Some (code, team) =>
            let pay_key := "team-" ++ code ++ "-member-" ++ str (uid member) in
            data <-
              match Dict.get pay_key (payments data) with
              | Some pay =>
                  let pay := Payment.set_status "rejected" pay in
                  let data :=
                    set_payments (Dict.set pay_key pay (payments data)) data in
                  match find (is_member (uid member)) (Team.members team) with
                  | Some m =>
                      edit_payment_embed guild (Payment.channel_id pay)
                        (Payment.message_id pay)
                        (member_fields member code team m status)
                        (Some "Team Member Payment Rejected")
                  | None => pass
                  end ;;
                  ret data
              | None => ret data
              end ;;
            try_except
              (send_dm (uid member)
                 ("Your payment for team **" ++ Team.team_name team ++
                  "** was rejected by " ++ name (author ctx) ++ "." ++ nl ++
                  "Reason: " ++ reason ++ nl ++
                  "Please re-submit your payment proof."))
              any_exception pass ;;
            send Ctx
              ("Rejected payment for " ++ mention member ++ " in team `" ++
               Team.team_name team ++ "`.") ;;
            save_data data
        end
    end).

(** ** Command dispatch *)

Inductive Command :=
| Register
| JoinTeam (code : option string)
| Verify (member : User) (txn_ref : option string)
| Reject (member : User) (reason : option string).

Definition MISSING_PERMISSION : string :=
  "You do not have permission to use this command.".

(** [@commands.has_permissions(manage_guild=True)]: the check fails outside a
    guild. *)
Definition with_manage_guild (ctx : Context) (body : Guild -> M unit)
  : M unit :=
  match guild ctx with
  | Some g => if manage_guild ctx then body g else send Ctx MISSING_PERMISSION
  | None => send Ctx MISSING_PERMISSION
  end.

(** One command, from its invocation to the end of its handler;
    [on_command_error] reports an exception the handler let through. *)
Definition invoke (ctx : Context) (c : Command) : M unit :=
  try_except
    match c with
    | Register => register_cmd ctx
    | JoinTeam code => jointeam_cmd ctx code
    | Verify member txn_ref =>
        with_manage_guild ctx (fun g => verify_cmd ctx g member txn_ref)
    | Reject member reason =>
        with_manage_guild ctx
          (fun g =>
             reject_cmd ctx g member
               match reason with
               | Some r => r
               | None => "No reason provided"
               end)
    end
    any_exception
    (send Ctx "Error: the command raised an exception").

(** ** Observations on runs *)

(** The content of the store: a missing file reads as empty collections. *)
Definition store_of (o : option Data) : Data :=
  match o with Some d => d | None => empty_data end.

Definition store (w : World) : Data := store_of (disk w).

(** The stores reachable from a missing [data.json] by any sequence of
    commands, each run in any state of the platform and from its invocation
    to the end of its handler before the next one starts.  Commands that
    overlap are the matter of [serves] below. *)
Inductive reachable : option Data -> Prop :=
| reachable_start : reachable None
| reachable_invoke (w : World) (ctx : Context) (c : Command) :
    reachable (disk w) -> reachable (disk (run (invoke ctx c) w)).

(** The timeouts of the waits in a log, the stores written, the notices
    published and edited. *)
Definition waits (l : list Event) : list Z :=
  flat_map (fun e => match e with Wait t => [t] | _ => [] end) l.
Definition saves (l : list Event) : list Data :=
  flat_map (fun e => match e with Save d => [d] | _ => [] end) l.
Definition posts (l : list Event) : list (Z * Z) :=
  flat_map (fun e => match e with Post c m _ => [(c, m)] | _ => [] end) l.
Definition edits (l : list Event) : list (Z * Z) :=
  flat_map (fun e => match e with EditMsg c m _ => [(c, m)] | _ => [] end) l.

(** The references of the notices present on the platform. *)
Definition notice_refs (w : World) : list (Z * Z) :=
  map (fun m => (msg_channel m, msg_id m)) (messages w).

(** [preserves I m R]: run from a world whose file satisfies [I], the program
    [m] leaves a file that satisfies [I], whatever its outcome, and a value
    that satisfies [R] when it ends normally. *)
Definition preserves (I : option Data -> Prop) {A} (m : M A) (R : A -> Prop)
  : Prop :=
  forall w, I (disk w) ->
    I (disk (snd (m w))) /\ forall a, fst (m w) = Normal a -> R a.

(** [pure m R]: the program never touches the file. *)
Definition pure {A} (m : M A) (R : A -> Prop) : Prop :=
  forall w, disk (snd (m w)) = disk w /\ forall a, fst (m w) = Normal a -> R a.

(** ** Invariants of the store *)

Definition STATUSES : list string := ["pending"; "verified"; "rejected"].

Definition ALL_STATUSES : list string :=
  ["pending"; "verified"; "rejected"; "awaiting_members"].

(** A team's flag agrees with its completeness. *)
Definition flag_agrees (item : string * Team.t) : Prop :=
  Team.confirmed (snd item) = complete (snd item).

Definition confirmed_iff_complete (o : option Data) : Prop :=
  Forall flag_agrees (teams (store_of o)).

Definition confirmed_at (code : string) (o : option Data) : Prop :=
  exists t, Dict.get code (teams (store_of o)) = Some t
            /\ Team.confirmed t = true.

(** ** The store as a transition system

    Every [save_data] of a handler writes a store that is one of the
    following steps away from the content of the file at that moment.  The
    steps record what the handlers do to [teams] and [payments]; [solos] is
    left free, no invariant below reads it. *)

(** [if key in payments: payments[key]["status"] = status] *)
Definition mark_status (key status : string) (ps : Dict.t Payment.t)
  : Dict.t Payment.t :=
  match Dict.get key ps with
  | Some pay => Dict.set key (Payment.set_status status pay) ps
  | None => ps
  end.

Definition solo_key (user_id : Z) : string := "solo-" ++ str user_id.
Definition created_key (code : string) : string := "team-" ++ code ++ "-created".
Definition member_key (code : string) (user_id : Z) : string :=
  "team-" ++ code ++ "-member-" ++ str user_id.

(** What [!verify] does to the entry of a member. *)
Definition mark_paid (txn_ref : option string) (m : Member.t) : Member.t :=
  Member.set_payment_txn (Some (or_default txn_ref VERIFIED_BY_ADMIN))
    (Member.set_paid true m).

(** What [!verify] does to the team of the member it found. *)
Definition verify_team (user_id : Z) (txn_ref : option string) (team : Team.t)
  : Team.t :=
  let team :=
    Team.set_members
      (update_first (is_member user_id) (mark_paid txn_ref)
         (Team.members team))
      team in
  if complete team then Team.set_confirmed true team else team.

(** What the second write of [!jointeam] does to the team. *)
Definition attach_notice (user_id : Z) (proof : string) (r : MsgRef)
    (team : Team.t) : Team.t :=
  Team.set_members
    (update_first (is_member user_id)
       (fun m =>
          Member.set_payment_proof (Some proof)
            (Member.set_payment_msg (Some r) m))
       (Team.members team))
    team.

Inductive store_step (d d' : Data) : Prop :=
| step_solo (user_id : Z) (notice : option (Z * Z)) :
    teams d' = teams d ->
    payments d' =
      match notice with
      | None => payments d
      | Some (c, m) =>
          Dict.set (solo_key user_id)
            (Payment.mk "solo" (Some user_id) None c m "pending") (payments d)
      end ->
    store_step d d'
| step_team_created (code : string) (team : Team.t) :
    Dict.get code (teams d) = None ->
    String.length code = 6%nat ->
    Team.confirmed team = false ->
    List.length (Team.members team) = 1%nat ->
    teams d' = Dict.set code team (teams d) ->
    payments d' = payments d ->
    store_step d d'
| step_team_noticed (code : string) (team : Team.t) (c m : Z) :
    Dict.get code (teams d) = Some team ->
    String.length code = 6%nat ->
    teams d' =
      Dict.set code (Team.set_admin_msg (Some (mkMsgRef c m)) team) (teams d) ->
    payments d' =
      Dict.set (created_key code)
        (Payment.mk "team_created" None (Some code) c m "awaiting_members")
        (payments d) ->
    store_step d d'
| step_joined (code : string) (team : Team.t) (entry : Member.t) :
    Dict.get code (teams d) = Some team ->
    existsb (is_member (Member.discord_id entry)) (Team.members team) = false ->
    (List.length (Team.members team) < 5)%nat ->
    Member.paid entry = false ->
    teams d' =
      Dict.set code (Team.set_members (Team.members team ++ [entry]) team)
        (teams d) ->
    payments d' = payments d ->
    store_step d d'
| step_join_noticed (code : string) (team : Team.t) (user_id : Z)
    (proof : string) (c m : Z) :
    Dict.get code (teams d) = Some team ->
    teams d' =
      Dict.set code (attach_notice user_id proof (mkMsgRef c m) team)
        (teams d) ->
    payments d' =
      Dict.set (member_key code user_id)
        (Payment.mk "team_member" (Some user_id) (Some code) c m "pending")
        (payments d) ->
    store_step d d'
| step_solo_status (user_id : Z) (status : string) :
    In status ["verified"; "rejected"] ->
    teams d' = teams d ->
    payments d' = mark_status (solo_key user_id) status (payments d) ->
    store_step d d'
| step_member_rejected (code : string) (team : Team.t) (user_id : Z) :
    find (has_member user_id) (teams d) = Some (code, team) ->
    teams d' = teams d ->
    payments d' =
      mark_status (member_key code user_id) "rejected" (payments d) ->
    store_step d d'
| step_member_verified (code : string) (team : Team.t) (user_id : Z)
    (txn_ref : option string) :
    find (has_member user_id) (teams d) = Some (code, team) ->
    teams d' =
      update_first (has_member user_id)
        (fun item => (fst item, verify_team user_id txn_ref team)) (teams d) ->
    payments d' =
      mark_status (member_key code user_id) "verified" (payments d) ->
    store_step d d'.

(** A join code in use has six characters. *)
Definition code_ok (item : string * Team.t) : Prop :=
  String.length (fst item) = 6%nat.

(** An entry of the payment index is either the record of a team's creation,
    whose status is the fixed ["awaiting_members"], or the record of a
    payment unit, whose status is one of [STATUSES]. *)
Definition payment_ok (item : string * Payment.t) : Prop :=
  (Payment.type (snd item) = "team_created"
   /\ Payment.status (snd item) = "awaiting_members"
   /\ exists c, String.length c = 6%nat /\ fst item = created_key c)
  \/ ((Payment.type (snd item) = "solo"
       \/ Payment.type (snd item) = "team_member")
      /\ In (Payment.status (snd item)) STATUSES).

Definition index_ok (o : option Data) : Prop :=
  Forall code_ok (teams (store_of o))
  /\ Forall payment_ok (payments (store_of o)).

(** ** Sample worlds

    A guild with a registration and a payments channel, a captain who
    registers the team "Foxes", four teammates who join it, and an admin who
    verifies all five. *)

Definition sample_guild : Guild :=
  mkGuild 1 [mkChannel 10 "registration" true; mkChannel 11 "payments" true].

Definition sample_world : World :=
  mkWorld None [] [] 100 (fun i => i) 0 10 [sample_guild] None "frag@upi" []
    [].

Definition dm_ctx (user_id : Z) : Context :=
  mkContext (mkUser user_id "player") true None false.

Definition admin_ctx : Context :=
  mkContext (mkUser 99 "admin") false (Some sample_guild) true.

(** The world after one more command, answered by [replies]. *)
Definition after (w : World) (ctx : Context) (c : Command)
    (replies : list (option string)) : World :=
  run (invoke ctx c) (set_inbox replies w).

Definition world_team : World :=
  after sample_world (dm_ctx 1) Register [Some "team"; Some "Foxes"].

Definition join_by (user_id : Z) (w : World) : World :=
  after w (dm_ctx user_id) (JoinTeam (Some "abcdef"))
    [Some "Jett"; Some "TXN-1"].

Definition verify_of (user_id : Z) (w : World) : World :=
  after w admin_ctx (Verify (mkUser user_id "player") None) [].

Definition world_full : World :=
  join_by 5 (join_by 4 (join_by 3 (join_by 2 world_team))).

Definition world_confirmed : World :=
  verify_of 5 (verify_of 4 (verify_of 3 (verify_of 2 (verify_of 1 world_full)))).

(** ** Auxiliary notions for the statements *)

(** The guild a registration posts its notice in: [ctx.guild] when the
    command came from a guild, else the default guild. *)
Definition resolve_guild (guild : option Guild) (w : World) : option Guild :=
  match guild with
  | Some g => Some g
  | None => default_guild_in w
  end.

(** The channel [post_payment_embed] posts in: the payments channel, else
    the guild's first text channel. *)
Definition notice_channel (g : Guild) : option Channel :=
  match channel_named g CHANNEL_PAYMENTS with
  | Some ch => Some ch
  | None => hd_error (text_channels g)
  end.

(** The code [make_join_code] builds from the draws at [pos .. pos + 5]. *)
Definition code_at (rng : nat -> nat) (pos : nat) : string :=
  string_of_list_ascii
    (map (fun i => nth (Nat.modulo (rng i) (List.length alphabet)) alphabet zero)
       (seq pos 6)).

(** The codes the uniqueness loop tries in turn, from the first one
    [code0]. *)
Definition nth_candidate (code0 : string) (rng : nat -> nat) (pos j : nat)
  : string :=
  match j with
  | O => code0
  | S j' => code_at rng (6 * j' + pos)
  end.

(** A reply that is not the cancel keyword. *)
Definition proceeds (content : string) : Prop :=
  (lower (strip content) =? CANCEL)%string = false.

(** A wait that times out: the next outcome is a timeout, or nothing comes
    any more. *)
Definition times_out (replies : list (option string)) : Prop :=
  replies = [] \/ exists rest, replies = None :: rest.

(** The embed an update writes. *)
Definition updated_embed (msg : Message) (new_fields : list (string * string))
    (new_title : option string) (upi : string) : Embed :=
  let embed := match embeds msg with e :: _ => e | [] => blank_embed end in
  mkEmbed (if truthy new_title then new_title else title embed) (color embed)
    new_fields (Some (footer_text upi)).

(** A world where the notice of a solo registration exists but the platform
    refuses edits of it. *)
Definition world_locked : World :=
  set_messages [mkMessage 11 50 [blank_embed] false] sample_world.

(** The team a captain creates, and the two stores the handler writes. *)
Definition new_team (user : User) (team_name : string) : Team.t :=
  Team.mk team_name (uid user)
    [Member.mk (uid user) None false None None None] false None.

Definition team_created (d : Data) (code : string) (team : Team.t) : Data :=
  set_teams (Dict.set code team (teams d)) d.

Definition team_noticed (d : Data) (code : string) (team : Team.t)
    (r : MsgRef) : Data :=
  let d1 := team_created d code team in
  set_payments
    (Dict.set (created_key code)
       (Payment.mk "team_created" None (Some code) (ref_channel_id r)
          (ref_message_id r) "awaiting_members")
       (payments d1))
    (set_teams (Dict.set code (Team.set_admin_msg (Some r) team) (teams d1))
       d1).

Definition codes_distinct (o : option Data) : Prop :=
  NoDup (Dict.keys (teams (store_of o))).

(** The entry a teammate's join appends, and the two stores [!jointeam]
    writes. *)
Definition new_member (user : User) (ign payment_proof : string) : Member.t :=
  Member.mk (uid user) (Some ign) false (Some payment_proof) None None.

Definition member_joined (d : Data) (code : string) (team : Team.t)
    (entry : Member.t) : Data :=
  set_teams
    (Dict.set code (Team.set_members (Team.members team ++ [entry]) team)
       (teams d))
    d.

Definition member_noticed (d : Data) (code : string) (team : Team.t)
    (entry : Member.t) (proof : string) (r : MsgRef) : Data :=
  let d1 := member_joined d code team entry in
  let team1 := Team.set_members (Team.members team ++ [entry]) team in
  set_payments
    (Dict.set (member_key code (Member.discord_id entry))
       (Payment.mk "team_member" (Some (Member.discord_id entry)) (Some code)
          (ref_channel_id r) (ref_message_id r) "pending")
       (payments d1))
    (set_teams
       (Dict.set code (attach_notice (Member.discord_id entry) proof r team1)
          (teams d1))
       d1).

(** The world once [load_data] has run. *)
Definition loaded (w : World) : World := snd (load_data w).

(** The code checks out: the dialogue starts. *)
Definition admits (ctx : Context) (c : string) (d : Data) (team : Team.t)
  : Prop :=
  in_dm ctx = true /\ (c =? EmptyString)%string = false
  /\ Dict.get (upper (strip c)) (teams d) = Some team
  /\ existsb (is_member (uid (author ctx))) (Team.members team) = false
  /\ (List.length (Team.members team) < 5)%nat.

Definition JOINING (team : Team.t) : string :=
  "Joining team **" ++ Team.team_name team ++
  "**. Please reply with your VALORANT IGN:".

Definition PAY_PROMPT (upi : string) : string :=
  "Please pay Rs 50 to `" ++ upi ++
  "` and reply here with the transaction ID or paste a screenshot link:".

(** What asking the first questions of [qs] leaves in the log, one reply
    of [contents] each, and the answers collected. *)
Fixpoint asked (user : User) (qs : list (string * string))
    (contents : list string) (l : list Event) : list Event :=
  match qs, contents with
  | (q_text, _) :: qs', _ :: cs =>
      asked user qs' cs (Wait 600 :: Send (DM (uid user)) q_text :: l)
  | _, _ => l
  end.

Fixpoint collected (qs : list (string * string)) (contents : list string)
    (answers : Dict.t string) : Dict.t string :=
  match qs, contents with
  | (_, key) :: qs', c :: cs =>
      collected qs' cs (Dict.set key (strip c) answers)
  | _, _ => answers
  end.

(** The text of question number [k]. *)
Definition question (qs : list (string * string)) (k : nat) : string :=
  fst (nth k qs (EmptyString, EmptyString)).

(** The record of a solo registration and the stores the handler writes:
    without a guild, the record alone; with one, the record with its notice
    reference and the index entry. *)
Definition solo_record (user : User) (a1 a2 a3 a4 a5 : string) : Solo.t :=
  Solo.mk (uid user) (strip a1) (strip a2) (strip a3) (strip a4) false
    (strip a5) None None.

Definition solo_saved (d : Data) (user : User) (record : Solo.t) : Data :=
  set_solos (Dict.set (str (uid user)) record (solos d)) d.

Definition solo_noticed (d : Data) (user : User) (record : Solo.t)
    (r : MsgRef) : Data :=
  let d0 := solo_saved d user record in
  let d1 :=
    set_solos
      (Dict.set (str (uid user)) (Solo.set_payment_msg (Some r) record)
         (solos d0))
      d0 in
  set_payments
    (Dict.set (solo_key (uid user))
       (Payment.mk "solo" (Some (uid user)) None (ref_channel_id r)
          (ref_message_id r) "pending")
       (payments d1))
    d1.

Definition TEAM_NAME_PROMPT : string :=
  "Enter your desired TEAM NAME (keep it short).".

Definition HELLO (user : User) : string :=
  "Hello " ++ name user ++
  "! Welcome to **FragNation Genesis 2025** registration. Do you want to register as `solo` or `team`? Reply with `solo` or `team`.".

Definition CHOSE_SOLO : string :=
  "You chose **Solo** registration. I'll ask a few private questions. (Reply 'cancel' at any time to abort.)".

Definition CHOSE_TEAM : string :=
  "You chose **Team** registration. I'll ask for the Team Name and create a join code that your teammates can use in DM. (Reply 'cancel' at any time to abort.)".

(** The world after the kind-selection question got [reply]. *)
Definition kind_asked (user : User) (rest : list (option string)) (w : World)
  : World :=
  emit (Wait 300) (set_inbox rest (emit (Send (DM (uid user)) (HELLO user)) w)).

(** A user who accepts direct messages. *)
Definition dm_open (user : User) (w : World) : Prop :=
  existsb (Z.eqb (uid user)) (dms_closed w) = false.

(** A store with one team of one member, and a world on it. *)
Definition small_store : Data :=
  mkData [] [("ABCDEF", new_team (mkUser 1 "cap") "Foxes")] [].

Definition small_world : World := set_disk (Some small_store) sample_world.

(** ** Read-only commands: [!pending], [!paymentsummary], [!myregistration] *)

(** [ctx.send(embed=embed)]: the reply is a new message of the bot, carrying
    the embed, in the channel of the invocation; [channel] is
    [ctx.channel.id]. *)
Definition reply_embed (channel : Z) (embed : Embed) : M unit :=
  fun w =>
    let id := next_message_id w in
    (Normal tt,
     emit (Post channel id embed)
       (set_next_message_id (id + 1)
          (set_messages (messages w ++ [mkMessage channel id [embed] true])
             w))).

(** [pay and pay.get("status") == "pending"] on [payments.get(pay_key)] *)
Definition is_pending (pay : option Payment.t) : bool :=
  match pay with
  | Some p => (Payment.status p =? "pending")%string
  | None => false
  end.

Definition solo_line (uid_ : string) (s : Solo.t) : string :=
  "Solo - <@" ++ uid_ ++ "> (IGN: " ++ Solo.ign s ++ ")".

Definition member_line (code : string) (team : Team.t) (m : Member.t)
  : string :=
  "Team " ++ Team.team_name team ++ " (" ++ code ++ ") - <@" ++
  str (Member.discord_id m) ++ "> (IGN: " ++ opt_str (Member.ign m) ++ ")".

(** [for uid, s in data["solos"].items(): ... pending_list.append(...)] *)
Definition pending_solos (data : Data) : list string :=
  flat_map
    (fun item =>
       if is_pending (Dict.get ("solo-" ++ fst item) (payments data))
       then [solo_line (fst item) (snd item)] else [])
    (solos data).

(** [for code, team in data["teams"].items(): for m in team["members"]: ...] *)
Definition pending_members (data : Data) : list string :=
  flat_map
    (fun item =>
       flat_map
         (fun m =>
            if is_pending
                 (Dict.get
                    ("team-" ++ fst item ++ "-member-" ++
                     str (Member.discord_id m))
                    (payments data))
            then [member_line (fst item) (snd item) m] else [])
         (Team.members (snd item)))
    (teams data).

Definition NO_PENDING : string := "No pending payments.".

(** [!pending] *)
Definition pending_cmd (ctx : Context) : M unit :=
  def (
    data <- load_data ;;
    let pending_list := (pending_solos data ++ pending_members data)%list in
    match pending_list with
    | [] => send Ctx NO_PENDING ;; return_
    | _ => send Ctx ("Pending Payments:" ++ nl ++ join nl pending_list)
    end).

(** The body of the loop of [!paymentsummary] over the index entries. *)
Definition tally (counts : Z * Z * Z) (p : Payment.t) : Z * Z * Z :=
  let '(verified, pending, rejected) := counts in
  let status := Payment.status p in
  if (status =? "verified")%string then (verified + 1, pending, rejected)
  else if (status =? "pending")%string then (verified, pending + 1, rejected)
  else if (status =? "rejected")%string then (verified, pending, rejected + 1)
  else (verified, pending, rejected).

Definition summary_counts (ps : Dict.t Payment.t) : Z * Z * Z :=
  fold_left tally (Dict.values ps) (0, 0, 0).

Definition summary_embed (ps : Dict.t Payment.t) : Embed :=
  let '(verified, pending, rejected) := summary_counts ps in
  mkEmbed (Some "Payment Summary") "blurple"
    [ ("Verified", str verified);
      ("Pending", str pending);
      ("Rejected", str rejected) ]
    None.

(** [!paymentsummary] *)
Definition paymentsummary_cmd (ctx : Context) (channel : Z) : M unit :=
  data <- load_data ;;
  reply_embed channel (summary_embed (payments data)).

(** [str(b)] for a [bool] *)
Definition str_bool (b : bool) : string := if b then "True" else "False".

Definition USE_DM : string :=
  "Use this command in a DM with the bot for privacy.".
Definition NO_REGISTRATION : string :=
  "You don't have a saved registration yet. Run `!register` anywhere to start (bot will DM you).".

Definition solo_card (s : Solo.t) : Embed :=
  mkEmbed (Some "Your Solo Registration") "blue"
    [ ("IGN", Solo.ign s);
      ("Real Name", Solo.real_name s);
      ("Current Rank", Solo.current_rank s);
      ("Peak Rank", Solo.peak_rank s);
      ("Paid", str_bool (Solo.paid s)) ]
    None.

Definition team_card (code : string) (team : Team.t) (m : Member.t) : Embed :=
  mkEmbed
    (Some ("Team: " ++ Team.team_name team ++ " (Code: " ++ code ++ ")"))
    "blue"
    [ ("Captain", mention_or_id (Team.captain_id team));
      ("Your IGN", opt_str (Member.ign m));
      ("Paid", str_bool (Member.paid m)) ]
    None.

(** [!myregistration] (DM only).  The two nested loops over teams and
    members reply at the first member entry of the first team (in dict
    order) whose [discord_id] is the author's, and return. *)
Definition myregistration_cmd (ctx : Context) (channel : Z) : M unit :=
  def (
    (if negb (in_dm ctx) then send Ctx USE_DM ;; return_ else pass) ;;
    data <- load_data ;;
    let uid_ := str (uid (author ctx)) in
    match Dict.get uid_ (solos data) with
    | Some s => reply_embed channel (solo_card s) ;; return_
    | None => pass
    end ;;
    data <- load_data ;;
    match find (has_member (uid (author ctx))) (teams data) with
    | Some (code, team) =>
        match find (is_member (uid (author ctx))) (Team.members team) with
        | Some m => reply_embed channel (team_card code team m) ;; return_
        | None => pass
        end
    | None => pass
    end ;;
    send Ctx NO_REGISTRATION).

(** The commands that only read the store. *)
Inductive Query :=
| Pending
| PaymentSummary
| MyRegistration.

(** One read-only command, from its invocation in the channel [channel] to
    the end of its handler. *)
Definition ask (ctx : Context) (channel : Z) (q : Query) : M unit :=
  match q with
  | Pending => with_manage_guild ctx (fun _ => pending_cmd ctx)
  | PaymentSummary =>
      with_manage_guild ctx (fun _ => paymentsummary_cmd ctx channel)
  | MyRegistration => myregistration_cmd ctx channel
  end.

(** ** What [!verify] and [!reject] do to the store *)

Definition verify_solo (txn_ref : option string) (solo : Solo.t) : Solo.t :=
  Solo.set_payment_txn (Some (or_default txn_ref VERIFIED_BY_ADMIN))
    (Solo.set_paid true solo).

(** The store [!verify] writes: the solo record when there is one, else the
    first team (in dict order) that has the member, else nothing. *)
Definition verify_store (user_id : Z) (txn_ref : option string) (d : Data)
  : Data :=
  match Dict.get (str user_id) (solos d) with
  | Some solo =>
      set_payments (mark_status (solo_key user_id) "verified" (payments d))
        (set_solos
           (Dict.set (str user_id) (verify_solo txn_ref solo) (solos d)) d)
  | None =>
      match find (has_member user_id) (teams d) with
      | Some (code, team) =>
          set_teams
            (update_first (has_member user_id)
               (fun item => (fst item, verify_team user_id txn_ref team))
               (teams d))
            (set_payments
               (mark_status (member_key code user_id) "verified" (payments d))
               d)
      | None => d
      end
  end.

(** The store [!reject] writes. *)
Definition reject_store (user_id : Z) (d : Data) : Data :=
  match Dict.get (str user_id) (solos d) with
  | Some solo =>
      set_payments (mark_status (solo_key user_id) "rejected" (payments d)) d
  | None =>
      match find (has_member user_id) (teams d) with
      | Some (code, team) =>
          set_payments
            (mark_status (member_key code user_id) "rejected" (payments d)) d
      | None => d
      end
  end.

(** Whether a user has a solo record or is a member of some team. *)
Definition registered (user_id : Z) (d : Data) : bool :=
  Dict.mem (str user_id) (solos d) || existsb (has_member user_id) (teams d).

Definition NOT_FOUND_VERIFY : string :=
  "Could not find this user in solos or teams data. Make sure they registered via DM before verifying.".
Definition NOT_FOUND_REJECT : string :=
  "Could not find this user in registration records.".

(** The role grants in a log. *)
Definition grants (l : list Event) : list (Z * string) :=
  flat_map (fun e => match e with GrantRole u r => [(u, r)] | _ => [] end) l.

(** The text messages in a log. *)
Definition sends (l : list Event) : list (Dest * string) :=
  flat_map (fun e => match e with Send d t => [(d, t)] | _ => [] end) l.

Definition CONFIRMED_TEXT (code : string) (team : Team.t) : string :=
  "Team **" ++ Team.team_name team ++ "** (code `" ++ code ++
  "`) is fully registered and confirmed!" ++ nl ++ "Members: " ++
  members_str (Team.members team).

(** A store with a team of five, all paid but user 5. *)
Definition five_store : Data :=
  mkData []
    [("ABCDEF",
      Team.mk "Foxes" 1
        [ Member.mk 1 None true None None (Some "T1");
          Member.mk 2 (Some "Jett") true (Some "P2") None (Some "T2");
          Member.mk 3 (Some "Omen") true (Some "P3") None (Some "T3");
          Member.mk 4 (Some "Sova") true (Some "P4") None (Some "T4");
          Member.mk 5 (Some "Raze") false (Some "P5") None None ]
        false None)]
    [].

Definition five_world : World := set_disk (Some five_store) sample_world.


(** A store in which user 7 has a solo record and is also the captain of a
    team; an admin's world on it. *)
Definition both_store : Data :=
  mkData
    [("7", Solo.mk 7 "Ann" "Sage" "Gold" "Plat" false "TXN-7"
             (Some (mkMsgRef 11 50)) None)]
    [("ABCDEF", new_team (mkUser 7 "ann") "Foxes")]
    [("solo-7", Payment.mk "solo" (Some 7) None 11 50 "pending")].

Definition both_world : World := set_disk (Some both_store) sample_world.


(** ** Auxiliary notions for the read-only commands *)

(** The text [!pending] replies with. *)
Definition pending_reply (data : Data) : string :=
  match (pending_solos data ++ pending_members data)%list with
  | [] => NO_PENDING
  | l => "Pending Payments:" ++ nl ++ join nl l
  end.

(** The index entries that record the creation of a team. *)
Definition is_creation (item : string * Payment.t) : bool :=
  (Payment.type (snd item) =? "team_created")%string.

(** ** Auxiliary notions for the registration flows *)

Definition COULD_NOT_DM (user : User) : string :=
  mention user ++ ", I couldn't DM you. Please enable DMs and try again.".

Definition UNRECOGNIZED : string :=
  "Unrecognized option. Please run `!register` and reply with `solo` or `team`.".

(** A guild without any text channel, and a world whose only guild it is. *)
Definition bare_guild : Guild := mkGuild 2 [].

Definition bare_world : World :=
  mkWorld (Some small_store) [] [] 100 (fun i => i) 0 10 [bare_guild] None
    "frag@upi" [] [].

(** ** Further invariants of the store *)

(** A team has between one and five member entries, no two of them for the
    same user. *)
Definition roster_ok (item : string * Team.t) : Prop :=
  (1 <= List.length (Team.members (snd item)) <= 5)%nat
  /\ NoDup (map Member.discord_id (Team.members (snd item))).

Definition rosters_ok (o : option Data) : Prop :=
  Forall roster_ok (teams (store_of o)).

(** An index entry that names a team names one that is stored. *)
Definition names_stored_team (ts : Dict.t Team.t) (item : string * Payment.t)
  : Prop :=
  forall c, Payment.team_code (snd item) = Some c -> Dict.mem c ts = true.

Definition index_refers (o : option Data) : Prop :=
  Forall (names_stored_team (teams (store_of o))) (payments (store_of o)).

(** ** [parse_member_arg]: a mention, an id or a name to a guild member *)

(** A member of a guild, as far as [parse_member_arg] looks at it; the
    function reads its [guild] argument through [guild.get_member] and
    [guild.members] only, so the guild is given as its list of members. *)
Record GuildMember := mkGuildMember {
  gm_id : Z;
  gm_name : string;
  gm_nick : option string
}.

(** [ch.isdigit()] on one ASCII character *)
Definition is_digit (c : ascii) : bool :=
  let n := nat_of_ascii c in ((48 <=? n) && (n <=? 57))%nat.

(** [''.join(ch for ch in s if p(ch))] *)
Fixpoint filter_string (p : ascii -> bool) (s : string) : string :=
  match s with
  | EmptyString => EmptyString
  | String c r => if p c then String c (filter_string p r) else filter_string p r
  end.

Fixpoint forall_string (p : ascii -> bool) (s : string) : bool :=
  match s with
  | EmptyString => true
  | String c r => p c && forall_string p r
  end.

(** [s.isdigit()]: not empty, digits only *)
Definition isdigit (s : string) : bool :=
  negb (s =? EmptyString)%string && forall_string is_digit s.

(** [s.startswith(prefix)] *)
Definition startswith (prefix s : string) : bool := String.prefix prefix s.

(** [s.endswith(suffix)] *)
Fixpoint endswith (suffix s : string) : bool :=
  if (s =? suffix)%string then true
  else
    match s with
    | EmptyString => false
    | String _ r => endswith suffix r
    end.

(** [int(s)] for a string of ASCII digits; [None] stands for the
    [ValueError] that [int] raises on the empty string (and on any other
    character). *)
Definition int (s : string) : option Z :=
  option_map Z.of_uint (NilZero.uint_of_string s).

(** [guild.get_member(user_id)] *)
Definition get_member (members : list GuildMember) (user_id : Z)
  : option GuildMember :=
  find (fun m => gm_id m =? user_id) members.

(** [m.name == arg or (m.nick and m.nick == arg)] *)
Definition named (arg : string) (m : GuildMember) : bool :=
  (gm_name m =? arg)%string
  || match gm_nick m with
     | Some nick => negb (nick =? EmptyString)%string && (nick =? arg)%string
     | None => false
     end.

(** [parse_member_arg(arg, guild)].  In the mention branch a failing [int]
    is caught ([except: member = None]); in the id branch [int] cannot fail,
    the argument being a non-empty string of digits. *)
Definition parse_member_arg (arg : string) (members : list GuildMember)
  : option GuildMember :=
  let arg := strip arg in
  if startswith "<@" arg && endswith ">" arg then
    let digits := filter_string is_digit arg in
    match int digits with
    | Some n => get_member members n
    | None => None
    end
  else if isdigit arg then
    match int arg with
    | Some n => get_member members n
    | None => None
    end
  else find (named arg) members.

Definition sample_members : list GuildMember :=
  [ mkGuildMember 7 "ann" None; mkGuildMember 42 "bob" (Some "Bobby") ].

(** ** Startup: [on_ready] and [ensure_channels_and_roles] *)

Definition CHANNEL_FIXTURES : string := "fixtures".
Definition CHANNEL_RESULTS : string := "results".
Definition ROLE_ADMIN : string := "Tournament Admin".

(** The names the startup code provides, in the order of its loops. *)
Definition REQUIRED_CHANNELS : list string :=
  [CHANNEL_REGISTRATION; CHANNEL_PAYMENTS; CHANNEL_FIXTURES; CHANNEL_RESULTS].
Definition REQUIRED_ROLES : list string :=
  [ROLE_PARTICIPANT; ROLE_CAPTAIN; ROLE_ADMIN].

(** A guild as the startup code sees it: its channels, the names of its
    roles, and whether the bot may create channels and roles in it (the
    Manage Channels and Manage Roles permissions). *)
Record Server := mkServer {
  srv_guild : Guild;
  srv_name : string;
  srv_roles : list string;
  may_create_channels : bool;
  may_create_roles : bool;
  (** the id the platform gives to the next channel *)
  next_channel_id : Z
}.

(** [guild.create_text_channel(name)]; [None] stands for
    [discord.Forbidden]. *)
Definition create_text_channel (name : string) (s : Server) : option Server :=
  if may_create_channels s then
    Some (mkServer
            (mkGuild (guild_id (srv_guild s))
               (text_channels (srv_guild s)
                ++ [mkChannel (next_channel_id s) name true]))
            (srv_name s) (srv_roles s) (may_create_channels s)
            (may_create_roles s) (next_channel_id s + 1))
  else None.

(** [guild.create_role(name=name)]; [None] stands for [discord.Forbidden]. *)
Definition create_role (name : string) (s : Server) : option Server :=
  if may_create_roles s then
    Some (mkServer (srv_guild s) (srv_name s) (srv_roles s ++ [name])
            (may_create_channels s) (may_create_roles s) (next_channel_id s))
  else None.

(** [name in names] for a set of names *)
Definition name_in (name : string) (names : list string) : bool :=
  existsb (String.eqb name) names.

(** The first loop of [ensure_channels_and_roles]; the set
    [text_channel_names] is built once, before the loop.  The second
    component is what the loop prints. *)
Fixpoint ensure_channels (names : list string)
    (text_channel_names : list string) (s : Server) : Server * list string :=
  match names with
  | [] => (s, [])
  | name :: rest =>
      if name_in name text_channel_names
      then ensure_channels rest text_channel_names s
      else
        match create_text_channel name s with
        | Some s' =>
            let '(s'', out) := ensure_channels rest text_channel_names s' in
            (s'',
             ("Created channel #" ++ name ++ " in " ++ srv_name s) :: out)
        | None =>
            let '(s'', out) := ensure_channels rest text_channel_names s in
            (s'',
             ("Missing permission to create channel #" ++ name ++ " in " ++
              srv_name s) :: out)
        end
  end.

(** The second loop, over the role names. *)
Fixpoint ensure_roles (names : list string) (role_names : list string)
    (s : Server) : Server * list string :=
  match names with
  | [] => (s, [])
  | rname :: rest =>
      if name_in rname role_names
      then ensure_roles rest role_names s
      else
        match create_role rname s with
        | Some s' =>
            let '(s'', out) := ensure_roles rest role_names s' in
            (s'', ("Created role " ++ rname ++ " in " ++ srv_name s) :: out)
        | None =>
            let '(s'', out) := ensure_roles rest role_names s in
            (s'',
             ("Missing permission to create role " ++ rname ++ " in " ++
              srv_name s) :: out)
        end
  end.

Definition channel_names (s : Server) : list string :=
  map ch_name (text_channels (srv_guild s)).

(** [ensure_channels_and_roles(guild)] *)
Definition ensure_channels_and_roles (s : Server) : Server * list string :=
  let text_channel_names := channel_names s in
  let '(s1, out1) := ensure_channels REQUIRED_CHANNELS text_channel_names s in
  let role_names := srv_roles s1 in
  let '(s2, out2) := ensure_roles REQUIRED_ROLES role_names s1 in
  (s2, (out1 ++ out2)%list).

(** The bot at startup: the guilds it is in, the configured [GUILD_ID], its
    own user, and the activity it shows. *)
Record Bot := mkBot {
  servers : list Server;
  env_GUILD_ID : option Z;
  bot_user : User;
  presence : option string
}.

(** [for g in guilds: await ensure_channels_and_roles(g)] *)
Fixpoint ensure_all (l : list Server) : list Server * list string :=
  match l with
  | [] => ([], [])
  | s :: r =>
      let '(s', out) := ensure_channels_and_roles s in
      let '(r', out') := ensure_all r in
      (s' :: r', (out ++ out')%list)
  end.

Definition is_guild (gid : Z) (s : Server) : bool :=
  guild_id (srv_guild s) =? gid.

(** [on_ready()]; the second component is what it prints. *)
Definition on_ready (b : Bot) : Bot * list string :=
  let login :=
    "Logged in as " ++ name (bot_user b) ++ " (id: " ++ str (uid (bot_user b))
    ++ ")" in
  let '(servers', out) :=
    match env_GUILD_ID b with
    | None => ensure_all (servers b)
    | Some gid =>
        if gid =? 0 then ensure_all (servers b)
        else
          match find (is_guild gid) (servers b) with
          | Some g =>
              let '(g', out) := ensure_channels_and_roles g in
              (update_first (is_guild gid) (fun _ => g') (servers b), out)
          | None =>
              (servers b,
               ["Warning: GUILD_ID " ++ str gid ++
                " not found among bot guilds."])
          end
    end in
  (mkBot servers' (env_GUILD_ID b) (bot_user b) (Some "FNCT - Valorant"),
   (login :: out ++ ["Bot ready. DM registration is active."])%list).

(** A fresh server with one channel, where the bot may create what is
    missing; one where it may not; a bot in both. *)
Definition fresh_server : Server :=
  mkServer (mkGuild 1 [mkChannel 10 "general" true]) "Arena" ["@everyone"]
    true true 11.

Definition closed_server : Server :=
  mkServer (mkGuild 2 [mkChannel 20 "payments" true]) "Lobby" ["@everyone"]
    false false 21.

Definition sample_bot : Bot :=
  mkBot [fresh_server; closed_server] (Some 2) (mkUser 500 "FragBot") None.

(** The names a loop is to create: those of [names] that are not in the set
    it was given. *)
Definition missing (names existing : list string) : list string :=
  filter (fun n => negb (name_in n existing)) names.


(** ** Whether a read-only command opens the store *)

(** The two admin commands get as far as [load_data] once
    [has_permissions] let the caller through, [!myregistration] when it is
    invoked in a DM. *)
Definition opens_store (ctx : Context) (q : Query) : bool :=
  match q with
  | Pending | PaymentSummary =>
      match guild ctx with
      | Some _ => manage_guild ctx
      | None => false
      end
  | MyRegistration => in_dm ctx
  end.

(** ** Payment units and their notices *)

(** The payment unit [!verify] and [!reject] act on for a user, by its key
    in the payment index: the solo registration when the user has one, else
    the membership in the first team (in dict order) that lists the user. *)
Definition payment_unit (user_id : Z) (d : Data) : option string :=
  match Dict.get (str user_id) (solos d) with
  | Some _ => Some (solo_key user_id)
  | None =>
      match find (has_member user_id) (teams d) with
      | Some (code, _) => Some (member_key code user_id)
      | None => None
      end
  end.

(** The notice the payment index records for a unit. *)
Definition notice_of (key : string) (d : Data) : option (Z * Z) :=
  match Dict.get key (payments d) with
  | Some pay => Some (Payment.channel_id pay, Payment.message_id pay)
  | None => None
  end.

(** Two worlds with the same notices, the same notices published and the
    same notices edited. *)
Definition same_notices (w1 w2 : World) : Prop :=
  messages w1 = messages w2 /\ next_message_id w1 = next_message_id w2
  /\ posts (log w1) = posts (log w2) /\ edits (log w1) = edits (log w2).

(** A channel that refuses what the bot sends: [ch.send] raises
    [discord.Forbidden]. *)
Definition send_refused (ch : Channel) (e : Embed) : M Z := raise Forbidden.

(** The world of [both_store] with the notice of user 7's solo registration
    in the payments channel. *)
Definition world_noticed : World :=
  set_messages [mkMessage 11 50 [blank_embed] true] both_world.

(** The five answers of a solo registration. *)
Definition ann_answers : list (option string) :=
  [Some "Ann"; Some "Sage"; Some "Gold"; Some "Plat"; Some "TXN-7"].

(** ** Handlers that overlap

    [bot.wait_for] suspends its handler until the awaited message arrives,
    and the event loop serves other commands in the meantime.  [!jointeam] is
    the handler that holds a snapshot of the store across its waits: it loads
    before the first one and saves after the second. *)

(** [bot.wait_for] while other handlers run: [meanwhile t] is what they do
    before the reply to the wait with timeout [t] arrives.  The inbox lists
    the replies in their order of arrival, those to the handlers that run in
    the meantime first. *)
Definition wait_for_during (meanwhile : Z -> M unit) (timeout : Z)
  : M string :=
  fun w => wait_for timeout (run (meanwhile timeout) w).

(** One activity of the event loop after another; what the first one
    returned or raised stays with its own handler. *)
Definition then_ (m k : M unit) : M unit := fun w => k (run m w).

(** [!jointeam] from its invocation to the end of its handler, as [invoke]
    runs it, with [meanwhile] served during its waits. *)
Definition invoke_join_during (meanwhile : Z -> M unit) (ctx : Context)
    (code : option string) : M unit :=
  try_except (jointeam_cmd_with (wait_for_during meanwhile) ctx code)
    any_exception
    (send Ctx "Error: the command raised an exception").

(** What the event loop may do: nothing; one more command, run from its
    invocation to its end; one more join, with whatever the loop may do
    served during its waits; a change of the platform that leaves the file
    alone (a message arrives, a notice is deleted). *)
Inductive serves : M unit -> Prop :=
| serves_nothing : serves pass
| serves_command (m : M unit) (ctx : Context) (c : Command) :
    serves m -> serves (then_ m (invoke ctx c))
| serves_join (m : M unit) (meanwhile : Z -> M unit) (ctx : Context)
    (code : option string) :
    serves m -> (forall t, serves (meanwhile t)) ->
    serves (then_ m (invoke_join_during meanwhile ctx code))
| serves_platform (m : M unit) (change : World -> World) :
    serves m -> (forall w, disk (change w) = disk w) ->
    serves (then_ m (fun w => (Normal tt, change w))).

(** The worlds, and the stores, the event loop can bring about from a
    missing [data.json]. *)
Definition served (w : World) : Prop :=
  exists m w0, serves m /\ disk w0 = None /\ w = run m w0.

Definition overlapped_reachable (o : option Data) : Prop :=
  exists m w, serves m /\ disk w = None /\ o = disk (run m w).

(** The team "Foxes" with four members, all verified. *)
Definition world_four : World :=
  verify_of 4 (verify_of 3 (verify_of 2 (verify_of 1
    (join_by 4 (join_by 3 (join_by 2 world_team)))))).

(** While a join waits for its first reply, user 5 joins the team and an
    admin verifies that payment. *)
Definition fifth_completes (timeout : Z) : M unit :=
  if timeout =? 300 then
    then_ (invoke (dm_ctx 5) (JoinTeam (Some "abcdef")))
      (invoke admin_ctx (Verify (mkUser 5 "player") None))
  else pass.

(** User 6 joins the team of four; user 5 completes it in the meantime. *)
Definition overlap_world : World :=
  run (invoke_join_during fifth_completes (dm_ctx 6) (Some "abcdef"))
    (set_inbox [Some "Raze"; Some "TXN-5"; Some "Sova"; Some "TXN-6"]
       world_four).

(** The Discord ids of a team's members and its [confirmed] flag, in a
    store. *)
Definition roster (code : string) (d : Data) : list Z :=
  match Dict.get code (teams d) with
  | Some team => map Member.discord_id (Team.members team)
  | None => []
  end.

Definition flag (code : string) (d : Data) : option bool :=
  option_map Team.confirmed (Dict.get code (teams d)).


(** ** Worlds for repeated verification and for users in several teams *)

(** The world of [both_store] with the notice of user 7's solo registration
    in the payments channel, the platform refusing edits of it. *)
Definition world_refusing : World :=
  set_messages [mkMessage 11 50 [blank_embed] false] both_world.

(** A store in which user 2 is a member of two teams, with a pending
    payment in each, and a world on it. *)
Definition two_teams_store : Data :=
  mkData []
    [("ABCDEF",
      Team.mk "Foxes" 1
        [ Member.mk 1 None false None None None;
          Member.mk 2 (Some "Jett") false (Some "P2") None None ]
        false None);
     ("GHIJKL",
      Team.mk "Owls" 7
        [ Member.mk 7 None false None None None;
          Member.mk 2 (Some "Jett") false (Some "Q2") None None ]
        false None)]
    [("team-ABCDEF-member-2",
      Payment.mk "team_member" (Some 2) (Some "ABCDEF") 11 50 "pending");
     ("team-GHIJKL-member-2",
      Payment.mk "team_member" (Some 2) (Some "GHIJKL") 11 51 "pending")].

Definition two_teams_world : World :=
  set_disk (Some two_teams_store) sample_world.

(** A store with two teams, user 2 a member of the first only. *)
Definition one_of_two_store : Data :=
  mkData []
    [("ABCDEF",
      Team.mk "Foxes" 1
        [ Member.mk 1 None false None None None;
          Member.mk 2 (Some "Jett") false (Some "P2") None None ]
        false None);
     ("GHIJKL", new_team (mkUser 7 "ann") "Owls")]
    [].


(** * Properties *)

(** ** Strings and dicts *)

Lemma dict_get_set_same {V} (k : string) (v : V) (d : Dict.t V) :
  Dict.get k (Dict.set k v d) = Some v.
Proof.
  induction d as [|[k' v'] r IH]; simpl.
  - now rewrite String.eqb_refl.
  - destruct (String.eqb_spec k' k) as [E|N]; simpl.
    + subst. now rewrite String.eqb_refl.
    + apply String.eqb_neq in N. now rewrite N.
Qed.

Lemma dict_get_set_other {V} (k k' : string) (v : V) (d : Dict.t V) :
  k <> k' -> Dict.get k' (Dict.set k v d) = Dict.get k' d.
Proof.
  intros N. induction d as [|[k0 v0] r IH]; simpl.
  - destruct (String.eqb_spec k k'); [contradiction | reflexivity].
  - destruct (String.eqb_spec k0 k) as [E|N0]; simpl.
    + subst k0. destruct (String.eqb_spec k k'); [contradiction | reflexivity].
    + destruct (String.eqb_spec k0 k'); [reflexivity | exact IH].
Qed.

Lemma dict_set_fresh {V} (k : string) (v : V) (d : Dict.t V) :
  Dict.get k d = None -> Dict.set k v d = (d ++ [(k, v)])%list.
Proof.
  induction d as [|[k0 v0] r IH]; simpl; intros H.
  - reflexivity.
  - destruct (k0 =? k)%string; [discriminate | now rewrite IH].
Qed.

Lemma dict_get_In {V} (k : string) (v : V) (d : Dict.t V) :
  Dict.get k d = Some v -> In (k, v) d.
Proof.
  induction d as [|[k0 v0] r IH]; simpl; intros H.
  - discriminate.
  - destruct (String.eqb_spec k0 k) as [E|N].
    + left. congruence.
    + right. auto.
Qed.

Lemma dict_mem_false {V} (k : string) (d : Dict.t V) :
  Dict.mem k d = false <-> Dict.get k d = None.
Proof.
  unfold Dict.mem. destruct (Dict.get k d); split; congruence.
Qed.

(** Assigning to a key keeps a property of all items when the new item has
    it. *)
Lemma dict_Forall_set {V} (P : string * V -> Prop) (k : string) (v : V)
    (d : Dict.t V) :
  Forall P d -> P (k, v) -> Forall P (Dict.set k v d).
Proof.
  intros Hd Hv. induction Hd as [|[k0 v0] r H0 Hr IH]; simpl.
  - constructor; [exact Hv | constructor].
  - destruct (String.eqb_spec k0 k) as [E|N].
    + subst. constructor; assumption.
    + constructor; assumption.
Qed.

Lemma update_first_Forall {A} (P : A -> Prop) (p : A -> bool) (f : A -> A)
    (l : list A) :
  Forall P l -> (forall x, P x -> p x = true -> P (f x)) ->
  Forall P (update_first p f l).
Proof.
  intros Hl Hf. induction Hl as [|x r Hx Hr IH]; simpl.
  - constructor.
  - destruct (p x) eqn:E; constructor; auto.
Qed.

Lemma update_first_length {A} (p : A -> bool) (f : A -> A) (l : list A) :
  List.length (update_first p f l) = List.length l.
Proof.
  induction l as [|x r IH]; simpl; [reflexivity|].
  destruct (p x); simpl; congruence.
Qed.

Lemma find_In_true {A} (p : A -> bool) (l : list A) (x : A) :
  find p l = Some x -> In x l /\ p x = true.
Proof. apply find_some. Qed.

(** ** Reasoning about handlers *)

Section Preservation.

Variable I : option Data -> Prop.

Lemma preserves_ret {A} (a : A) (R : A -> Prop) : R a -> preserves I (ret a) R.
Proof.
  intros H w Hw; split; [exact Hw|]. simpl. intros a' E.
  inversion E; subst; exact H.
Qed.

Lemma preserves_return {A} (R : A -> Prop) : preserves I (@return_ A) R.
Proof. intros w Hw; split; [exact Hw|]. simpl. discriminate. Qed.

Lemma preserves_raise {A} (e : Exn) (R : A -> Prop) : preserves I (@raise A e) R.
Proof. intros w Hw; split; [exact Hw|]. simpl. discriminate. Qed.

Lemma preserves_bind {A B} (m : M A) (k : A -> M B) (R1 : A -> Prop)
    (R2 : B -> Prop) :
  preserves I m R1 -> (forall a, R1 a -> preserves I (k a) R2) ->
  preserves I (bind m k) R2.
Proof.
  intros Hm Hk w Hw. destruct (Hm w Hw) as [Hd Hr]. unfold bind.
  destruct (m w) as [[a| |e|] w1] eqn:E; simpl in *;
    try (split; [exact Hd | discriminate]).
  apply (Hk a (Hr a eq_refl) w1 Hd).
Qed.

Lemma preserves_weaken {A} (m : M A) (R R' : A -> Prop) :
  preserves I m R -> (forall a, R a -> R' a) -> preserves I m R'.
Proof. intros Hm HR w Hw. destruct (Hm w Hw). split; auto. Qed.

Lemma preserves_try_except {A} (body handler : M A) (caught : Exn -> bool)
    (R : A -> Prop) :
  preserves I body R -> preserves I handler R ->
  preserves I (try_except body caught handler) R.
Proof.
  intros Hb Hh w Hw. destruct (Hb w Hw) as [Hd Hr]. unfold try_except.
  destruct (body w) as [[a| |e|] w1] eqn:E; simpl in *; auto.
  destruct (caught e); [apply (Hh w1 Hd) | split; [exact Hd | discriminate]].
Qed.

Lemma preserves_def (body : M unit) (R : unit -> Prop) :
  preserves I body (fun _ => True) -> R tt -> preserves I (def body) R.
Proof.
  intros Hb HR w Hw. destruct (Hb w Hw) as [Hd _]. unfold def.
  destruct (body w) as [[a| |e|] w1]; simpl in *; split; auto; try discriminate;
    intros []; auto.
Qed.

Lemma preserves_pure {A} (m : M A) (R : A -> Prop) :
  pure m R -> preserves I m R.
Proof. intros Hm w Hw. destruct (Hm w) as [E Hr]. rewrite E. auto. Qed.

Lemma preserves_load :
  (I None -> I (Some empty_data)) ->
  preserves I load_data (fun d => I (Some d)).
Proof.
  intros H0 w Hw. unfold load_data. destruct (disk w) as [d|] eqn:E; simpl.
  - rewrite E. split; [exact Hw|]. intros a Ha. now inversion Ha; subst.
  - split; [auto|]. intros a Ha. inversion Ha; subst. auto.
Qed.

Lemma preserves_save (d : Data) (R : unit -> Prop) :
  I (Some d) -> R tt -> preserves I (save_data d) R.
Proof. intros H HR w _. simpl. split; [exact H|]. now intros []. Qed.


Lemma preserves_bind_ret {A B} (a : A) (k : A -> M B) (R : B -> Prop) :
  preserves I (k a) R -> preserves I (bind (ret a) k) R.
Proof. exact (fun H => H). Qed.

Lemma preserves_bind_assoc {A B C} (m : M A) (k : A -> M B) (h : B -> M C)
    (R : C -> Prop) :
  preserves I (bind m (fun a => bind (k a) h)) R ->
  preserves I (bind (bind m k) h) R.
Proof.
  intros H w Hw. specialize (H w Hw). unfold bind in *.
  destruct (m w) as [[a| |e|] w1]; exact H.
Qed.

Lemma preserves_bind_return {A B} (k : A -> M B) (R : B -> Prop) :
  preserves I (bind return_ k) R.
Proof. intros w Hw; split; [exact Hw | discriminate]. Qed.

Lemma preserves_bind_raise {A B} (e : Exn) (k : A -> M B) (R : B -> Prop) :
  preserves I (bind (raise e) k) R.
Proof. intros w Hw; split; [exact Hw | discriminate]. Qed.

(** Programs that leave the file alone. *)
Lemma preserves_send dest text : preserves I (send dest text) (fun _ => True).
Proof. apply preserves_pure. intros w; simpl; auto. Qed.

Lemma preserves_send_dm u text : preserves I (send_dm u text) (fun _ => True).
Proof.
  apply preserves_pure. intros w; unfold send_dm.
  destruct (existsb _ _); simpl; auto.
Qed.

Lemma preserves_wait_for t : preserves I (wait_for t) (fun _ => True).
Proof.
  apply preserves_pure. intros w; unfold wait_for.
  destruct (inbox w) as [|[c|] r]; simpl; auto.
Qed.

Lemma preserves_grant_role u r : preserves I (grant_role u r) (fun _ => True).
Proof. apply preserves_pure. intros w; simpl; auto. Qed.

Lemma preserves_get_UPI_ID : preserves I get_UPI_ID (fun _ => True).
Proof. apply preserves_pure. intros w; simpl; auto. Qed.

Lemma preserves_default_guild : preserves I default_guild (fun _ => True).
Proof. apply preserves_pure. intros w; simpl; auto. Qed.

Lemma preserves_target_guild_of g :
  preserves I (target_guild_of g) (fun _ => True).
Proof.
  destruct g; simpl; [now apply preserves_ret | apply preserves_default_guild].
Qed.

Lemma preserves_getitem {V} (d : Dict.t V) k :
  preserves I (getitem d k) (fun v => Dict.get k d = Some v).
Proof.
  unfold getitem. destruct (Dict.get k d);
    [now apply preserves_ret | apply preserves_raise].
Qed.

Lemma preserves_send_embed ch e : preserves I (send_embed ch e) (fun _ => True).
Proof. apply preserves_pure. intros w; simpl; auto. Qed.

Lemma preserves_fetch_message ch m :
  preserves I (fetch_message ch m) (fun _ => True).
Proof.
  apply preserves_pure. intros w; unfold fetch_message.
  destruct (readable ch); [destruct (find _ _)|]; simpl; auto.
Qed.

Lemma preserves_edit_message msg e :
  preserves I (edit_message msg e) (fun _ => True).
Proof.
  apply preserves_pure. intros w; unfold edit_message.
  destruct (editable msg); simpl; auto.
Qed.

Lemma preserves_random_index_lt (n : nat) :
  n <> 0%nat -> preserves I (random_index n) (fun i => (i < n)%nat).
Proof.
  intros Hn. apply preserves_pure. intros w; simpl. split; [reflexivity|].
  intros a E. injection E as <-. now apply Nat.mod_upper_bound.
Qed.

End Preservation.

Ltac prim :=
  idtac;
  lazymatch goal with
  | |- preserves _ (send _ _) _ => apply preserves_send
  | |- preserves _ (send_dm _ _) _ => apply preserves_send_dm
  | |- preserves _ (wait_for _) _ => apply preserves_wait_for
  | |- preserves _ (grant_role _ _) _ => apply preserves_grant_role
  | |- preserves _ get_UPI_ID _ => apply preserves_get_UPI_ID
  | |- preserves _ default_guild _ => apply preserves_default_guild
  | |- preserves _ (target_guild_of _) _ => apply preserves_target_guild_of
  | |- preserves _ (getitem _ _) _ => apply preserves_getitem
  | |- preserves _ (send_embed _ _) _ => apply preserves_send_embed
  | |- preserves _ (fetch_message _ _) _ => apply preserves_fetch_message
  | |- preserves _ (edit_message _ _) _ => apply preserves_edit_message
  end.

(** One step through the head of a program. *)
Ltac step_with extra :=
  lazymatch goal with
  | |- preserves _ (bind (ret _) _) _ => apply preserves_bind_ret
  | |- preserves _ (bind (bind _ _) _) _ => apply preserves_bind_assoc
  | |- preserves _ (bind return_ _) _ => apply preserves_bind_return
  | |- preserves _ (bind (raise _) _) _ => apply preserves_bind_raise
  | |- preserves _ (bind (match ?x with _ => _ end) _) _ => destruct x eqn:?
  | |- preserves _ (bind (try_except _ _ _) _) _ =>
      apply preserves_bind with (R1 := fun _ => True);
      [ apply preserves_try_except | intros ? _ ]
  | |- preserves _ (bind (save_data _) _) _ =>
      apply preserves_bind with (R1 := fun _ => True);
      [ apply preserves_save; [ | exact Logic.I ] | intros _ _ ]
  | |- preserves _ (bind _ _) _ =>
      eapply preserves_bind;
      [ first [ prim | extra ]
      | let a := fresh "a" in
        let H := fresh "H" in
        intros a H; cbv beta in H ]
  | |- preserves _ (match ?x with _ => _ end) _ => destruct x eqn:?
  | |- preserves _ (ret _) _ => apply preserves_ret
  | |- preserves _ return_ _ => apply preserves_return
  | |- preserves _ (raise _) _ => apply preserves_raise
  | |- preserves _ (def _) _ => apply preserves_def; [ | exact Logic.I ]
  | |- preserves _ (try_except _ _ _) _ => apply preserves_try_except
  | |- preserves _ (save_data _) _ =>
      apply preserves_save; [ | exact Logic.I ]
  | |- preserves _ _ _ => first [ prim | extra ]
  | |- True => exact Logic.I
  end.

Ltac steps_with extra := cbv zeta; repeat (step_with extra; cbv zeta).
Ltac steps := steps_with fail.

Section PureProcedures.

Variable I : option Data -> Prop.

Lemma preserves_post_payment_embed g t f :
  preserves I (post_payment_embed g t f) (fun _ => True).
Proof. unfold post_payment_embed. steps. Qed.

Lemma preserves_edit_payment_embed g c m f t :
  preserves I (edit_payment_embed g c m f t) (fun _ => True).
Proof. unfold edit_payment_embed, edit_payment_embed_with. steps. Qed.

End PureProcedures.

Lemma length_string_of_list_ascii (l : list ascii) :
  String.length (string_of_list_ascii l) = List.length l.
Proof. induction l; simpl; congruence. Qed.

Section JoinCodes.

Variable I : option Data -> Prop.

Lemma preserves_random_choices (population : list ascii) (k : nat) :
  population <> [] ->
  preserves I (random_choices population k)
    (fun l => List.length l = k /\ Forall (fun c => In c population) l).
Proof.
  intros Hpop. induction k as [|k IH]; simpl.
  - apply preserves_ret. split; [reflexivity | constructor].
  - eapply preserves_bind; [apply preserves_random_index_lt|].
    + destruct population; [contradiction | discriminate].
    + intros i Hi. eapply preserves_bind; [exact IH|].
      intros rest [Hl Hin]. apply preserves_ret.
      split; [simpl; congruence|].
      constructor; [now apply nth_In | exact Hin].
Qed.

Lemma preserves_make_join_code (n : nat) :
  preserves I (make_join_code n)
    (fun code =>
       String.length code = n
       /\ Forall (fun c => In c alphabet) (list_ascii_of_string code)).
Proof.
  unfold make_join_code. eapply preserves_bind.
  - apply preserves_random_choices. discriminate.
  - intros l [Hl Hin]. apply preserves_ret.
    rewrite length_string_of_list_ascii, list_ascii_of_string_of_list_ascii.
    auto.
Qed.

Lemma preserves_ensure_unique_code (budget : nat) (data : Data) :
  forall code, String.length code = 6%nat ->
  preserves I (ensure_unique_code budget data code)
    (fun c => Dict.get c (teams data) = None /\ String.length c = 6%nat).
Proof.
  induction budget as [|b IH]; intros code Hlen; simpl.
  - destruct (Dict.mem code (teams data)) eqn:E.
    + intros w Hw; split; [exact Hw | discriminate].
    + apply preserves_ret. split; [now apply dict_mem_false | exact Hlen].
  - destruct (Dict.mem code (teams data)) eqn:E.
    + eapply preserves_bind; [apply preserves_make_join_code|].
      intros c [Hc _]. now apply IH.
    + apply preserves_ret. split; [now apply dict_mem_false | exact Hlen].
Qed.

Lemma preserves_ensure_unique_code_budget (data : Data) (code : string) :
  String.length code = 6%nat ->
  preserves I (fun w => ensure_unique_code (loop_budget w) data code w)
    (fun c => Dict.get c (teams data) = None /\ String.length c = 6%nat).
Proof. intros H w Hw. now apply preserves_ensure_unique_code. Qed.

End JoinCodes.

Section Handlers.

Variable I : option Data -> Prop.
Hypothesis I_empty : I None -> I (Some empty_data).
Hypothesis I_step : forall d d', I (Some d) -> store_step d d' -> I (Some d').

Lemma preserves_ask_questions user qs answers :
  preserves I (ask_questions user qs answers) (fun _ => True).
Proof.
  revert answers. induction qs as [|[q key] r IH]; intros answers; simpl.
  - now apply preserves_ret.
  - steps_with ltac:(apply IH).
Qed.

Ltac extra :=
  idtac;
  lazymatch goal with
  | |- preserves _ load_data _ => apply preserves_load; exact I_empty
  | |- preserves _ (ask_questions _ _ _) _ => apply preserves_ask_questions
  | |- preserves _ (post_payment_embed _ _ _) _ =>
      apply preserves_post_payment_embed
  | |- preserves _ (edit_payment_embed _ _ _ _ _) _ =>
      apply preserves_edit_payment_embed
  | |- preserves _ (make_join_code _) _ => apply preserves_make_join_code
  | |- preserves _ (fun w => ensure_unique_code _ _ _ w) _ =>
      apply preserves_ensure_unique_code_budget; tauto
  end.

Lemma preserves_handle_solo_registration user guild :
  preserves I (handle_solo_registration user guild) (fun _ => True).
Proof.
  unfold handle_solo_registration. steps_with extra.
  - eapply I_step; [eassumption|].
    eapply step_solo with (user_id := uid user) (notice := Some (_, _));
      reflexivity.
  - eapply I_step; [eassumption|].
    eapply step_solo with (user_id := uid user) (notice := None); reflexivity.
Qed.

Lemma preserves_handle_team_registration user guild :
  preserves I (handle_team_registration user guild) (fun _ => True).
Proof.
  unfold handle_team_registration. steps_with extra.
  all: match goal with H : _ /\ String.length _ = 6%nat |- _ =>
         destruct H as [Hfresh Hlen] end.
  all: match goal with
       | |- I (Some (set_teams (Dict.set ?c ?t (teams ?d)) ?d)) =>
           assert (Hfirst : I (Some (set_teams (Dict.set c t (teams d)) d)))
             by (eapply I_step; [eassumption|];
                 eapply step_team_created with (code := c) (team := t);
                 auto)
       | |- I (Some (set_payments _
                       (set_teams _ (set_teams (Dict.set ?c ?t (teams ?d)) ?d)))) =>
           assert (Hfirst : I (Some (set_teams (Dict.set c t (teams d)) d)))
             by (eapply I_step; [eassumption|];
                 eapply step_team_created with (code := c) (team := t);
                 auto)
       end.
  - exact Hfirst.
  - eapply I_step; [exact Hfirst|].
    match goal with Hl : String.length ?c = 6%nat |- _ =>
      eapply step_team_noticed with (code := c); simpl; auto end.
    apply dict_get_set_same.
Qed.

Lemma preserves_register_cmd ctx :
  preserves I (register_cmd ctx) (fun _ => True).
Proof.
  unfold register_cmd.
  steps_with ltac:(idtac; lazymatch goal with
                   | |- preserves _ (handle_solo_registration _ _) _ =>
                       apply preserves_handle_solo_registration
                   | |- preserves _ (handle_team_registration _ _) _ =>
                       apply preserves_handle_team_registration
                   end).
Qed.

Lemma preserves_jointeam_cmd ctx code :
  preserves I (jointeam_cmd ctx code) (fun _ => True).
Proof.
  unfold jointeam_cmd, jointeam_cmd_with. steps_with extra.
  - match goal with
    | |- I (Some (set_teams (Dict.set ?c (Team.set_members (_ ++ [?e]) ?t) _)
                    _)) =>
        eapply I_step; [eassumption|];
        eapply step_joined with (code := c) (team := t) (entry := e)
    end; try eassumption; try reflexivity.
    now apply Nat.leb_gt.
  - eapply I_step; [eassumption|].
    eapply step_join_noticed; try eassumption; reflexivity.
Qed.

Ltac store_fields :=
  cbn [payments teams solos set_payments set_teams set_solos] in *.

Ltac payments_side :=
  unfold mark_status, solo_key, member_key; store_fields;
  repeat match goal with H : Dict.get _ _ = _ |- _ => rewrite H end;
  reflexivity.

Ltac teams_side :=
  unfold verify_team, mark_paid; store_fields; cbv zeta;
  repeat match goal with H : complete _ = _ |- _ => rewrite H end;
  reflexivity.

Lemma preserves_verify_cmd ctx g member txn_ref :
  preserves I (verify_cmd ctx g member txn_ref) (fun _ => True).
Proof.
  unfold verify_cmd. steps_with extra; subst.
  all: eapply I_step; [eassumption|].
  all: first
         [ eapply step_solo_status
             with (user_id := uid member) (status := "verified");
           [ simpl; auto | reflexivity | payments_side ]
         | eapply step_member_verified
             with (user_id := uid member) (txn_ref := txn_ref);
           [ eassumption | teams_side | payments_side ] ].
Qed.

Lemma preserves_reject_cmd ctx g member reason :
  preserves I (reject_cmd ctx g member reason) (fun _ => True).
Proof.
  unfold reject_cmd. steps_with extra; subst.
  all: eapply I_step; [eassumption|].
  all: first
         [ eapply step_solo_status
             with (user_id := uid member) (status := "rejected");
           [ simpl; auto | reflexivity | payments_side ]
         | eapply step_member_rejected with (user_id := uid member);
           [ eassumption | reflexivity | payments_side ] ].
Qed.

(** Every command takes the store through steps of [store_step] only. *)
Theorem invoke_preserves ctx c : preserves I (invoke ctx c) (fun _ => True).
Proof.
  unfold invoke, with_manage_guild.
  steps_with ltac:(idtac; lazymatch goal with
                   | |- preserves _ (register_cmd _) _ =>
                       apply preserves_register_cmd
                   | |- preserves _ (jointeam_cmd _ _) _ =>
                       apply preserves_jointeam_cmd
                   | |- preserves _ (verify_cmd _ _ _ _) _ =>
                       apply preserves_verify_cmd
                   | |- preserves _ (reject_cmd _ _ _ _) _ =>
                       apply preserves_reject_cmd
                   end).
Qed.

End Handlers.


(** ** The invariants hold along every step of the store *)

Lemma complete_spec (t : Team.t) :
  complete t = true <->
  List.length (Team.members t) = 5%nat
  /\ forall m, In m (Team.members t) -> Member.paid m = true.
Proof.
  unfold complete. rewrite andb_true_iff, Nat.eqb_eq, forallb_forall.
  reflexivity.
Qed.

Lemma forallb_paid_update_first (p : Member.t -> bool)
    (f : Member.t -> Member.t) (l : list Member.t) :
  (forall m, Member.paid m = true -> Member.paid (f m) = true) ->
  forallb Member.paid l = true ->
  forallb Member.paid (update_first p f l) = true.
Proof.
  intros Hf. induction l as [|m r IH]; simpl; [reflexivity|].
  rewrite andb_true_iff. intros [Hm Hr].
  destruct (p m); simpl; rewrite andb_true_iff; auto.
Qed.

Lemma forallb_paid_update_first_same (p : Member.t -> bool)
    (f : Member.t -> Member.t) (l : list Member.t) :
  (forall m, Member.paid (f m) = Member.paid m) ->
  forallb Member.paid (update_first p f l) = forallb Member.paid l.
Proof.
  intros Hf. induction l as [|m r IH]; simpl; [reflexivity|].
  destruct (p m); simpl; [now rewrite Hf | now rewrite IH].
Qed.

Lemma complete_attach_notice user_id proof r team :
  complete (attach_notice user_id proof r team) = complete team.
Proof.
  unfold complete, attach_notice; simpl.
  rewrite update_first_length, forallb_paid_update_first_same; reflexivity.
Qed.

(** What [!verify] leaves is a team whose flag agrees, and a confirmed team
    stays confirmed. *)
Lemma verify_team_flag user_id txn_ref team :
  Team.confirmed team = complete team ->
  Team.confirmed (verify_team user_id txn_ref team)
  = complete (verify_team user_id txn_ref team).
Proof.
  intros H. unfold verify_team.
  set (t1 := Team.set_members _ team).
  destruct (complete t1) eqn:E.
  - unfold complete in *. simpl in *. now rewrite E.
  - rewrite E. change (Team.confirmed t1) with (Team.confirmed team).
    rewrite H. destruct (complete team) eqn:E0; [|reflexivity].
    rewrite <- E. symmetry. unfold complete in *. subst t1. simpl.
    apply andb_true_iff in E0 as [El Ep].
    rewrite update_first_length, El. simpl.
    apply forallb_paid_update_first; auto.
Qed.

Lemma verify_team_confirmed user_id txn_ref team :
  Team.confirmed team = true ->
  Team.confirmed (verify_team user_id txn_ref team) = true.
Proof.
  intros H. unfold verify_team.
  destruct (complete _); simpl; auto.
Qed.

Lemma step_keeps_flags (d d' : Data) :
  Forall flag_agrees (teams d) -> store_step d d' ->
  Forall flag_agrees (teams d').
Proof.
  intros Hd Hs.
  assert (Hget : forall c t, Dict.get c (teams d) = Some t ->
                             Team.confirmed t = complete t).
  { intros c t Hc. apply dict_get_In in Hc.
    rewrite Forall_forall in Hd. exact (Hd _ Hc). }
  destruct Hs as [u n Ht _ | code team Hf Hl Hc Hm Ht _
                  | code team c m Hg Hl Ht _ | code team e Hg He Hlt Hp Ht _
                  | code team u pr c m Hg Ht _ | u st _ Ht _
                  | code team u _ Ht _ | code team u txn Hfind Ht _];
    rewrite Ht; clear Ht; try assumption.
  - apply dict_Forall_set; [assumption|]. unfold flag_agrees, complete; simpl.
    now rewrite Hc, Hm.
  - apply dict_Forall_set; [assumption|]. unfold flag_agrees; simpl.
    exact (Hget _ _ Hg).
  - apply dict_Forall_set; [assumption|]. unfold flag_agrees, complete; simpl.
    rewrite (Hget _ _ Hg). unfold complete.
    rewrite forallb_app; simpl. rewrite Hp, andb_false_r, andb_false_r.
    destruct (Nat.eqb_spec (List.length (Team.members team)) 5);
      [lia | reflexivity].
  - apply dict_Forall_set; [assumption|]. unfold flag_agrees; simpl.
    rewrite complete_attach_notice. exact (Hget _ _ Hg).
  - apply update_first_Forall; [assumption|]. intros x _ _.
    unfold flag_agrees; simpl. apply verify_team_flag.
    apply find_some in Hfind as [Hin _].
    rewrite Forall_forall in Hd. exact (Hd _ Hin).
Qed.

Lemma get_after_verify (l : Dict.t Team.t) user_id txn_ref code t c' team :
  Dict.get code l = Some t -> Team.confirmed t = true ->
  find (has_member user_id) l = Some (c', team) ->
  exists t',
    Dict.get code
      (update_first (has_member user_id)
         (fun item => (fst item, verify_team user_id txn_ref team)) l)
    = Some t' /\ Team.confirmed t' = true.
Proof.
  induction l as [|[k v] r IH]; simpl; intros Hg Hc Hf; [discriminate|].
  destruct (has_member user_id (k, v)) eqn:E; simpl.
  - injection Hf as <- <-.
    destruct (k =? code)%string.
    + injection Hg as <-. eexists; split; [reflexivity|].
      now apply verify_team_confirmed.
    + eauto.
  - destruct (k =? code)%string; eauto.
Qed.

Lemma step_keeps_confirmed (code : string) (d d' : Data) :
  Forall flag_agrees (teams d) -> confirmed_at code (Some d) ->
  store_step d d' -> confirmed_at code (Some d').
Proof.
  intros Hd [t [Hg Hc]] Hs. unfold confirmed_at in *; simpl in *.
  destruct Hs as [u n Ht _ | c team Hf Hl Hcf Hm Ht _
                  | c team ch m Hgc Hl Ht _ | c team e Hgc He Hlt Hp Ht _
                  | c team u pr ch m Hgc Ht _ | u st _ Ht _
                  | c team u _ Ht _ | c team u txn Hfind Ht _];
    rewrite Ht; clear Ht; eauto.
  - exists t. split; [|exact Hc]. rewrite dict_get_set_other; [exact Hg|].
    intros ->. congruence.
  - destruct (String.eqb_spec c code) as [->|N].
    + rewrite dict_get_set_same. eexists; split; [reflexivity|]. simpl.
      congruence.
    + rewrite dict_get_set_other by exact N. eauto.
  - destruct (String.eqb_spec c code) as [->|N].
    + exfalso. assert (team = t) by congruence. subst team.
      apply dict_get_In in Hg. rewrite Forall_forall in Hd.
      specialize (Hd _ Hg). unfold flag_agrees in Hd; simpl in Hd.
      rewrite Hc in Hd. symmetry in Hd. apply complete_spec in Hd. lia.
    + rewrite dict_get_set_other by exact N. eauto.
  - destruct (String.eqb_spec c code) as [->|N].
    + rewrite dict_get_set_same. eexists; split; [reflexivity|]. simpl.
      congruence.
    + rewrite dict_get_set_other by exact N. eauto.
  - eapply get_after_verify; eauto.
Qed.


Lemma solo_key_not_created (user_id : Z) (c : string) :
  solo_key user_id <> created_key c.
Proof. unfold solo_key, created_key. simpl. discriminate. Qed.

Lemma member_key_not_created (code c : string) (user_id : Z) :
  String.length code = 6%nat -> String.length c = 6%nat ->
  member_key code user_id <> created_key c.
Proof.
  unfold member_key, created_key. intros Hcode Hc.
  do 7 (destruct code as [|? code]; try discriminate).
  do 7 (destruct c as [|? c]; try discriminate).
Qed.

Lemma payment_ok_status (key : string) (pay : Payment.t) (status : string) :
  payment_ok (key, pay) -> (forall c, String.length c = 6%nat -> key <> created_key c) ->
  In status STATUSES ->
  payment_ok (key, Payment.set_status status pay).
Proof.
  intros [[_ [_ [c [Hc Hk]]]]|[Ht _]] Hkey Hs.
  - exfalso. exact (Hkey c Hc Hk).
  - right. simpl. auto.
Qed.

Lemma mark_status_ok (key status : string) (ps : Dict.t Payment.t) :
  Forall payment_ok ps ->
  (forall c, String.length c = 6%nat -> key <> created_key c) ->
  In status STATUSES ->
  Forall payment_ok (mark_status key status ps).
Proof.
  intros Hps Hkey Hs. unfold mark_status.
  destruct (Dict.get key ps) as [pay|] eqn:E; [|exact Hps].
  apply dict_Forall_set; [exact Hps|].
  apply payment_ok_status; auto.
  apply dict_get_In in E. rewrite Forall_forall in Hps. exact (Hps _ E).
Qed.

Lemma step_keeps_index (d d' : Data) :
  index_ok (Some d) -> store_step d d' -> index_ok (Some d').
Proof.
  unfold index_ok; simpl. intros [Hc Hp] Hs.
  assert (Hlen : forall c t, In (c, t) (teams d) -> String.length c = 6%nat).
  { intros c t Hin. rewrite Forall_forall in Hc. exact (Hc _ Hin). }
  destruct Hs as [u n Ht Hpay | code team Hf Hl Hcf Hm Ht Hpay
                  | code team c m Hg Hl Ht Hpay
                  | code team e Hg He Hlt Hpd Ht Hpay
                  | code team u pr c m Hg Ht Hpay | u st Hst Ht Hpay
                  | code team u Hfind Ht Hpay | code team u txn Hfind Ht Hpay];
    rewrite Ht, Hpay; clear Ht Hpay.
  - split; [exact Hc|]. destruct n as [[c m]|]; [|exact Hp].
    apply dict_Forall_set; [exact Hp|]. right; simpl. auto.
  - split; [|exact Hp]. apply dict_Forall_set; [exact Hc | exact Hl].
  - split.
    + apply dict_Forall_set; [exact Hc | exact Hl].
    + apply dict_Forall_set; [exact Hp|]. left; simpl. eauto.
  - split; [|exact Hp]. apply dict_Forall_set; [exact Hc|].
    exact (Hlen _ _ (dict_get_In _ _ Hg)).
  - split.
    + apply dict_Forall_set; [exact Hc|].
      exact (Hlen _ _ (dict_get_In _ _ Hg)).
    + apply dict_Forall_set; [exact Hp|]. right; simpl. auto.
  - split; [exact Hc|]. apply mark_status_ok; auto.
    + intros c _. apply solo_key_not_created.
    + simpl in *. tauto.
  - split; [exact Hc|]. apply mark_status_ok; simpl; auto.
    intros c Hlc. apply member_key_not_created; [|exact Hlc].
    apply find_some in Hfind as [Hin _]. exact (Hlen _ _ Hin).
  - split.
    + apply update_first_Forall; [exact Hc|]. intros x Hx _. exact Hx.
    + apply mark_status_ok; simpl; auto.
      intros c Hlc. apply member_key_not_created; [|exact Hlc].
      apply find_some in Hfind as [Hin _]. exact (Hlen _ _ Hin).
Qed.


(** ** Reachable stores *)

Lemma reachable_after (w : World) ctx c replies :
  reachable (disk w) -> reachable (disk (after w ctx c replies)).
Proof. intros H. exact (reachable_invoke (set_inbox replies w) ctx c H). Qed.

Lemma reachable_world_team : reachable (disk world_team).
Proof. apply reachable_after, reachable_start. Qed.

Lemma reachable_world_full : reachable (disk world_full).
Proof. do 4 apply reachable_after. apply reachable_world_team. Qed.

Lemma reachable_world_confirmed : reachable (disk world_confirmed).
Proof. do 5 apply reachable_after. apply reachable_world_full. Qed.

Lemma reachable_flags (o : option Data) :
  reachable o -> confirmed_iff_complete o.
Proof.
  induction 1 as [|w ctx c _ IH].
  - constructor.
  - refine (proj1 (@invoke_preserves confirmed_iff_complete _ _ ctx c w IH)).
    + intros _. constructor.
    + intros d d'. apply step_keeps_flags.
Qed.

Lemma reachable_index (o : option Data) : reachable o -> index_ok o.
Proof.
  induction 1 as [|w ctx c _ IH].
  - split; constructor.
  - refine (proj1 (@invoke_preserves index_ok _ _ ctx c w IH)).
    + intros _. split; constructor.
    + intros d d'. apply step_keeps_index.
Qed.

(** ** C4: team confirmation *)

(** C4 does not hold of the code: a join that overlaps other commands
    takes a confirmation back.  The team "Foxes" (code [ABCDEF]) has four
    members, all verified, when user 6 sends [!jointeam abcdef]; the handler
    loads the store, finds room in the team and waits for the IGN.  In the
    meantime user 5 joins the team and an admin verifies that payment: the
    store now holds the team with five paid members, confirmed.  Then user 6
    answers both questions, and the handler appends user 6 to the team of
    the snapshot it loaded before its waits and saves that snapshot: the
    store holds the team with members 1, 2, 3, 4 and 6, not confirmed, and
    the entry of user 5 is gone from the team and from the payment index.
    The handler itself reloads the store before its second write ("reload
    because might have changed"); before its first write it does not. *)
Theorem C4_stale_join_reverts_confirmation :
  let w :=
    set_inbox [Some "Raze"; Some "TXN-5"; Some "Sova"; Some "TXN-6"]
      world_four in
  let w' :=
    run (invoke_join_during fifth_completes (dm_ctx 6) (Some "abcdef")) w in
  roster "ABCDEF" (store w) = [1; 2; 3; 4]
  /\ (exists joined noticed verified stale final,
        saves (log w')
        = final :: stale :: verified :: noticed :: joined :: saves (log w)
        /\ disk w' = Some final
        /\ map (roster "ABCDEF") [joined; noticed; verified; stale; final]
           = [[1; 2; 3; 4; 5]; [1; 2; 3; 4; 5]; [1; 2; 3; 4; 5];
              [1; 2; 3; 4; 6]; [1; 2; 3; 4; 6]]
        /\ map (flag "ABCDEF") [joined; noticed; verified; stale; final]
           = [Some false; Some false; Some true; Some false; Some false]
        /\ confirmed_at "ABCDEF" (Some verified)
        /\ ~ confirmed_at "ABCDEF" (Some stale)
        /\ ~ confirmed_at "ABCDEF" (disk w')
        /\ map (fun key => Dict.mem key (payments verified))
             ["team-ABCDEF-member-5"; "team-ABCDEF-member-6"]
           = [true; false]
        /\ map (fun key => Dict.mem key (payments final))
             ["team-ABCDEF-member-5"; "team-ABCDEF-member-6"]
           = [false; true]).
Proof.
  intros w w'. split; [vm_compute; reflexivity|].
  set (l := saves (log w')).
  exists (nth 4 l empty_data), (nth 3 l empty_data), (nth 2 l empty_data),
    (nth 1 l empty_data), (nth 0 l empty_data).
  assert (Hnot : forall d,
             flag "ABCDEF" d = Some false -> ~ confirmed_at "ABCDEF" (Some d)).
  { unfold flag, confirmed_at. cbn [store_of]. intros d H [t [Hg Hc]].
    rewrite Hg in H. cbn in H. congruence. }
  split; [vm_compute; reflexivity|].
  split; [vm_compute; reflexivity|].
  split; [vm_compute; reflexivity|].
  split; [vm_compute; reflexivity|].
  split; [eexists; split; vm_compute; reflexivity|].
  split; [apply Hnot; vm_compute; reflexivity|].
  split; [|split; vm_compute; reflexivity].
  replace (disk w') with (Some (nth 0 l empty_data))
    by (vm_compute; reflexivity).
  apply Hnot. vm_compute. reflexivity.
Qed.

(** ** C2: statuses in the payment index *)

(** C2, as the spec states it, fails: creating a team writes an entry whose
    status is ["awaiting_members"]. *)
Lemma C2_counterexample :
  exists p,
    reachable (disk world_team)
    /\ Dict.get "team-ABCDEF-created" (payments (store world_team)) = Some p
    /\ ~ In (Payment.status p) STATUSES.
Proof.
  eexists. split; [exact reachable_world_team|]. split.
  - vm_compute. reflexivity.
  - simpl. intros [H|[H|[H|[]]]]; discriminate H.
Qed.

(** C2, amended.  In every reachable store an entry of the payment index is
    either the record of a team creation, with status ["awaiting_members"],
    or the record of a solo or team-member payment, with a status among
    pending, verified and rejected. *)
Theorem C2_payment_statuses (o : option Data) :
  reachable o ->
  forall key p,
    Dict.get key (payments (store_of o)) = Some p ->
    (Payment.type p = "team_created"
     /\ Payment.status p = "awaiting_members")
    \/ ((Payment.type p = "solo" \/ Payment.type p = "team_member")
        /\ In (Payment.status p) ["pending"; "verified"; "rejected"]).
Proof.
  intros Hr key p Hg. destruct (reachable_index Hr) as [_ Hp].
  apply dict_get_In in Hg. rewrite Forall_forall in Hp.
  destruct (Hp _ Hg) as [[Ht [Hs _]]|H]; [left | right]; auto.
Qed.

Lemma C2_witness :
  reachable (disk world_confirmed)
  /\ exists p,
       Dict.get "team-ABCDEF-member-2" (payments (store world_confirmed))
       = Some p
       /\ Payment.status p = "verified"
       /\ ((Payment.type p = "team_created"
            /\ Payment.status p = "awaiting_members")
           \/ ((Payment.type p = "solo" \/ Payment.type p = "team_member")
               /\ In (Payment.status p) ["pending"; "verified"; "rejected"])).
Proof.
  split; [exact reachable_world_confirmed|].
  eexists. split; [vm_compute; reflexivity|]. split; [reflexivity|].
  apply (C2_payment_statuses reachable_world_confirmed "team-ABCDEF-member-2").
  vm_compute. reflexivity.
Defined.


(** ** Running handlers symbolically *)

Ltac unfold_monad :=
  unfold def, bind, try_except, ret, return_, raise, send, send_dm, wait_for,
    load_data, save_data, getitem, grant_role, get_UPI_ID, default_guild,
    target_guild_of, emit, set_log, set_inbox, set_disk, set_messages,
    set_next_message_id, set_rng_pos, run, outcome, store in *.

Ltac simp :=
  cbn [fst snd disk inbox messages next_message_id rng rng_pos loop_budget
       bot_guilds GUILD_ID UPI_ID dms_closed log negb is_timeout is_forbidden
       any_exception is_not_found_or_forbidden store_of] in *.

(** ** C8: join codes *)

Lemma random_choices_total (population : list ascii) (k : nat) (w : World) :
  exists l, outcome (random_choices population k) w = Normal l.
Proof.
  revert w. induction k as [|k IH]; intros w; simpl.
  - eexists; reflexivity.
  - unfold outcome, bind, random_index in *. simpl.
    destruct (IH (set_rng_pos (S (rng_pos w)) w)) as [l Hl].
    destruct (random_choices population k _) as [o w']; simpl in *.
    subst o. eexists; reflexivity.
Qed.

Lemma make_join_code_total (n : nat) (w : World) :
  exists code, outcome (make_join_code n) w = Normal code.
Proof.
  unfold make_join_code, outcome, bind.
  destruct (random_choices_total alphabet n w) as [l Hl].
  unfold outcome in Hl. destruct (random_choices alphabet n w) as [o w'].
  simpl in *. subst o. eexists; reflexivity.
Qed.

Lemma make_join_code_shape (n : nat) (w : World) (code : string) :
  outcome (make_join_code n) w = Normal code ->
  String.length code = n
  /\ Forall (fun c => In c alphabet) (list_ascii_of_string code).
Proof.
  intros H.
  exact (proj2 (@preserves_make_join_code (fun _ => True) n w Logic.I) code H).
Qed.

Lemma make_join_code_disk (n : nat) (w : World) :
  disk (run (make_join_code n) w) = disk w.
Proof.
  exact (proj1 (@preserves_make_join_code (fun o => o = disk w) n w eq_refl)).
Qed.

Lemma ensure_unique_code_fresh (budget : nat) (data : Data) :
  forall code0 w code,
    outcome (ensure_unique_code budget data code0) w = Normal code ->
    Dict.mem code (teams data) = false.
Proof.
  induction budget as [|b IH]; intros code0 w code; simpl;
    destruct (Dict.mem code0 (teams data)) eqn:E; unfold outcome; simpl.
  - discriminate.
  - intros H; injection H as <-. exact E.
  - unfold bind. destruct (make_join_code 6 w) as [[c| |e|] w'] eqn:Em;
      simpl; try discriminate.
    apply IH.
  - intros H; injection H as <-. exact E.
Qed.

Lemma make_join_code_6 (w : World) :
  make_join_code 6 w
  = (Normal (code_at (rng w) (rng_pos w)), set_rng_pos (6 + rng_pos w) w).
Proof. destruct w. reflexivity. Qed.

Lemma ensure_unique_code_frame (budget : nat) (data : Data) :
  forall code0 w,
  exists n, snd (ensure_unique_code budget data code0 w) = set_rng_pos n w.
Proof.
  induction budget as [|b IH]; intros code0 w; simpl;
    destruct (Dict.mem code0 (teams data)); simpl.
  - exists (rng_pos w). now destruct w.
  - exists (rng_pos w). now destruct w.
  - unfold bind. rewrite make_join_code_6.
    destruct (IH (code_at (rng w) (rng_pos w))
                (set_rng_pos (6 + rng_pos w) w)) as [n Hn].
    exists n. rewrite Hn. now destruct w.
  - exists (rng_pos w). now destruct w.
Qed.

Lemma nth_candidate_shift (code0 : string) (rng : nat -> nat) (pos j : nat) :
  nth_candidate (code_at rng pos) rng (6 + pos) j
  = nth_candidate code0 rng pos (S j).
Proof.
  destruct j as [|j]; unfold nth_candidate; f_equal; lia.
Qed.

Lemma ensure_unique_code_terminates (budget : nat) (data : Data) :
  forall code0 w j,
    (j <= budget)%nat ->
    Dict.mem (nth_candidate code0 (rng w) (rng_pos w) j) (teams data) = false ->
    exists code, outcome (ensure_unique_code budget data code0) w = Normal code.
Proof.
  induction budget as [|b IH]; intros code0 w j Hj Hfresh; simpl;
    destruct (Dict.mem code0 (teams data)) eqn:E;
    try (eexists; reflexivity).
  - assert (j = 0%nat) by lia. subst j. simpl in Hfresh. congruence.
  - destruct j as [|j]; [simpl in Hfresh; congruence|].
    unfold outcome, bind. rewrite make_join_code_6.
    apply (IH (code_at (rng w) (rng_pos w))
             (set_rng_pos (6 + rng_pos w) w) j); [lia|].
    change (Dict.mem
              (nth_candidate (code_at (rng w) (rng_pos w)) (rng w)
                 (6 + rng_pos w) j) (teams data) = false).
    rewrite (nth_candidate_shift code0). exact Hfresh.
Qed.


(** ** Notices: what publishing and updating do *)

Lemma post_payment_embed_run (g : Guild) (title : string)
    (fields : list (string * string)) (w : World) (ch : Channel) :
  notice_channel g = Some ch ->
  post_payment_embed g title fields w
  = (Normal (ch_id ch, next_message_id w),
     emit (Post (ch_id ch) (next_message_id w)
             (mkEmbed (Some title) "orange" fields
                (Some (footer_text (UPI_ID w)))))
       (set_next_message_id (next_message_id w + 1)
          (set_messages
             (messages w
              ++ [mkMessage (ch_id ch) (next_message_id w)
                    [mkEmbed (Some title) "orange" fields
                       (Some (footer_text (UPI_ID w)))] true])
             w))).
Proof.
  unfold notice_channel, post_payment_embed. intros H.
  destruct (channel_named g CHANNEL_PAYMENTS) as [c|].
  - injection H as ->. destruct w. reflexivity.
  - destruct (text_channels g) as [|c r]; [discriminate|].
    injection H as ->. destruct w. reflexivity.
Qed.

Lemma post_payment_embed_no_channel (g : Guild) (title : string)
    (fields : list (string * string)) (w : World) :
  notice_channel g = None ->
  post_payment_embed g title fields w = (Raised IndexError, w).
Proof.
  unfold notice_channel, post_payment_embed. intros H.
  destruct (channel_named g CHANNEL_PAYMENTS) as [c|]; [discriminate|].
  destruct (text_channels g) as [|c r]; [|discriminate].
  destruct w. reflexivity.
Qed.

Lemma edit_payment_embed_no_channel g c m f t w :
  get_channel g c = None -> edit_payment_embed g c m f t w = (Normal tt, w).
Proof.
  intros H. unfold edit_payment_embed, edit_payment_embed_with. rewrite H.
  reflexivity.
Qed.

Lemma edit_payment_embed_unreadable g c m f t w ch :
  get_channel g c = Some ch -> readable ch = false ->
  edit_payment_embed g c m f t w = (Normal tt, w).
Proof.
  intros H Hr.
  unfold edit_payment_embed, edit_payment_embed_with, fetch_message.
  rewrite H.
  unfold_monad. rewrite Hr. reflexivity.
Qed.

Lemma edit_payment_embed_missing g c m f t w ch :
  get_channel g c = Some ch -> readable ch = true ->
  find (same_message (ch_id ch) m) (messages w) = None ->
  edit_payment_embed g c m f t w = (Normal tt, w).
Proof.
  intros H Hr Hf.
  unfold edit_payment_embed, edit_payment_embed_with, fetch_message.
  rewrite H.
  unfold_monad. rewrite Hr, Hf. reflexivity.
Qed.

Lemma edit_payment_embed_edits g c m f t w ch msg :
  get_channel g c = Some ch -> readable ch = true ->
  find (same_message (ch_id ch) m) (messages w) = Some msg ->
  editable msg = true ->
  edit_payment_embed g c m f t w
  = (Normal tt,
     emit (EditMsg (msg_channel msg) (msg_id msg)
             (updated_embed msg f t (UPI_ID w)))
       (set_messages
          (map (fun x =>
                  if same_message (msg_channel msg) (msg_id msg) x
                  then mkMessage (msg_channel x) (msg_id x)
                         [updated_embed msg f t (UPI_ID w)] (editable x)
                  else x)
             (messages w))
          w)).
Proof.
  intros H Hr Hf He.
  unfold edit_payment_embed, edit_payment_embed_with, fetch_message,
    edit_message.
  rewrite H. unfold_monad. rewrite Hr, Hf. simp. rewrite He.
  unfold updated_embed. destruct (truthy t); destruct w; reflexivity.
Qed.

Lemma edit_payment_embed_falls_back g c m f t w ch msg :
  get_channel g c = Some ch -> readable ch = true ->
  find (same_message (ch_id ch) m) (messages w) = Some msg ->
  editable msg = false ->
  edit_payment_embed g c m f t w
  = (Normal tt,
     emit (Post (ch_id ch) (next_message_id w)
             (updated_embed msg f t (UPI_ID w)))
       (set_next_message_id (next_message_id w + 1)
          (set_messages
             (messages w
              ++ [mkMessage (ch_id ch) (next_message_id w)
                    [updated_embed msg f t (UPI_ID w)] true])
             w))).
Proof.
  intros H Hr Hf He.
  unfold edit_payment_embed, edit_payment_embed_with, fetch_message,
    edit_message.
  rewrite H. unfold_monad. rewrite Hr, Hf. simp. rewrite He.
  unfold updated_embed, send_embed. destruct (truthy t); destruct w; reflexivity.
Qed.

Lemma same_message_ref (c m : Z) (msg : Message) :
  same_message c m msg = true -> msg_channel msg = c /\ msg_id msg = m.
Proof.
  unfold same_message. rewrite andb_true_iff, !Z.eqb_eq. tauto.
Qed.

Lemma get_channel_id (g : Guild) (c : Z) (ch : Channel) :
  get_channel g c = Some ch -> ch_id ch = c.
Proof.
  unfold get_channel. intros H. apply find_some in H as [_ H].
  now apply Z.eqb_eq.
Qed.

Lemma notice_refs_edit (c m : Z) (e : Embed) (l : list Message) :
  map (fun x => (msg_channel x, msg_id x))
    (map (fun x =>
            if same_message c m x
            then mkMessage (msg_channel x) (msg_id x) [e] (editable x)
            else x) l)
  = map (fun x => (msg_channel x, msg_id x)) l.
Proof.
  rewrite map_map. apply map_ext. intros x.
  destruct (same_message c m x); reflexivity.
Qed.

(** An update has one of three effects. *)
Lemma edit_payment_embed_cases g c m f t w :
  edit_payment_embed g c m f t w = (Normal tt, w)
  \/ exists ch msg,
       get_channel g c = Some ch /\ readable ch = true
       /\ find (same_message (ch_id ch) m) (messages w) = Some msg
       /\ ((editable msg = true
            /\ edit_payment_embed g c m f t w
               = (Normal tt,
                  emit (EditMsg (msg_channel msg) (msg_id msg)
                          (updated_embed msg f t (UPI_ID w)))
                    (set_messages
                       (map (fun x =>
                               if same_message (msg_channel msg) (msg_id msg) x
                               then mkMessage (msg_channel x) (msg_id x)
                                      [updated_embed msg f t (UPI_ID w)]
                                      (editable x)
                               else x)
                          (messages w))
                       w)))
           \/ (editable msg = false
               /\ edit_payment_embed g c m f t w
                  = (Normal tt,
                     emit (Post (ch_id ch) (next_message_id w)
                             (updated_embed msg f t (UPI_ID w)))
                       (set_next_message_id (next_message_id w + 1)
                          (set_messages
                             (messages w
                              ++ [mkMessage (ch_id ch) (next_message_id w)
                                    [updated_embed msg f t (UPI_ID w)] true])
                             w))))).
Proof.
  destruct (get_channel g c) as [ch|] eqn:Hc;
    [|left; now apply edit_payment_embed_no_channel].
  destruct (readable ch) eqn:Hr;
    [|left; now apply edit_payment_embed_unreadable with ch].
  destruct (find (same_message (ch_id ch) m) (messages w)) as [msg|] eqn:Hf;
    [|left; now apply edit_payment_embed_missing with ch].
  right. exists ch, msg. repeat split; auto.
  destruct (editable msg) eqn:He; [left | right]; split; auto.
  - now apply edit_payment_embed_edits with ch.
  - now apply edit_payment_embed_falls_back.
Qed.

(** An update ends normally and leaves everything but the notices and the log
    as it was. *)
Lemma edit_payment_embed_frame g c m f t w :
  let w' := snd (edit_payment_embed g c m f t w) in
  fst (edit_payment_embed g c m f t w) = Normal tt
  /\ disk w' = disk w /\ inbox w' = inbox w /\ dms_closed w' = dms_closed w
  /\ bot_guilds w' = bot_guilds w /\ GUILD_ID w' = GUILD_ID w
  /\ UPI_ID w' = UPI_ID w
  /\ exists evs, log w' = (evs ++ log w)%list
                 /\ saves evs = [] /\ waits evs = [].
Proof.
  destruct (edit_payment_embed_cases g c m f t w)
    as [E|[ch [msg [_ [_ [_ [[_ E]|[_ E]]]]]]]]; rewrite E; simpl;
    repeat split; try reflexivity.
  - exists []. auto.
  - eexists [_]. simpl. auto.
  - eexists [_]. simpl. auto.
Qed.

Ltac exec_in H :=
  lazy beta iota zeta delta
    [def bind try_except ret return_ raise send send_dm wait_for load_data
     save_data getitem grant_role get_UPI_ID default_guild target_guild_of
     emit set_log set_inbox set_disk set_messages set_next_message_id
     set_rng_pos fst snd disk inbox messages next_message_id rng rng_pos
     loop_budget bot_guilds GUILD_ID UPI_ID dms_closed log negb is_timeout
     is_forbidden any_exception is_not_found_or_forbidden] in H.

(** ** Team creation, run *)

Lemma ensure_unique_code_outcome (budget : nat) (data : Data) :
  forall code0 w,
    String.length code0 = 6%nat ->
    Forall (fun c => In c alphabet) (list_ascii_of_string code0) ->
    fst (ensure_unique_code budget data code0 w) = Diverged
    \/ exists code,
         fst (ensure_unique_code budget data code0 w) = Normal code
         /\ Dict.mem code (teams data) = false
         /\ String.length code = 6%nat
         /\ Forall (fun c => In c alphabet) (list_ascii_of_string code).
Proof.
  induction budget as [|b IH]; intros code0 w Hl Ha; simpl;
    destruct (Dict.mem code0 (teams data)) eqn:E; simpl; eauto.
  - right. eauto.
  - unfold bind. rewrite make_join_code_6.
    destruct (@make_join_code_shape 6 w (code_at (rng w) (rng_pos w)))
      as [Hl' Ha'].
    { unfold outcome. now rewrite make_join_code_6. }
    apply IH; assumption.
  - right. eauto.
Qed.

Lemma code_at_shape (rng : nat -> nat) (pos : nat) :
  String.length (code_at rng pos) = 6%nat
  /\ Forall (fun c => In c alphabet) (list_ascii_of_string (code_at rng pos)).
Proof.
  apply (@make_join_code_shape 6
           (mkWorld None [] [] 0 rng pos 0 [] None EmptyString [] [])).
  unfold outcome. now rewrite make_join_code_6.
Qed.

Lemma handle_team_registration_run user guild w d content rest :
  disk w = Some d -> inbox w = Some content :: rest -> proceeds content ->
  outcome (handle_team_registration user guild) w <> Diverged ->
  let w' := run (handle_team_registration user guild) w in
  exists code,
    String.length code = 6%nat
    /\ Forall (fun c => In c alphabet) (list_ascii_of_string code)
    /\ Dict.mem code (teams d) = false
    /\ waits (log w') = 300 :: waits (log w)
    /\ let team := new_team user (strip content) in
       match resolve_guild guild w with
       | Some g =>
           match notice_channel g with
           | Some ch =>
               let r := mkMsgRef (ch_id ch) (next_message_id w) in
               disk w' = Some (team_noticed d code team r)
               /\ saves (log w')
                  = team_noticed d code team r :: team_created d code team
                    :: saves (log w)
               /\ posts (log w')
                  = (ch_id ch, next_message_id w) :: posts (log w)
           | None =>
               disk w' = Some (team_created d code team)
               /\ saves (log w') = team_created d code team :: saves (log w)
               /\ posts (log w') = posts (log w)
           end
       | None =>
           disk w' = Some (team_created d code team)
           /\ saves (log w') = team_created d code team :: saves (log w)
           /\ posts (log w') = posts (log w)
       end.
Proof.
  unfold proceeds. intros Hd Hi Hp. unfold run, outcome.
  destruct w; simpl in Hd, Hi; subst.
  match goal with
  | |- context [handle_team_registration ?u ?g ?W] =>
      remember (handle_team_registration u g W) as r eqn:E
  end.
  unfold handle_team_registration in E. exec_in E. rewrite Hp in E.
  rewrite make_join_code_6 in E. exec_in E.
  match type of E with
  | context [ensure_unique_code ?b ?dt ?c ?w1] =>
      destruct (@ensure_unique_code_outcome b dt c w1) as [Hdv|[code Hc]];
      [ apply code_at_shape | apply code_at_shape | | ];
      destruct (ensure_unique_code_frame b dt c w1) as [n Hn];
      destruct (ensure_unique_code b dt c w1) as [o w2]
  end; simpl in Hn; subst w2.
  - simpl in Hdv. subst o. exec_in E. subst r. intros H. now contradiction H.
  - destruct Hc as [Ho [Hf [Hl Ha]]]. simpl in Ho. subst o. intros _.
    exists code. repeat (split; [assumption|]).
    unfold resolve_guild, default_guild_in. simp.
    unfold default_guild_in in E. exec_in E.
    destruct guild as [g|].
    + destruct (notice_channel g) as [ch|] eqn:Hch.
      * rewrite (@post_payment_embed_run g _ _ _ ch Hch) in E.
        exec_in E. subst r. simpl. auto.
      * rewrite (@post_payment_embed_no_channel g _ _ _ Hch) in E.
        exec_in E. subst r. simpl. auto.
    + match goal with
      | |- context [match ?x with Some _ => _ | None => _ end] =>
          destruct x as [g|] eqn:Hdg
      end.
      * destruct (notice_channel g) as [ch|] eqn:Hch.
        -- rewrite (@post_payment_embed_run g _ _ _ ch Hch) in E.
           exec_in E. subst r. simpl. auto.
        -- rewrite (@post_payment_embed_no_channel g _ _ _ Hch) in E.
           exec_in E. subst r. simpl. auto.
      * exec_in E. subst r. simpl. auto.
Qed.


Lemma dict_set_set {V} (k : string) (v v' : V) (d : Dict.t V) :
  Dict.set k v' (Dict.set k v d) = Dict.set k v' d.
Proof.
  induction d as [|[k0 v0] r IH]; simpl.
  - now rewrite String.eqb_refl.
  - destruct (k0 =? k)%string eqn:E; simpl; rewrite E; [reflexivity|].
    now rewrite IH.
Qed.

Lemma dict_keys_set {V} (k : string) (v : V) (d : Dict.t V) :
  Dict.keys (Dict.set k v d) = Dict.keys d
  \/ (~ In k (Dict.keys d)
      /\ Dict.keys (Dict.set k v d) = (Dict.keys d ++ [k])%list).
Proof.
  induction d as [|[k0 v0] r IH]; simpl.
  - right. auto.
  - destruct (String.eqb_spec k0 k) as [->|N]; simpl; [now left|].
    destruct IH as [E|[Hn E]]; [left | right]; unfold Dict.keys in *.
    + now rewrite E.
    + split; [|now rewrite E]. intros [H|H]; auto.
Qed.

Lemma dict_keys_set_NoDup {V} (k : string) (v : V) (d : Dict.t V) :
  NoDup (Dict.keys d) -> NoDup (Dict.keys (Dict.set k v d)).
Proof.
  intros H. destruct (dict_keys_set k v d) as [E|[Hn E]]; rewrite E; auto.
  apply NoDup_app; auto.
  - constructor; [intros []|constructor].
  - intros a Ha [<-|[]]. contradiction.
Qed.

Lemma update_first_keys {V} (p : string * V -> bool)
    (f : string * V -> string * V) (l : Dict.t V) :
  (forall x, fst (f x) = fst x) ->
  Dict.keys (update_first p f l) = Dict.keys l.
Proof.
  intros Hf. induction l as [|x r IH]; simpl; [reflexivity|].
  destruct (p x); simpl; [now rewrite Hf | now rewrite IH].
Qed.

Lemma step_keeps_codes_distinct (d d' : Data) :
  codes_distinct (Some d) -> store_step d d' -> codes_distinct (Some d').
Proof.
  unfold codes_distinct; simpl. intros Hd Hs.
  destruct Hs as [u n Ht _ | code team Hf Hl Hc Hm Ht _
                  | code team c m Hg Hl Ht _ | code team e Hg He Hlt Hp Ht _
                  | code team u pr c m Hg Ht _ | u st _ Ht _
                  | code team u _ Ht _ | code team u txn Hfind Ht _];
    rewrite Ht; clear Ht; try assumption;
    try (now apply dict_keys_set_NoDup).
  now rewrite update_first_keys.
Qed.

Lemma reachable_codes_distinct (o : option Data) :
  reachable o -> codes_distinct o.
Proof.
  induction 1 as [|w ctx c _ IH].
  - constructor.
  - refine (proj1 (@invoke_preserves codes_distinct _ _ ctx c w IH)).
    + intros _. constructor.
    + intros d d'. apply step_keeps_codes_distinct.
Qed.

(** ** C8: join codes *)

(** The loop returns the first of its candidates that is not a key of the
    teams: every candidate before it collides and is thrown away. *)
Lemma ensure_unique_code_first_fresh (budget : nat) (data : Data) :
  forall code0 w j,
    (j <= budget)%nat ->
    (forall i, (i < j)%nat ->
       Dict.mem (nth_candidate code0 (rng w) (rng_pos w) i) (teams data)
       = true) ->
    Dict.mem (nth_candidate code0 (rng w) (rng_pos w) j) (teams data) = false ->
    outcome (ensure_unique_code budget data code0) w
    = Normal (nth_candidate code0 (rng w) (rng_pos w) j).
Proof.
  induction budget as [|b IH]; intros code0 w j Hj Hbefore Hfresh.
  - assert (j = 0%nat) by lia. subst j. simpl in *. unfold outcome.
    now rewrite Hfresh.
  - destruct j as [|j].
    + simpl in *. unfold outcome. now rewrite Hfresh.
    + pose proof (Hbefore 0%nat ltac:(lia)) as H0. simpl in H0.
      simpl ensure_unique_code. rewrite H0.
      unfold outcome, bind. rewrite make_join_code_6.
      rewrite <- (nth_candidate_shift code0).
      apply (IH (code_at (rng w) (rng_pos w))
               (set_rng_pos (6 + rng_pos w) w) j); [lia| |].
      * intros i Hi.
        change (Dict.mem
                  (nth_candidate (code_at (rng w) (rng_pos w)) (rng w)
                     (6 + rng_pos w) i) (teams data) = true).
        rewrite (nth_candidate_shift code0). apply Hbefore. lia.
      * change (Dict.mem
                  (nth_candidate (code_at (rng w) (rng_pos w)) (rng w)
                     (6 + rng_pos w) j) (teams data) = false).
        rewrite (nth_candidate_shift code0). exact Hfresh.
Qed.

(** C8.  A generated join code has six characters, all drawn from the
    upper-case letters and the digits.  The uniqueness loop of team creation
    returns a code that is not a key of the teams it was given; it does
    return when one of the candidates within its budget is fresh, and what
    it returns is the first fresh candidate, every colliding one before it
    being thrown away.  Team creation therefore adds its team under a new
    key, next to the teams that were there, and the codes in a reachable
    store are six characters long and pairwise distinct. *)
Theorem C8_join_codes :
  (forall w,
      exists code,
        outcome (make_join_code 6) w = Normal code
        /\ String.length code = 6%nat
        /\ Forall (fun c => In c alphabet) (list_ascii_of_string code))
  /\ (forall budget data code0 w code,
         outcome (ensure_unique_code budget data code0) w = Normal code ->
         Dict.mem code (teams data) = false)
  /\ (forall budget data code0 w j,
         (j <= budget)%nat ->
         Dict.mem (nth_candidate code0 (rng w) (rng_pos w) j) (teams data)
         = false ->
         exists code,
           outcome (ensure_unique_code budget data code0) w = Normal code)
  /\ (forall budget data code0 w j,
         (j <= budget)%nat ->
         (forall i, (i < j)%nat ->
            Dict.mem (nth_candidate code0 (rng w) (rng_pos w) i) (teams data)
            = true) ->
         Dict.mem (nth_candidate code0 (rng w) (rng_pos w) j) (teams data)
         = false ->
         outcome (ensure_unique_code budget data code0) w
         = Normal (nth_candidate code0 (rng w) (rng_pos w) j))
  /\ (forall user guild w d content rest,
         disk w = Some d -> inbox w = Some content :: rest ->
         proceeds content ->
         outcome (handle_team_registration user guild) w <> Diverged ->
         exists code team,
           String.length code = 6%nat
           /\ Dict.mem code (teams d) = false
           /\ teams (store (run (handle_team_registration user guild) w))
              = (teams d ++ [(code, team)])%list)
  /\ (forall o,
         reachable o ->
         NoDup (Dict.keys (teams (store_of o)))
         /\ Forall (fun code => String.length code = 6%nat)
              (Dict.keys (teams (store_of o)))).
Proof.
  split; [|split; [|split; [|split; [|split]]]].
  - intros w. destruct (make_join_code_total 6 w) as [code Hc].
    exists code. split; [exact Hc|]. now apply make_join_code_shape with w.
  - intros budget data code0 w code. apply ensure_unique_code_fresh.
  - intros budget data code0 w j. apply ensure_unique_code_terminates.
  - intros budget data code0 w j. apply ensure_unique_code_first_fresh.
  - intros user guild w d content rest Hd Hi Hp Ho.
    destruct (@handle_team_registration_run user guild w d content rest
                Hd Hi Hp Ho)
      as [code [Hl [_ [Hf [_ H]]]]].
    pose proof (proj1 (dict_mem_false _ _) Hf) as Hg.
    unfold store. exists code.
    destruct (resolve_guild guild w) as [g|];
      [destruct (notice_channel g) as [ch|]|];
      destruct H as [H _]; rewrite H; simpl; eexists;
      (split; [exact Hl|]); (split; [exact Hf|]);
      rewrite ?dict_set_set; now apply dict_set_fresh.
  - intros o Hr. split; [now apply reachable_codes_distinct|].
    destruct (reachable_index Hr) as [Hc _].
    unfold Dict.keys. rewrite Forall_map. exact Hc.
Qed.

(** A captain creates a team while the store holds the team [ABCDEF] and
    the generator draws [ABCDEF] first: the loop throws that code away,
    draws [GHIJKL], and the team is stored under it, next to the first. *)
Lemma C8_witness :
  let w := set_inbox [Some "Wolves"] small_world in
  let w' := run (handle_team_registration (mkUser 7 "ann") None) w in
  (outcome (make_join_code 6) w = Normal "ABCDEF"
   /\ Dict.mem "ABCDEF" (teams small_store) = true)
  /\ outcome (ensure_unique_code 10 small_store "ABCDEF")
       (run (make_join_code 6) w)
     = Normal "GHIJKL"
  /\ (exists code team,
        String.length code = 6%nat
        /\ Dict.mem code (teams small_store) = false
        /\ teams (store w') = (teams small_store ++ [(code, team)])%list)
  /\ Dict.keys (teams (store w')) = ["ABCDEF"; "GHIJKL"].
Proof.
  intros w w'.
  split; [split; reflexivity|]. split; [|split].
  - refine (proj1 (proj2 (proj2 (proj2 C8_join_codes)))
              10%nat small_store "ABCDEF" (run (make_join_code 6) w) 1%nat
              _ _ eq_refl).
    + repeat constructor.
    + intros i Hi. destruct i as [|i]; [reflexivity|].
      exfalso. apply (Nat.nlt_0_r i). apply Nat.succ_lt_mono. exact Hi.
  - refine (proj1 (proj2 (proj2 (proj2 (proj2 C8_join_codes))))
              (mkUser 7 "ann") None w small_store "Wolves" [] eq_refl eq_refl
              _ _).
    + reflexivity.
    + vm_compute. discriminate.
  - vm_compute. reflexivity.
Defined.


(** ** [!jointeam], run *)

Ltac exec :=
  lazy beta iota zeta delta
    [def bind try_except ret return_ raise send send_dm wait_for load_data
     save_data getitem grant_role get_UPI_ID default_guild target_guild_of
     emit set_log set_inbox set_disk set_messages set_next_message_id
     set_rng_pos fst snd disk inbox messages next_message_id rng rng_pos
     loop_budget bot_guilds GUILD_ID UPI_ID dms_closed log negb is_timeout
     is_forbidden any_exception is_not_found_or_forbidden loaded run outcome
     store store_of].

Lemma jointeam_cmd_not_in_dm ctx code w :
  in_dm ctx = false ->
  jointeam_cmd ctx code w = (Normal tt, emit (Send Ctx NOT_IN_DM) w).
Proof.
  intros H. unfold jointeam_cmd, jointeam_cmd_with. rewrite H. destruct w.
  reflexivity.
Qed.

Lemma jointeam_cmd_invalid ctx c w :
  in_dm ctx = true -> (c =? EmptyString)%string = false ->
  Dict.get (upper (strip c)) (teams (store w)) = None ->
  jointeam_cmd ctx (Some c) w
  = (Normal tt, emit (Send Ctx INVALID_CODE) (loaded w)).
Proof.
  intros Hdm Hc Hg. unfold jointeam_cmd, jointeam_cmd_with. rewrite Hdm, Hc.
  destruct w as [[d|] ? ? ? ? ? ? ? ? ? ? ?]; unfold store in Hg; simpl in Hg.
  - exec. rewrite Hg. reflexivity.
  - reflexivity.
Qed.

Lemma jointeam_cmd_already ctx c w d team :
  in_dm ctx = true -> (c =? EmptyString)%string = false ->
  disk w = Some d ->
  Dict.get (upper (strip c)) (teams d) = Some team ->
  existsb (is_member (uid (author ctx))) (Team.members team) = true ->
  jointeam_cmd ctx (Some c) w = (Normal tt, emit (Send Ctx ALREADY_MEMBER) w).
Proof.
  intros Hdm Hc Hd Hg Hm. unfold jointeam_cmd, jointeam_cmd_with.
  rewrite Hdm, Hc.
  destruct w; simpl in Hd; subst. exec. rewrite Hg. exec. rewrite Hm.
  reflexivity.
Qed.

Lemma jointeam_cmd_full ctx c w d team :
  in_dm ctx = true -> (c =? EmptyString)%string = false ->
  disk w = Some d ->
  Dict.get (upper (strip c)) (teams d) = Some team ->
  existsb (is_member (uid (author ctx))) (Team.members team) = false ->
  (5 <= List.length (Team.members team))%nat ->
  jointeam_cmd ctx (Some c) w = (Normal tt, emit (Send Ctx TEAM_FULL) w).
Proof.
  intros Hdm Hc Hd Hg Hm Hl. apply Nat.leb_le in Hl.
  unfold jointeam_cmd, jointeam_cmd_with. rewrite Hdm, Hc.
  destruct w; simpl in Hd; subst. exec. rewrite Hg. exec. rewrite Hm.
  exec. rewrite Hl. reflexivity.
Qed.

Ltac start_join :=
  match goal with
  | H : admits _ _ _ _ |- _ =>
      let Hdm := fresh "Hdm" in
      let Hc := fresh "Hc" in
      let Hg := fresh "Hg" in
      let Hm := fresh "Hm" in
      let Hl := fresh "Hl" in
      destruct H as [Hdm [Hc [Hg [Hm Hl]]]];
      apply Nat.leb_gt in Hl;
      unfold jointeam_cmd, jointeam_cmd_with; rewrite Hdm, Hc
  end.

Lemma jointeam_cmd_ign_timeout ctx c w d team :
  admits ctx c d team -> disk w = Some d -> times_out (inbox w) ->
  jointeam_cmd ctx (Some c) w
  = (Normal tt,
     emit (Send Ctx TIMED_OUT_JOIN)
       (emit (Wait 300)
          (set_inbox (tl (inbox w)) (emit (Send Ctx (JOINING team)) w)))).
Proof.
  intros Ha Hd Hi. start_join.
  destruct w; simpl in Hd, Hi; subst. exec. rewrite Hg. exec. rewrite Hm.
  exec. rewrite Hl. destruct Hi as [->|[rest ->]]; reflexivity.
Qed.

Lemma jointeam_cmd_ign_cancel ctx c w d team a rest :
  admits ctx c d team -> disk w = Some d -> inbox w = Some a :: rest ->
  (lower (strip a) =? CANCEL)%string = true ->
  jointeam_cmd ctx (Some c) w
  = (Normal tt,
     emit (Send Ctx JOIN_CANCELLED)
       (emit (Wait 300)
          (set_inbox rest (emit (Send Ctx (JOINING team)) w)))).
Proof.
  intros Ha Hd Hi Hx. start_join.
  destruct w; simpl in Hd, Hi; subst. exec. rewrite Hg. exec. rewrite Hm.
  exec. rewrite Hl. exec. rewrite Hx. reflexivity.
Qed.

Lemma jointeam_cmd_proof_timeout ctx c w d team a rest :
  admits ctx c d team -> disk w = Some d -> inbox w = Some a :: rest ->
  proceeds a -> times_out rest ->
  jointeam_cmd ctx (Some c) w
  = (Normal tt,
     emit (Send Ctx TIMED_OUT_JOIN)
       (emit (Wait 600)
          (set_inbox (tl rest)
             (emit (Send Ctx (PAY_PROMPT (UPI_ID w)))
                (emit (Wait 300) (emit (Send Ctx (JOINING team)) w)))))).
Proof.
  unfold proceeds. intros Ha Hd Hi Hx Ht. start_join.
  destruct w; simpl in Hd, Hi; subst. exec. rewrite Hg. exec. rewrite Hm.
  exec. rewrite Hl. exec. rewrite Hx.
  destruct Ht as [->|[rest' ->]]; reflexivity.
Qed.

(** Both replies given, the first not the cancel keyword: the member is
    appended and saved; with a guild and a channel to post in, their notice
    is published, and reference and index entry are saved by a second
    write. *)
Lemma jointeam_cmd_joins ctx c w d team a b rest :
  admits ctx c d team -> disk w = Some d ->
  inbox w = Some a :: Some b :: rest -> proceeds a ->
  let w' := run (jointeam_cmd ctx (Some c)) w in
  let code := upper (strip c) in
  let entry := new_member (author ctx) (strip a) (strip b) in
  waits (log w') = 600 :: 300 :: waits (log w)
  /\ match default_guild_in w with
     | Some g =>
         match notice_channel g with
         | Some ch =>
             let r := mkMsgRef (ch_id ch) (next_message_id w) in
             outcome (jointeam_cmd ctx (Some c)) w = Normal tt
             /\ disk w' = Some (member_noticed d code team entry (strip b) r)
             /\ saves (log w')
                = member_noticed d code team entry (strip b) r
                  :: member_joined d code team entry :: saves (log w)
         | None =>
             disk w' = Some (member_joined d code team entry)
             /\ saves (log w') = member_joined d code team entry
                                 :: saves (log w)
         end
     | None =>
         disk w' = Some (member_joined d code team entry)
         /\ saves (log w') = member_joined d code team entry :: saves (log w)
     end.
Proof.
  unfold proceeds. intros Ha Hd Hi Hx.
  destruct Ha as [Hdm [Hc [Hg [Hm Hl]]]]. apply Nat.leb_gt in Hl.
  unfold run, outcome.
  destruct w; simpl in Hd, Hi; subst.
  match goal with
  | |- context [jointeam_cmd ?x ?y ?W] =>
      remember (jointeam_cmd x y W) as r eqn:E
  end.
  unfold jointeam_cmd, jointeam_cmd_with in E. rewrite Hdm, Hc in E.
  exec_in E.
  rewrite Hg in E. exec_in E. rewrite Hm in E. exec_in E. rewrite Hl in E.
  exec_in E. rewrite Hx in E. unfold default_guild_in in E. exec_in E.
  unfold default_guild_in. simp.
  match goal with
  | |- context [match ?x with Some _ => _ | None => _ end] =>
      destruct x as [g|] eqn:Hdg
  end.
  - destruct (notice_channel g) as [ch|] eqn:Hch.
    + rewrite (@post_payment_embed_run g _ _ _ ch Hch) in E. exec_in E.
      cbn [teams set_teams] in E.
      rewrite dict_get_set_same in E. exec_in E.
      cbn [Team.admin_msg Team.set_members] in E.
      destruct (Team.admin_msg team) as [info|].
      * match type of E with
        | context [edit_payment_embed ?x1 ?x2 ?x3 ?x4 ?x5 ?W] =>
            destruct (edit_payment_embed_frame x1 x2 x3 x4 x5 W)
              as [Ho [Hd' [_ [_ [_ [_ [_ [evs [Hlog [Hs Hw]]]]]]]]]];
            destruct (edit_payment_embed x1 x2 x3 x4 x5 W) as [o w2]
        end.
        simpl in Ho, Hd', Hlog. subst o r. cbn [fst snd].
        rewrite Hd', Hlog. unfold waits, saves in *.
        rewrite !flat_map_app, Hs, Hw. simpl. auto.
      * subst r. simpl. auto.
    + rewrite (@post_payment_embed_no_channel g _ _ _ Hch) in E.
      exec_in E. subst r. simpl. auto.
  - exec_in E. subst r. simpl. auto.
Qed.


Lemma update_first_ids (p : Member.t -> bool) (f : Member.t -> Member.t)
    (l : list Member.t) :
  (forall m, Member.discord_id (f m) = Member.discord_id m) ->
  map Member.discord_id (update_first p f l) = map Member.discord_id l.
Proof.
  intros Hf. induction l as [|m r IH]; simpl; [reflexivity|].
  destruct (p m); simpl; [now rewrite Hf | now rewrite IH].
Qed.

(** ** C5: validation of [!jointeam] *)

(** C5.  Invoked in a DM with a code, [!jointeam] looks the normalized code
    up.  When no team has it, when the caller is already a member of the
    team, or when the team has five members, the only thing the command does
    is to reply with the matching error: no question is asked and the store
    is unchanged.  Otherwise it asks its questions, the first one with a
    wait, and once both replies are in (the first not the cancel keyword) the
    caller is the team's new last member. *)
Theorem C5_jointeam_validation (ctx : Context) (c : string) (w : World) :
  in_dm ctx = true -> (c =? EmptyString)%string = false ->
  let code := upper (strip c) in
  let w' := run (jointeam_cmd ctx (Some c)) w in
  match Dict.get code (teams (store w)) with
  | None =>
      log w' = Send Ctx INVALID_CODE :: log w
      /\ store w' = store w
      /\ (forall d, disk w = Some d -> disk w' = Some d)
  | Some team =>
      if existsb (is_member (uid (author ctx))) (Team.members team) then
        log w' = Send Ctx ALREADY_MEMBER :: log w /\ disk w' = disk w
      else if (5 <=? List.length (Team.members team))%nat then
        log w' = Send Ctx TEAM_FULL :: log w /\ disk w' = disk w
      else
        (exists ts, waits (log w') = (ts ++ 300 :: waits (log w))%list)
        /\ (forall a b rest,
               inbox w = Some a :: Some b :: rest -> proceeds a ->
               exists t',
                 Dict.get code (teams (store w')) = Some t'
                 /\ map Member.discord_id (Team.members t')
                    = (map Member.discord_id (Team.members team)
                       ++ [uid (author ctx)])%list)
  end.
Proof.
  intros Hdm Hc code w'. subst w'.
  destruct (Dict.get code (teams (store w))) as [team|] eqn:Hg.
  - assert (Hd : disk w = Some (store w)).
    { unfold store in *. destruct (disk w); [reflexivity | discriminate]. }
    destruct (existsb _ _) eqn:Hm.
    { unfold run.
      rewrite (@jointeam_cmd_already ctx c w (store w) team Hdm Hc Hd Hg Hm).
      now destruct w. }
    destruct (Nat.leb_spec 5 (List.length (Team.members team))) as [Hl|Hl].
    { unfold run.
      rewrite (@jointeam_cmd_full ctx c w (store w) team Hdm Hc Hd Hg Hm Hl).
      now destruct w. }
    assert (Ha : admits ctx c (store w) team) by (repeat split; assumption).
    split.
    + unfold run.
      destruct (inbox w) as [|[a|] rest] eqn:Hi.
      * rewrite (@jointeam_cmd_ign_timeout ctx c w (store w) team Ha Hd);
          [|left; exact Hi].
        exists []. now destruct w.
      * destruct (lower (strip a) =? CANCEL)%string eqn:Hx.
        -- rewrite (@jointeam_cmd_ign_cancel ctx c w (store w) team a rest
                      Ha Hd Hi Hx).
           exists []. now destruct w.
        -- destruct rest as [|[b|] rest'].
           ++ rewrite (@jointeam_cmd_proof_timeout ctx c w (store w) team a []
                         Ha Hd Hi Hx); [|now left].
              exists [600]. now destruct w.
           ++ destruct (@jointeam_cmd_joins ctx c w (store w) team a b rest'
                          Ha Hd Hi Hx) as [Hw _].
              exists [600]. exact Hw.
           ++ rewrite (@jointeam_cmd_proof_timeout ctx c w (store w) team a
                         (None :: rest') Ha Hd Hi Hx); [|right; eauto].
              exists [600]. now destruct w.
      * rewrite (@jointeam_cmd_ign_timeout ctx c w (store w) team Ha Hd);
          [|right; eauto].
        exists []. now destruct w.
    + intros a b rest Hi Hx.
      destruct (@jointeam_cmd_joins ctx c w (store w) team a b rest
                  Ha Hd Hi Hx) as [_ H].
      fold code in H. unfold store at 1.
      destruct (default_guild_in w) as [g|];
        [destruct (notice_channel g) as [ch|]|].
      * destruct H as [_ [H _]]. rewrite H. simpl.
        rewrite dict_get_set_same. eexists; split; [reflexivity|]. simpl.
        rewrite update_first_ids by reflexivity. now rewrite map_app.
      * destruct H as [H _]. rewrite H. simpl.
        rewrite dict_get_set_same. eexists; split; [reflexivity|]. simpl.
        now rewrite map_app.
      * destruct H as [H _]. rewrite H. simpl.
        rewrite dict_get_set_same. eexists; split; [reflexivity|]. simpl.
        now rewrite map_app.
  - unfold run. rewrite (@jointeam_cmd_invalid ctx c w Hdm Hc Hg).
    unfold store, loaded, load_data.
    destruct w as [[d|] ? ? ? ? ? ? ? ? ? ? ?]; simpl; repeat split; auto.
    intros d H; discriminate H.
Qed.

Lemma C5_witness :
  let w' := run (jointeam_cmd (dm_ctx 6) (Some " abcdef")) world_full in
  log w' = Send Ctx TEAM_FULL :: log world_full /\ disk w' = disk world_full.
Proof.
  exact (@C5_jointeam_validation (dm_ctx 6) " abcdef" world_full
           eq_refl eq_refl).
Defined.

(** ** C1: the cancel keyword *)

(** C1 fails at the payment-proof question of [!jointeam]: the reply is not
    compared with the cancel keyword.  Whatever the second reply, the member
    is saved with it as payment proof. *)
Lemma join_saves_any_proof ctx c w d team a b rest :
  admits ctx c d team -> disk w = Some d ->
  inbox w = Some a :: Some b :: rest -> proceeds a ->
  In (member_joined d (upper (strip c)) team
        (new_member (author ctx) (strip a) (strip b)))
    (saves (log (run (jointeam_cmd ctx (Some c)) w))).
Proof.
  intros Ha Hd Hi Hx.
  destruct (@jointeam_cmd_joins ctx c w d team a b rest Ha Hd Hi Hx)
    as [_ H].
  destruct (default_guild_in w) as [g|];
    [destruct (notice_channel g) as [ch|]|].
  - destruct H as [_ [_ H]]. rewrite H. simpl. auto.
  - destruct H as [_ H]. rewrite H. simpl. auto.
  - destruct H as [_ H]. rewrite H. simpl. auto.
Qed.

(** C1, at the failing input: user 2 joins the team of [world_team], gives
    an IGN and answers the payment-proof question with the cancel keyword.
    No cancellation is acknowledged; the store changes: user 2 is a member,
    with "cancel" as payment proof, and has a pending payment entry. *)
Theorem C1_cancel_ignored_at_payment_proof :
  let w' :=
    after world_team (dm_ctx 2) (JoinTeam (Some "abcdef"))
      [Some "Jett"; Some "cancel"] in
  lower (strip "cancel") = CANCEL
  /\ ~ In (Send Ctx JOIN_CANCELLED) (log w')
  /\ disk w' <> disk world_team
  /\ (exists t,
         Dict.get "ABCDEF" (teams (store w')) = Some t
         /\ map Member.discord_id (Team.members t) = [1; 2]
         /\ map Member.payment_proof (Team.members t)
            = [None; Some "cancel"])
  /\ (exists p,
         Dict.get "team-ABCDEF-member-2" (payments (store w')) = Some p
         /\ Payment.status p = "pending").
Proof.
  vm_compute. split; [reflexivity|]. split.
  - intros H. repeat (destruct H as [H|H]; [discriminate H|]). exact H.
  - split; [discriminate|]. split; eexists; repeat split.
Qed.


(** ** The questions of the solo dialogue *)

(** Every question answered: the answers are collected. *)
Lemma ask_questions_all user qs :
  forall contents answers w rest,
    inbox w = (map Some contents ++ rest)%list ->
    List.length contents = List.length qs ->
    Forall proceeds contents ->
    ask_questions user qs answers w
    = (Normal (collected qs contents answers),
       set_log (asked user qs contents (log w)) (set_inbox rest w)).
Proof.
  induction qs as [|[q key] qs IH]; intros contents answers w rest Hi Hl Hp.
  - destruct contents; [|discriminate]. simpl in *. destruct w; simpl in *.
    now subst.
  - destruct contents as [|c cs]; [discriminate|].
    inversion Hp as [|? ? Hc Hcs]; subst. unfold proceeds in Hc.
    simpl in Hi. cbn [ask_questions].
    unfold bind at 1. unfold send at 1. cbn [fst snd].
    unfold bind at 1. unfold wait_for at 1. cbn [inbox emit set_log].
    rewrite Hi. rewrite Hc.
    rewrite (IH cs (Dict.set key (strip c) answers) _ rest); clear IH.
    + destruct w; reflexivity.
    + destruct w; reflexivity.
    + simpl in Hl. congruence.
    + exact Hcs.
Qed.

(** The cancel keyword in reply to a question: the dialogue is over. *)
Lemma ask_questions_cancel user qs :
  forall contents answers w x rest,
    inbox w = (map Some contents ++ Some x :: rest)%list ->
    (List.length contents < List.length qs)%nat ->
    Forall proceeds contents ->
    (lower (strip x) =? CANCEL)%string = true ->
    ask_questions user qs answers w
    = (Returned,
       set_log
         (Send (DM (uid user)) REGISTRATION_CANCELLED
          :: Wait 600
          :: Send (DM (uid user)) (question qs (List.length contents))
          :: asked user qs contents (log w))
         (set_inbox rest w)).
Proof.
  induction qs as [|[q key] qs IH];
    intros contents answers w x rest Hi Hl Hp Hx; [simpl in Hl; lia|].
  destruct contents as [|c cs]; simpl in Hi; cbn [ask_questions];
    unfold bind at 1; unfold send at 1; cbn [fst snd];
    unfold bind at 1; unfold wait_for at 1; cbn [inbox emit set_log];
    rewrite Hi.
  - rewrite Hx. destruct w; reflexivity.
  - inversion Hp as [|? ? Hc Hcs]; subst. unfold proceeds in Hc. rewrite Hc.
    rewrite (IH cs (Dict.set key (strip c) answers) _ x rest); clear IH.
    + destruct w; reflexivity.
    + destruct w; reflexivity.
    + simpl in Hl. lia.
    + exact Hcs.
    + exact Hx.
Qed.

(** No reply to a question: [wait_for] raises [TimeoutError]. *)
Lemma ask_questions_timeout user qs :
  forall contents answers w r,
    inbox w = (map Some contents ++ r)%list ->
    (List.length contents < List.length qs)%nat ->
    Forall proceeds contents ->
    times_out r ->
    ask_questions user qs answers w
    = (Raised TimeoutError,
       set_log
         (Wait 600
          :: Send (DM (uid user)) (question qs (List.length contents))
          :: asked user qs contents (log w))
         (set_inbox (tl r) w)).
Proof.
  induction qs as [|[q key] qs IH];
    intros contents answers w r Hi Hl Hp Ht; [simpl in Hl; lia|].
  destruct contents as [|c cs]; simpl in Hi; cbn [ask_questions];
    unfold bind at 1; unfold send at 1; cbn [fst snd];
    unfold bind at 1; unfold wait_for at 1; cbn [inbox emit set_log];
    rewrite Hi.
  - destruct Ht as [->|[r' ->]]; destruct w; simpl in *; subst; reflexivity.
  - inversion Hp as [|? ? Hc Hcs]; subst. unfold proceeds in Hc. rewrite Hc.
    rewrite (IH cs (Dict.set key (strip c) answers) _ r); clear IH.
    + destruct w; reflexivity.
    + destruct w; reflexivity.
    + simpl in Hl. lia.
    + exact Hcs.
    + exact Ht.
Qed.

Lemma waits_asked user qs :
  forall contents l,
    (List.length contents <= List.length qs)%nat ->
    waits (asked user qs contents l)
    = (repeat 600 (List.length contents) ++ waits l)%list.
Proof.
  induction qs as [|[q key] qs IH]; intros contents l Hl.
  - destruct contents; [reflexivity | simpl in Hl; lia].
  - destruct contents as [|c cs]; [reflexivity|]. simpl in Hl.
    cbn [asked]. rewrite IH by lia.
    change (waits (Wait 600 :: Send (DM (uid user)) q :: l))
      with ([600] ++ waits l)%list.
    rewrite app_assoc, <- repeat_cons. reflexivity.
Qed.

Lemma saves_asked user qs :
  forall contents l, saves (asked user qs contents l) = saves l.
Proof.
  induction qs as [|[q key] qs IH]; intros contents l.
  - destruct contents; reflexivity.
  - destruct contents as [|c cs]; [reflexivity|]. cbn [asked].
    now rewrite IH.
Qed.

Lemma posts_asked user qs :
  forall contents l, posts (asked user qs contents l) = posts l.
Proof.
  induction qs as [|[q key] qs IH]; intros contents l.
  - destruct contents; reflexivity.
  - destruct contents as [|c cs]; [reflexivity|]. cbn [asked].
    now rewrite IH.
Qed.

Ltac destruct_world w :=
  destruct w as [w_disk w_inbox w_messages w_next w_rng w_pos w_budget
                 w_guilds w_gid w_upi w_closed w_log].

(** ** Solo registration, run *)

(** The cancel keyword at any of the five questions ends the registration:
    it is acknowledged and nothing is written. *)
Lemma handle_solo_registration_cancel user guild w contents x rest :
  inbox w = (map Some contents ++ Some x :: rest)%list ->
  (List.length contents < 5)%nat ->
  Forall proceeds contents ->
  (lower (strip x) =? CANCEL)%string = true ->
  let w' := run (handle_solo_registration user guild) w in
  outcome (handle_solo_registration user guild) w = Normal tt
  /\ disk w' = disk w
  /\ saves (log w') = saves (log w)
  /\ hd_error (log w') = Some (Send (DM (uid user)) REGISTRATION_CANCELLED)
  /\ waits (log w')
     = (repeat 600 (S (List.length contents)) ++ waits (log w))%list.
Proof.
  intros Hi Hl Hp Hx. unfold run, outcome.
  destruct_world w; simpl in Hi; subst.
  match goal with
  | |- context [handle_solo_registration ?u ?g ?W] =>
      remember (handle_solo_registration u g W) as r eqn:E
  end.
  unfold handle_solo_registration in E. exec_in E.
  erewrite ask_questions_cancel in E;
    [| reflexivity | simpl; lia | assumption | assumption].
  exec_in E. subst r. cbn [fst snd disk log hd_error].
  repeat split.
  - unfold saves at 1. cbn [flat_map app]. apply saves_asked.
  - unfold waits at 1. cbn [flat_map app]. 
    fold (waits (asked user (solo_questions w_upi) contents w_log)).
    rewrite waits_asked by (simpl; lia). reflexivity.
Qed.

(** No reply at any of the five questions ends the registration with the
    try-again notice, nothing written. *)
Lemma handle_solo_registration_timeout user guild w contents r :
  inbox w = (map Some contents ++ r)%list ->
  (List.length contents < 5)%nat ->
  Forall proceeds contents ->
  times_out r ->
  let w' := run (handle_solo_registration user guild) w in
  outcome (handle_solo_registration user guild) w = Normal tt
  /\ disk w' = disk w
  /\ saves (log w') = saves (log w)
  /\ hd_error (log w') = Some (Send (DM (uid user)) TIMED_OUT_REGISTER)
  /\ waits (log w')
     = (repeat 600 (S (List.length contents)) ++ waits (log w))%list.
Proof.
  intros Hi Hl Hp Ht. unfold run, outcome.
  destruct_world w; simpl in Hi; subst.
  match goal with
  | |- context [handle_solo_registration ?u ?g ?W] =>
      remember (handle_solo_registration u g W) as res eqn:E
  end.
  unfold handle_solo_registration in E. exec_in E.
  erewrite ask_questions_timeout in E;
    [| reflexivity | simpl; lia | assumption | assumption].
  exec_in E. subst res. cbn [fst snd disk log hd_error].
  repeat split.
  - unfold saves at 1. cbn [flat_map app]. apply saves_asked.
  - unfold waits at 1. cbn [flat_map app].
    fold (waits (asked user (solo_questions w_upi) contents w_log)).
    rewrite waits_asked by (simpl; lia). reflexivity.
Qed.

Lemma handle_solo_registration_run user guild w d a1 a2 a3 a4 a5 rest :
  disk w = Some d ->
  inbox w = Some a1 :: Some a2 :: Some a3 :: Some a4 :: Some a5 :: rest ->
  Forall proceeds [a1; a2; a3; a4; a5] ->
  let w' := run (handle_solo_registration user guild) w in
  let record := solo_record user a1 a2 a3 a4 a5 in
  waits (log w') = ([600; 600; 600; 600; 600] ++ waits (log w))%list
  /\ match resolve_guild guild w with
     | Some g =>
         match notice_channel g with
         | Some ch =>
             let r := mkMsgRef (ch_id ch) (next_message_id w) in
             outcome (handle_solo_registration user guild) w = Normal tt
             /\ disk w' = Some (solo_noticed d user record r)
             /\ saves (log w') = solo_noticed d user record r :: saves (log w)
             /\ posts (log w')
                = (ch_id ch, next_message_id w) :: posts (log w)
         | None => disk w' = Some d /\ saves (log w') = saves (log w)
         end
     | None =>
         disk w' = Some (solo_saved d user record)
         /\ saves (log w') = solo_saved d user record :: saves (log w)
         /\ posts (log w') = posts (log w)
     end.
Proof.
  intros Hd Hi Hp. unfold run, outcome.
  destruct_world w; simpl in Hd, Hi; subst.
  match goal with
  | |- context [handle_solo_registration ?u ?g ?W] =>
      remember (handle_solo_registration u g W) as res eqn:E
  end.
  unfold handle_solo_registration in E. exec_in E.
  erewrite (@ask_questions_all user _ [a1; a2; a3; a4; a5]) in E;
    [| reflexivity | reflexivity | exact Hp].
  exec_in E.
  cbn [collected asked solo_questions Dict.get Dict.set Dict.empty
       String.eqb Ascii.eqb Bool.eqb] in E.
  exec_in E. unfold default_guild_in in E. exec_in E.
  unfold resolve_guild, default_guild_in. simp.
  destruct guild as [g|].
  - exec_in E. destruct (notice_channel g) as [ch|] eqn:Hch.
    + rewrite (@post_payment_embed_run g _ _ _ ch Hch) in E. exec_in E.
      destruct (channel_named g CHANNEL_REGISTRATION);
        [destruct (channel_named g CHANNEL_PAYMENTS)|];
        exec_in E; subst res; simpl; auto.
    + rewrite (@post_payment_embed_no_channel g _ _ _ Hch) in E.
      exec_in E. subst res. simpl. auto.
  - exec_in E.
    match goal with
    | |- context [match ?x with Some _ => _ | None => _ end] =>
        destruct x as [g|] eqn:Hdg
    end.
    + destruct (notice_channel g) as [ch|] eqn:Hch.
      * rewrite (@post_payment_embed_run g _ _ _ ch Hch) in E. exec_in E.
        destruct (channel_named g CHANNEL_REGISTRATION);
          [destruct (channel_named g CHANNEL_PAYMENTS)|];
          exec_in E; subst res; simpl; auto.
      * rewrite (@post_payment_embed_no_channel g _ _ _ Hch) in E.
        exec_in E. subst res. simpl. auto.
    + exec_in E. subst res. simpl. auto.
Qed.


(** ** Team name and kind selection, run *)

Lemma handle_team_registration_timeout user guild w :
  times_out (inbox w) ->
  handle_team_registration user guild w
  = (Normal tt,
     emit (Send (DM (uid user)) TIMED_OUT_REGISTER)
       (emit (Wait 300)
          (set_inbox (tl (inbox w))
             (emit (Send (DM (uid user)) TEAM_NAME_PROMPT) w)))).
Proof.
  intros Ht. unfold handle_team_registration.
  destruct_world w; simpl in Ht. exec.
  destruct Ht as [->|[r ->]]; reflexivity.
Qed.

Lemma handle_team_registration_cancel user guild w x rest :
  inbox w = Some x :: rest -> (lower (strip x) =? CANCEL)%string = true ->
  handle_team_registration user guild w
  = (Normal tt,
     emit (Send (DM (uid user)) REGISTRATION_CANCELLED)
       (emit (Wait 300)
          (set_inbox rest
             (emit (Send (DM (uid user)) TEAM_NAME_PROMPT) w)))).
Proof.
  intros Hi Hx. unfold handle_team_registration.
  destruct_world w; simpl in Hi; subst. exec. rewrite Hx. reflexivity.
Qed.

Lemma register_cmd_timeout ctx w :
  dm_open (author ctx) w -> times_out (inbox w) ->
  register_cmd ctx w
  = (Normal tt,
     emit (Send (DM (uid (author ctx))) TIMED_OUT_REGISTER)
       (kind_asked (author ctx) (tl (inbox w)) w)).
Proof.
  unfold dm_open. intros Ho Ht. unfold register_cmd, kind_asked.
  destruct_world w; simpl in Ho, Ht. exec. rewrite Ho.
  destruct Ht as [->|[r ->]]; reflexivity.
Qed.

Lemma register_cmd_solo ctx w reply rest :
  dm_open (author ctx) w -> inbox w = Some reply :: rest ->
  lower (strip reply) = "solo" ->
  run (register_cmd ctx) w
  = run (handle_solo_registration (author ctx) (guild ctx))
      (emit (Send (DM (uid (author ctx))) CHOSE_SOLO)
         (kind_asked (author ctx) rest w)).
Proof.
  unfold dm_open. intros Ho Hi Hc. unfold run at 2.
  match goal with
  | |- _ = snd ?x => set (r := x)
  end.
  unfold run, register_cmd.
  destruct_world w; simpl in Ho, Hi; subst. exec. rewrite Ho, Hc.
  cbn [String.eqb Ascii.eqb Bool.eqb].
  change (handle_solo_registration (author ctx) (guild ctx) _) with r.
  destruct r as [[| | |] ?]; reflexivity.
Qed.

Lemma register_cmd_team ctx w reply rest :
  dm_open (author ctx) w -> inbox w = Some reply :: rest ->
  lower (strip reply) = "team" ->
  run (register_cmd ctx) w
  = run (handle_team_registration (author ctx) (guild ctx))
      (emit (Send (DM (uid (author ctx))) CHOSE_TEAM)
         (kind_asked (author ctx) rest w)).
Proof.
  unfold dm_open. intros Ho Hi Hc. unfold run at 2.
  match goal with
  | |- _ = snd ?x => set (r := x)
  end.
  unfold run, register_cmd.
  destruct_world w; simpl in Ho, Hi; subst. exec. rewrite Ho, Hc.
  cbn [String.eqb Ascii.eqb Bool.eqb].
  change (handle_team_registration (author ctx) (guild ctx) _) with r.
  destruct r as [[| | |] ?]; reflexivity.
Qed.

(** ** C6: timeouts of the waits *)

(** C6, as the spec states it, fails: the team-name step and the IGN step of
    the join flow, two data-collection steps, wait 300 seconds, not 600. *)
Lemma C6_counterexample :
  waits (log (run (handle_team_registration (mkUser 1 "cap") None)
                sample_world)) = [300]
  /\ waits (log (run (jointeam_cmd (dm_ctx 2) (Some "abcdef"))
                   (set_log [] world_team))) = [300].
Proof. split; vm_compute; reflexivity. Qed.

(** C6, amended.  The kind-selection step, the team-name step and the IGN
    step of the join flow wait 300 seconds; each of the five solo questions
    and the payment-proof step of the join flow wait 600 seconds.  A wait
    that times out ends the session with its try-again notice, and the store
    is as it was. *)
Theorem C6_wait_timeouts :
  (forall ctx w,
      dm_open (author ctx) w ->
      (times_out (inbox w) ->
       let w' := run (register_cmd ctx) w in
       waits (log w') = 300 :: waits (log w)
       /\ disk w' = disk w
       /\ hd_error (log w')
          = Some (Send (DM (uid (author ctx))) TIMED_OUT_REGISTER))
      /\ (forall reply rest,
             inbox w = Some reply :: rest ->
             let w1 := kind_asked (author ctx) rest w in
             waits (log w1) = 300 :: waits (log w)
             /\ (lower (strip reply) = "solo" ->
                 run (register_cmd ctx) w
                 = run (handle_solo_registration (author ctx) (guild ctx))
                     (emit (Send (DM (uid (author ctx))) CHOSE_SOLO) w1))
             /\ (lower (strip reply) = "team" ->
                 run (register_cmd ctx) w
                 = run (handle_team_registration (author ctx) (guild ctx))
                     (emit (Send (DM (uid (author ctx))) CHOSE_TEAM) w1))))
  /\ (forall user guild w,
         let w' := run (handle_team_registration user guild) w in
         (times_out (inbox w) ->
          waits (log w') = 300 :: waits (log w)
          /\ disk w' = disk w
          /\ hd_error (log w')
             = Some (Send (DM (uid user)) TIMED_OUT_REGISTER))
         /\ (forall d content rest,
                disk w = Some d -> inbox w = Some content :: rest ->
                proceeds content ->
                outcome (handle_team_registration user guild) w <> Diverged ->
                waits (log w') = 300 :: waits (log w)))
  /\ (forall user guild w,
         let w' := run (handle_solo_registration user guild) w in
         (forall contents r,
             inbox w = (map Some contents ++ r)%list ->
             (List.length contents < 5)%nat ->
             Forall proceeds contents ->
             times_out r ->
             waits (log w')
             = (repeat 600 (S (List.length contents)) ++ waits (log w))%list
             /\ disk w' = disk w
             /\ hd_error (log w')
                = Some (Send (DM (uid user)) TIMED_OUT_REGISTER))
         /\ (forall d a1 a2 a3 a4 a5 rest,
                disk w = Some d ->
                inbox w
                = Some a1 :: Some a2 :: Some a3 :: Some a4 :: Some a5 :: rest ->
                Forall proceeds [a1; a2; a3; a4; a5] ->
                waits (log w')
                = ([600; 600; 600; 600; 600] ++ waits (log w))%list))
  /\ (forall ctx c w d team,
         admits ctx c d team -> disk w = Some d ->
         let w' := run (jointeam_cmd ctx (Some c)) w in
         (times_out (inbox w) ->
          waits (log w') = 300 :: waits (log w)
          /\ disk w' = disk w
          /\ hd_error (log w') = Some (Send Ctx TIMED_OUT_JOIN))
         /\ (forall a r,
                inbox w = Some a :: r -> proceeds a -> times_out r ->
                waits (log w') = 600 :: 300 :: waits (log w)
                /\ disk w' = disk w
                /\ hd_error (log w') = Some (Send Ctx TIMED_OUT_JOIN))
         /\ (forall a b rest,
                inbox w = Some a :: Some b :: rest -> proceeds a ->
                waits (log w') = 600 :: 300 :: waits (log w))).
Proof.
  split; [|split; [|split]].
  - intros ctx w Ho. split.
    + intros Ht. unfold run. rewrite (@register_cmd_timeout ctx w Ho Ht).
      now destruct w.
    + intros reply rest Hi. split; [now destruct w|]. split; intros Hc.
      * now apply register_cmd_solo with reply.
      * now apply register_cmd_team with reply.
  - intros user guild w. split.
    + intros Ht. unfold run.
      rewrite (@handle_team_registration_timeout user guild w Ht).
      now destruct w.
    + intros d content rest Hd Hi Hp Ho.
      destruct (@handle_team_registration_run user guild w d content rest
                  Hd Hi Hp Ho) as [code [_ [_ [_ [Hw _]]]]].
      exact Hw.
  - intros user guild w. split.
    + intros contents r Hi Hl Hp Ht.
      destruct (@handle_solo_registration_timeout user guild w contents r
                  Hi Hl Hp Ht) as [_ [Hd [_ [Hh Hw]]]].
      auto.
    + intros d a1 a2 a3 a4 a5 rest Hd Hi Hp.
      exact (proj1 (@handle_solo_registration_run user guild w d a1 a2 a3 a4
                      a5 rest Hd Hi Hp)).
  - intros ctx c w d team Ha Hd. split; [|split].
    + intros Ht. unfold run.
      rewrite (@jointeam_cmd_ign_timeout ctx c w d team Ha Hd Ht).
      now destruct w.
    + intros a r Hi Hp Ht. unfold run.
      rewrite (@jointeam_cmd_proof_timeout ctx c w d team a r Ha Hd Hi Hp Ht).
      now destruct w.
    + intros a b rest Hi Hp.
      exact (proj1 (@jointeam_cmd_joins ctx c w d team a b rest Ha Hd Hi Hp)).
Qed.

Lemma C6_witness :
  let w := set_inbox [Some "Jett"] small_world in
  let w' := run (jointeam_cmd (dm_ctx 2) (Some "abcdef")) w in
  waits (log w') = 600 :: 300 :: waits (log w)
  /\ disk w' = disk w
  /\ hd_error (log w') = Some (Send Ctx TIMED_OUT_JOIN).
Proof.
  intros w.
  assert (Ha : admits (dm_ctx 2) "abcdef" small_store
                 (new_team (mkUser 1 "cap") "Foxes")).
  { repeat split; try reflexivity. simpl. lia. }
  refine (proj1 (proj2 (proj2 (proj2 (proj2 C6_wait_timeouts))
                          (dm_ctx 2) "abcdef" w small_store _ Ha eq_refl))
            "Jett" [] eq_refl _ _).
  - reflexivity.
  - now left.
Defined.


(** ** [!verify] and [!reject], run *)

(** An update ends normally, leaves everything but the notices and the log
    as it was, and adds nothing to the log but its edit or its post. *)
Lemma edit_payment_embed_quiet g c m f t w :
  exists w',
    edit_payment_embed g c m f t w = (Normal tt, w')
    /\ disk w' = disk w /\ inbox w' = inbox w /\ dms_closed w' = dms_closed w
    /\ exists evs, log w' = (evs ++ log w)%list
                   /\ saves evs = [] /\ waits evs = []
                   /\ grants evs = [] /\ sends evs = [].
Proof.
  destruct (edit_payment_embed_cases g c m f t w)
    as [E|[ch [msg [_ [_ [_ [[_ E]|[_ E]]]]]]]]; rewrite E; eexists;
    (split; [reflexivity|]); simpl; repeat split.
  - exists []. auto.
  - eexists [_]. simpl. auto.
  - eexists [_]. simpl. auto.
Qed.

Ltac through_edit E :=
  match type of E with
  | context [edit_payment_embed ?x1 ?x2 ?x3 ?x4 ?x5 ?W] =>
      let w2 := fresh "w2" in
      let Hrun := fresh "Hrun" in
      let Hd := fresh "Hd" in
      let Hi := fresh "Hi" in
      let Hc := fresh "Hc" in
      let evs := fresh "evs" in
      let Hlog := fresh "Hlog" in
      let Hs := fresh "Hs" in
      let Hw := fresh "Hw" in
      let Hg := fresh "Hg" in
      let Hn := fresh "Hn" in
      destruct (edit_payment_embed_quiet x1 x2 x3 x4 x5 W)
        as [w2 [Hrun [Hd [Hi [Hc [evs [Hlog [Hs [Hw [Hg Hn]]]]]]]]]];
      rewrite Hrun in E; clear Hrun;
      destruct w2 as [w2_disk w2_inbox w2_messages w2_next w2_rng w2_pos
                      w2_budget w2_guilds w2_gid w2_upi w2_closed w2_log];
      cbn [disk inbox dms_closed log] in Hd, Hi, Hc, Hlog;
      subst w2_disk w2_inbox w2_closed w2_log
  end.

Ltac log_facts :=
  unfold saves, waits, grants, sends in *;
  cbn [flat_map app];
  rewrite ?flat_map_app;
  repeat match goal with
         | H : flat_map _ ?evs = [] |- _ => rewrite H
         end;
  cbn [flat_map app].

Lemma verify_cmd_run ctx g member txn w :
  let w' := run (verify_cmd ctx g member txn) w in
  let d' := verify_store (uid member) txn (store w) in
  outcome (verify_cmd ctx g member txn) w = Normal tt
  /\ disk w' = Some d'
  /\ saves (log w')
     = ((if registered (uid member) (store w) then [d'] else [])
        ++ saves (log w))%list
  /\ waits (log w') = waits (log w)
  /\ inbox w' = inbox w /\ dms_closed w' = dms_closed w.
Proof.
  unfold run, outcome, store. destruct_world w.
  match goal with
  | |- context [verify_cmd ?a ?b ?c ?d ?W] =>
      remember (verify_cmd a b c d W) as r eqn:E
  end.
  unfold verify_cmd in E.
  destruct w_disk as [d|]; exec_in E; cbn [disk store_of].
  2: { subst r. cbn. repeat split; reflexivity. }
  unfold verify_store, registered, Dict.mem.
  destruct (Dict.get (str (uid member)) (solos d)) as [solo|] eqn:Hsolo.
  - cbn [payments set_solos set_payments solos teams] in E.
    unfold mark_status, solo_key.
    destruct (Dict.get ("solo-" ++ str (uid member)) (payments d))
      as [pay|] eqn:Hpay.
    + exec_in E. through_edit E. exec_in E.
      destruct (existsb (Z.eqb (uid member)) w_closed); exec_in E; subst r;
        cbn [fst snd disk log inbox dms_closed orb]; log_facts;
        repeat split; reflexivity.
    + exec_in E.
      destruct (existsb (Z.eqb (uid member)) w_closed); exec_in E; subst r;
        cbn [fst snd disk log inbox dms_closed orb]; log_facts;
        repeat split; reflexivity.
  - cbn [orb].
    destruct (find (has_member (uid member)) (teams d)) as [[code team]|]
      eqn:Hfind.
    + assert (Hex : existsb (has_member (uid member)) (teams d) = true).
      { apply existsb_exists. exists (code, team).
        apply find_some in Hfind. exact Hfind. }
      rewrite Hex. unfold verify_team, mark_paid, mark_status, member_key.
      cbn [payments set_solos set_payments solos teams] in E.
      cbv zeta.
      destruct (Dict.get ("team-" ++ code ++ "-member-" ++ str (uid member))
                  (payments d)) as [pay|] eqn:Hpay.
      * match type of E with
        | context [find (is_member ?u) ?l] =>
            destruct (find (is_member u) l) as [mm|]
        end.
        -- exec_in E. through_edit E. exec_in E.
           destruct (existsb (Z.eqb (uid member)) w_closed); exec_in E;
             match type of E with
             | context [complete ?t] => destruct (complete t)
             end; exec_in E;
             try (destruct (channel_named g CHANNEL_REGISTRATION);
                  exec_in E);
             subst r; cbn [fst snd disk log inbox dms_closed];
             log_facts; repeat split; reflexivity.
        -- exec_in E.
           destruct (existsb (Z.eqb (uid member)) w_closed); exec_in E;
             match type of E with
             | context [complete ?t] => destruct (complete t)
             end; exec_in E;
             try (destruct (channel_named g CHANNEL_REGISTRATION);
                  exec_in E);
             subst r; cbn [fst snd disk log inbox dms_closed];
             log_facts; repeat split; reflexivity.
      * exec_in E.
        destruct (existsb (Z.eqb (uid member)) w_closed); exec_in E;
          match type of E with
          | context [complete ?t] => destruct (complete t)
          end; exec_in E;
          try (destruct (channel_named g CHANNEL_REGISTRATION);
               exec_in E);
          subst r; cbn [fst snd disk log inbox dms_closed];
          log_facts; repeat split; reflexivity.
    + assert (Hex : existsb (has_member (uid member)) (teams d) = false).
      { destruct (existsb _ _) eqn:X; [|reflexivity].
        apply existsb_exists in X as [x [Hin Hx]].
        now rewrite (find_none _ _ Hfind x Hin) in Hx. }
      rewrite Hex. exec_in E. subst r. cbn. repeat split; reflexivity.
Qed.

Lemma reject_cmd_run ctx g member reason w :
  let w' := run (reject_cmd ctx g member reason) w in
  let d' := reject_store (uid member) (store w) in
  outcome (reject_cmd ctx g member reason) w = Normal tt
  /\ disk w' = Some d'
  /\ saves (log w')
     = ((if registered (uid member) (store w) then [d'] else [])
        ++ saves (log w))%list
  /\ waits (log w') = waits (log w)
  /\ grants (log w') = grants (log w)
  /\ inbox w' = inbox w /\ dms_closed w' = dms_closed w.
Proof.
  unfold run, outcome, store. destruct_world w.
  match goal with
  | |- context [reject_cmd ?a ?b ?c ?d ?W] =>
      remember (reject_cmd a b c d W) as r eqn:E
  end.
  unfold reject_cmd in E.
  destruct w_disk as [d|]; exec_in E; cbn [disk store_of].
  2: { subst r. cbn. repeat split; reflexivity. }
  destruct d as [d_solos d_teams d_payments].
  unfold reject_store, registered, Dict.mem.
  cbn [solos teams payments set_payments] in *.
  destruct (Dict.get (str (uid member)) d_solos) as [solo|] eqn:Hsolo.
  - cbn [payments set_solos set_payments solos teams] in E.
    unfold mark_status, solo_key.
    destruct (Dict.get ("solo-" ++ str (uid member)) d_payments)
      as [pay|] eqn:Hpay.
    + exec_in E. through_edit E. exec_in E.
      destruct (existsb (Z.eqb (uid member)) w_closed); exec_in E; subst r;
        cbn [fst snd disk log inbox dms_closed orb set_payments solos teams payments]; log_facts;
        repeat split; reflexivity.
    + exec_in E.
      destruct (existsb (Z.eqb (uid member)) w_closed); exec_in E; subst r;
        cbn [fst snd disk log inbox dms_closed orb set_payments solos teams payments]; log_facts;
        repeat split; reflexivity.
  - cbn [orb].
    destruct (find (has_member (uid member)) d_teams) as [[code team]|]
      eqn:Hfind.
    + assert (Hex : existsb (has_member (uid member)) d_teams = true).
      { apply existsb_exists. exists (code, team).
        apply find_some in Hfind. exact Hfind. }
      rewrite Hex. unfold mark_status, member_key.
      cbn [payments set_solos set_payments solos teams] in E.
      destruct (Dict.get ("team-" ++ code ++ "-member-" ++ str (uid member))
                  d_payments) as [pay|] eqn:Hpay.
      * match type of E with
        | context [find (is_member ?u) ?l] =>
            destruct (find (is_member u) l) as [mm|]
        end.
        -- exec_in E. through_edit E. exec_in E.
           destruct (existsb (Z.eqb (uid member)) w_closed); exec_in E;
             subst r; cbn [fst snd disk log inbox dms_closed set_payments solos teams payments];
             log_facts; repeat split; reflexivity.
        -- exec_in E.
           destruct (existsb (Z.eqb (uid member)) w_closed); exec_in E;
             subst r; cbn [fst snd disk log inbox dms_closed set_payments solos teams payments];
             log_facts; repeat split; reflexivity.
      * exec_in E.
        destruct (existsb (Z.eqb (uid member)) w_closed); exec_in E;
          subst r; cbn [fst snd disk log inbox dms_closed set_payments solos teams payments];
          log_facts; repeat split; reflexivity.
    + assert (Hex : existsb (has_member (uid member)) d_teams = false).
      { destruct (existsb _ _) eqn:X; [|reflexivity].
        apply existsb_exists in X as [x [Hin Hx]].
        now rewrite (find_none _ _ Hfind x Hin) in Hx. }
      rewrite Hex. exec_in E. subst r. cbn. repeat split; reflexivity.
Qed.

(** A user who is not registered: the commands reply that they found
    nothing, and do nothing else. *)
Lemma verify_cmd_unknown ctx g member txn w :
  registered (uid member) (store w) = false ->
  verify_cmd ctx g member txn w
  = (Normal tt, emit (Send Ctx NOT_FOUND_VERIFY) (loaded w)).
Proof.
  unfold registered, Dict.mem, store, loaded. intros H.
  apply orb_false_iff in H as [Hs Ht].
  destruct_world w. unfold verify_cmd.
  destruct w_disk as [d|]; [|reflexivity].
  cbn [disk store_of] in Hs, Ht. exec.
  destruct (Dict.get (str (uid member)) (solos d)); [discriminate|].
  destruct (find (has_member (uid member)) (teams d)) as [[c t]|] eqn:Hf.
  - apply find_some in Hf.
    assert (existsb (has_member (uid member)) (teams d) = true)
      by (apply existsb_exists; eauto).
    congruence.
  - reflexivity.
Qed.

Lemma reject_cmd_unknown ctx g member reason w :
  registered (uid member) (store w) = false ->
  reject_cmd ctx g member reason w
  = (Normal tt, emit (Send Ctx NOT_FOUND_REJECT) (loaded w)).
Proof.
  unfold registered, Dict.mem, store, loaded. intros H.
  apply orb_false_iff in H as [Hs Ht].
  destruct_world w. unfold reject_cmd.
  destruct w_disk as [d|]; [|reflexivity].
  cbn [disk store_of] in Hs, Ht. exec.
  destruct (Dict.get (str (uid member)) (solos d)); [discriminate|].
  destruct (find (has_member (uid member)) (teams d)) as [[c t]|] eqn:Hf.
  - apply find_some in Hf.
    assert (existsb (has_member (uid member)) (teams d) = true)
      by (apply existsb_exists; eauto).
    congruence.
  - reflexivity.
Qed.

(** ** The store after [!verify] and [!reject] *)

Lemma find_update_first {A} (p : A -> bool) (f : A -> A) (l : list A) (x : A) :
  find p l = Some x -> p (f x) = true ->
  find p (update_first p f l) = Some (f x).
Proof.
  induction l as [|y r IH]; simpl; [discriminate|].
  destruct (p y) eqn:Hy; intros H Hx.
  - injection H as ->. simpl. now rewrite Hx.
  - simpl. rewrite Hy. auto.
Qed.

Lemma update_first_none {A} (p : A -> bool) (f : A -> A) (l : list A) :
  find p l = None -> update_first p f l = l.
Proof.
  induction l as [|y r IH]; simpl; [reflexivity|].
  destruct (p y); [discriminate|]. intros H. now rewrite IH.
Qed.

Lemma update_first_twice {A} (p : A -> bool) (f g : A -> A) (l : list A) :
  (forall x, p x = true -> p (f x) = true) ->
  update_first p g (update_first p f l)
  = update_first p (fun x => g (f x)) l.
Proof.
  intros Hp. induction l as [|y r IH]; simpl; [reflexivity|].
  destruct (p y) eqn:Hy; simpl.
  - now rewrite (Hp y Hy).
  - now rewrite Hy, IH.
Qed.

Lemma update_first_ext {A} (p : A -> bool) (f g : A -> A) (l : list A) :
  (forall x, f x = g x) -> update_first p f l = update_first p g l.
Proof.
  intros H. induction l as [|y r IH]; simpl; [reflexivity|].
  now rewrite H, IH.
Qed.

Lemma existsb_is_member (u : Z) (l : list Member.t) :
  existsb (is_member u) l
  = existsb (fun i => i =? u) (map Member.discord_id l).
Proof. induction l as [|m r IH]; simpl; [reflexivity|]. now rewrite IH. Qed.

Lemma verify_team_ids (u : Z) (txn : option string) (team : Team.t) :
  map Member.discord_id (Team.members (verify_team u txn team))
  = map Member.discord_id (Team.members team).
Proof.
  unfold verify_team. cbv zeta.
  destruct (complete _); simpl; now apply update_first_ids.
Qed.

Lemma has_member_verify_team (u v : Z) (txn : option string) (c : string)
    (team : Team.t) :
  has_member v (c, verify_team u txn team) = has_member v (c, team).
Proof.
  unfold has_member. simpl. now rewrite !existsb_is_member, verify_team_ids.
Qed.

Lemma paid_update_first_mark (p : Member.t -> bool) (t1 t2 : option string)
    (l : list Member.t) :
  forallb Member.paid (update_first p (mark_paid t1) l)
  = forallb Member.paid (update_first p (mark_paid t2) l).
Proof.
  induction l as [|m r IH]; simpl; [reflexivity|].
  destruct (p m); simpl; [reflexivity | now rewrite IH].
Qed.

Lemma verify_team_again (u : Z) (t1 t2 : option string) (team : Team.t) :
  verify_team u t2 (verify_team u t1 team) = verify_team u t2 team.
Proof.
  unfold verify_team. cbv zeta.
  set (l1 := update_first (is_member u) (mark_paid t1) (Team.members team)).
  set (l2 := update_first (is_member u) (mark_paid t2) (Team.members team)).
  assert (E12 : update_first (is_member u) (mark_paid t2) l1 = l2).
  { unfold l1, l2. rewrite update_first_twice by (intros x Hx; exact Hx).
    apply update_first_ext. reflexivity. }
  assert (Ec : complete (Team.set_members l1 team)
               = complete (Team.set_members l2 team)).
  { unfold complete, l1, l2. simpl. rewrite !update_first_length.
    f_equal. apply paid_update_first_mark. }
  destruct (complete (Team.set_members l1 team)) eqn:E1; simpl;
    rewrite E12; unfold complete in *; simpl in *; rewrite <- Ec;
    reflexivity.
Qed.

Lemma mark_status_again (key s1 s2 : string) (ps : Dict.t Payment.t) :
  mark_status key s2 (mark_status key s1 ps) = mark_status key s2 ps.
Proof.
  unfold mark_status. destruct (Dict.get key ps) as [pay|] eqn:E.
  - now rewrite dict_get_set_same, dict_set_set.
  - now rewrite E.
Qed.

Lemma update_first_teams_again (u : Z) (T1 T2 : Team.t)
    (l : Dict.t Team.t) :
  (forall c, has_member u (c, T1) = true) ->
  update_first (has_member u) (fun item => (fst item, T2))
    (update_first (has_member u) (fun item => (fst item, T1)) l)
  = update_first (has_member u) (fun item => (fst item, T2)) l.
Proof.
  intros H. rewrite update_first_twice; [reflexivity|].
  intros x _. apply H.
Qed.

(** Verifying again, with any reference, gives the store that the last
    verification alone gives. *)
Lemma verify_store_again (u : Z) (t1 t2 : option string) (d : Data) :
  verify_store u t2 (verify_store u t1 d) = verify_store u t2 d.
Proof.
  unfold verify_store.
  destruct (Dict.get (str u) (solos d)) as [solo|] eqn:Hs.
  - cbn [solos set_solos set_payments payments teams].
    rewrite dict_get_set_same, dict_set_set, mark_status_again. reflexivity.
  - destruct (find (has_member u) (teams d)) as [[code team]|] eqn:Hf.
    + cbn [solos set_solos set_payments set_teams payments teams]. rewrite Hs.
      pose proof (find_some _ _ Hf) as [_ Hm].
      rewrite (@find_update_first _ (has_member u)
                 (fun item => (fst item, verify_team u t1 team)) (teams d)
                 (code, team) Hf)
        by (cbn [fst]; now rewrite has_member_verify_team).
      cbn [fst]. rewrite verify_team_again, mark_status_again.
      rewrite update_first_teams_again; [reflexivity|].
      intros c. rewrite has_member_verify_team. exact Hm.
    + now rewrite Hs, Hf.
Qed.

Lemma store_of_run_verify ctx g member txn w :
  store (run (verify_cmd ctx g member txn) w)
  = verify_store (uid member) txn (store w).
Proof.
  destruct (verify_cmd_run ctx g member txn w) as [_ [H _]].
  unfold store at 1. now rewrite H.
Qed.

Lemma store_of_run_reject ctx g member reason w :
  store (run (reject_cmd ctx g member reason) w)
  = reject_store (uid member) (store w).
Proof.
  destruct (reject_cmd_run ctx g member reason w) as [_ [H _]].
  unfold store at 1. now rewrite H.
Qed.

Lemma existsb_find_some {A} (p : A -> bool) (l : list A) :
  existsb p l = true -> exists x, find p l = Some x.
Proof.
  induction l as [|y r IH]; simpl; [discriminate|].
  destruct (p y); [eauto | exact IH].
Qed.

Lemma mark_status_get (key status : string) (ps : Dict.t Payment.t)
    (pay : Payment.t) :
  Dict.get key ps = Some pay ->
  Dict.get key (mark_status key status ps)
  = Some (Payment.set_status status pay).
Proof.
  intros H. unfold mark_status. rewrite H. apply dict_get_set_same.
Qed.

(** X1.  [!verify] marks the payment: a user with a solo record gets
    [paid = True] and the transaction reference given (the sentinel
    ["verified-by-admin"] when none is given) on that record; a user without
    one gets them on their member entry of the first team that has them.
    The entry of the payment index, when there is one, gets the status
    ["verified"]. *)
Theorem verify_cmd_marks_paid ctx g member txn w :
  let u := uid member in
  let d := store w in
  let d' := store (run (verify_cmd ctx g member txn) w) in
  let txn' := or_default txn VERIFIED_BY_ADMIN in
  (forall solo,
      Dict.get (str u) (solos d) = Some solo ->
      exists solo',
        Dict.get (str u) (solos d') = Some solo'
        /\ Solo.paid solo' = true /\ Solo.payment_txn solo' = Some txn'
        /\ forall pay,
             Dict.get (solo_key u) (payments d) = Some pay ->
             Dict.get (solo_key u) (payments d')
             = Some (Payment.set_status "verified" pay))
  /\ (forall code team,
         Dict.get (str u) (solos d) = None ->
         find (has_member u) (teams d) = Some (code, team) ->
         exists team' m,
           find (has_member u) (teams d') = Some (code, team')
           /\ find (is_member u) (Team.members team') = Some m
           /\ Member.paid m = true /\ Member.payment_txn m = Some txn'
           /\ forall pay,
                Dict.get (member_key code u) (payments d) = Some pay ->
                Dict.get (member_key code u) (payments d')
                = Some (Payment.set_status "verified" pay)).
Proof.
  intros u d d' txn'. subst d'. rewrite store_of_run_verify. fold u d.
  unfold verify_store. split.
  - intros solo Hs. rewrite Hs. eexists. split; [|split; [|split]].
    + cbn [solos set_solos set_payments]. apply dict_get_set_same.
    + reflexivity.
    + reflexivity.
    + intros pay Hp. cbn [payments set_payments]. now apply mark_status_get.
  - intros code team Hs Hf. rewrite Hs, Hf.
    pose proof (find_some _ _ Hf) as [_ Hm].
    destruct (existsb_find_some _ _ Hm) as [m0 Hm0]. cbn [snd] in Hm0.
    exists (verify_team u txn team), (mark_paid txn m0).
    split; [|split; [|split; [|split]]].
    + cbn [teams set_teams].
      rewrite (@find_update_first _ (has_member u)
                 (fun item => (fst item, verify_team u txn team)) (teams d)
                 (code, team) Hf); [reflexivity|].
      cbn [fst]. now rewrite has_member_verify_team.
    + assert (E : Team.members (verify_team u txn team)
                  = update_first (is_member u) (mark_paid txn)
                      (Team.members team)).
      { unfold verify_team. cbv zeta. now destruct (complete _). }
      rewrite E. apply find_update_first; [exact Hm0|].
      apply find_some in Hm0 as [_ Hm0]. exact Hm0.
    + reflexivity.
    + reflexivity.
    + intros pay Hp. cbn [payments set_payments set_teams].
      now apply mark_status_get.
Qed.

Lemma verify_cmd_marks_paid_witness :
  exists solo',
    Dict.get "7"
      (solos
         (store
            (run (verify_cmd admin_ctx sample_guild (mkUser 7 "ann")
                    (Some "UPI-42")) both_world)))
    = Some solo'
    /\ Solo.paid solo' = true /\ Solo.payment_txn solo' = Some "UPI-42"
    /\ forall pay,
         Dict.get "solo-7" (payments (store both_world)) = Some pay ->
         Dict.get "solo-7"
           (payments
              (store
                 (run (verify_cmd admin_ctx sample_guild (mkUser 7 "ann")
                         (Some "UPI-42")) both_world)))
         = Some (Payment.set_status "verified" pay).
Proof.
  exact (proj1
           (verify_cmd_marks_paid admin_ctx sample_guild (mkUser 7 "ann")
              (Some "UPI-42") both_world)
           (Solo.mk 7 "Ann" "Sage" "Gold" "Plat" false "TXN-7"
              (Some (mkMsgRef 11 50)) None)
           eq_refl).
Defined.

(** X2.  Verifying a member a second time, by any admin and with any
    reference, leaves the store as the second verification alone would have
    left it: the member stays paid, the reference is the latest one, and
    nothing else changes. *)
Theorem verify_cmd_again ctx1 ctx2 g1 g2 member t1 t2 w :
  store (run (verify_cmd ctx2 g2 member t2)
           (run (verify_cmd ctx1 g1 member t1) w))
  = store (run (verify_cmd ctx2 g2 member t2) w).
Proof.
  rewrite !store_of_run_verify. apply verify_store_again.
Qed.

(** X3.  [!reject] changes the payment index only: the solo records and the
    teams are written back as they were, so a record that was verified stays
    [paid], and every index entry is kept, with its status unchanged or set
    to ["rejected"]. *)
Theorem reject_cmd_keeps_records ctx g member reason w :
  let d := store w in
  let d' := store (run (reject_cmd ctx g member reason) w) in
  solos d' = solos d /\ teams d' = teams d
  /\ Forall2
       (fun old new =>
          new = old
          \/ new = (fst old, Payment.set_status "rejected" (snd old)))
       (payments d) (payments d').
Proof.
  intros d d'. subst d'. rewrite store_of_run_reject. fold d.
  assert (Hsame : forall ps : Dict.t Payment.t,
             Forall2
               (fun old new =>
                  new = old
                  \/ new = (fst old, Payment.set_status "rejected" (snd old)))
               ps ps).
  { induction ps; constructor; auto. }
  assert (Hmark : forall key (ps : Dict.t Payment.t),
             Forall2
               (fun old new =>
                  new = old
                  \/ new = (fst old, Payment.set_status "rejected" (snd old)))
               ps (mark_status key "rejected" ps)).
  { intros key ps. unfold mark_status.
    destruct (Dict.get key ps) as [pay|] eqn:E; [|apply Hsame].
    induction ps as [|[k v] r IH]; simpl in *; [discriminate|].
    destruct (k =? key)%string.
    - injection E as ->. constructor; [right; reflexivity | apply Hsame].
    - constructor; [left; reflexivity | now apply IH]. }
  unfold reject_store.
  destruct (Dict.get (str (uid member)) (solos d)).
  - repeat split; try reflexivity. apply Hmark.
  - destruct (find (has_member (uid member)) (teams d)) as [[code team]|].
    + repeat split; try reflexivity. apply Hmark.
    + repeat split; try reflexivity. apply Hsame.
Qed.

(** X4.  A user who has a solo record is handled as a solo, also when they
    are a member of a team: [!verify] and [!reject] leave every team as it
    was. *)
Theorem solo_record_first ctx g member txn reason w solo :
  Dict.get (str (uid member)) (solos (store w)) = Some solo ->
  teams (store (run (verify_cmd ctx g member txn) w)) = teams (store w)
  /\ teams (store (run (reject_cmd ctx g member reason) w)) = teams (store w).
Proof.
  intros H. rewrite store_of_run_verify, store_of_run_reject.
  unfold verify_store, reject_store. now rewrite H.
Qed.

Lemma solo_record_first_witness :
  has_member 7 ("ABCDEF", new_team (mkUser 7 "ann") "Foxes") = true
  /\ teams
       (store
          (run (verify_cmd admin_ctx sample_guild (mkUser 7 "ann") None)
             both_world))
     = teams (store both_world)
  /\ teams
       (store
          (run (reject_cmd admin_ctx sample_guild (mkUser 7 "ann") "late")
             both_world))
     = teams (store both_world).
Proof.
  split; [reflexivity|].
  exact (@solo_record_first admin_ctx sample_guild (mkUser 7 "ann") None
           "late" both_world
           (Solo.mk 7 "Ann" "Sage" "Gold" "Plat" false "TXN-7"
              (Some (mkMsgRef 11 50)) None)
           eq_refl).
Defined.

(** X5.  For a user who has no solo record and is in no team, [!verify] and
    [!reject] reply that they found nothing and do nothing else: nothing is
    written, no notice is touched, no role is granted and the user gets no
    message. *)
Theorem unknown_user_not_found ctx g member txn reason w :
  registered (uid member) (store w) = false ->
  verify_cmd ctx g member txn w
  = (Normal tt, emit (Send Ctx NOT_FOUND_VERIFY) (loaded w))
  /\ reject_cmd ctx g member reason w
     = (Normal tt, emit (Send Ctx NOT_FOUND_REJECT) (loaded w)).
Proof.
  intros H. split; [now apply verify_cmd_unknown | now apply reject_cmd_unknown].
Qed.

Lemma unknown_user_not_found_witness :
  verify_cmd admin_ctx sample_guild (mkUser 8 "bob") None both_world
  = (Normal tt, emit (Send Ctx NOT_FOUND_VERIFY) (loaded both_world))
  /\ reject_cmd admin_ctx sample_guild (mkUser 8 "bob") "late" both_world
     = (Normal tt, emit (Send Ctx NOT_FOUND_REJECT) (loaded both_world)).
Proof.
  exact (@unknown_user_not_found admin_ctx sample_guild (mkUser 8 "bob") None
           "late" both_world eq_refl).
Defined.

Lemma complete_verify_team (u : Z) (txn : option string) (team : Team.t) :
  complete (verify_team u txn team)
  = complete
      (Team.set_members
         (update_first (is_member u) (mark_paid txn) (Team.members team))
         team).
Proof.
  unfold verify_team. cbv zeta.
  match goal with
  | |- complete (if complete ?t then _ else _) = _ =>
      destruct (complete t) eqn:E; [|exact E]
  end.
  unfold complete in *. simpl in *. exact E.
Qed.

(** X6.  Whenever the team of the verified member has five members, all
    paid, once the member is marked, [!verify] announces the team in the
    registration channel, with its name, code and members; it does so at
    every such verification, whether or not the team was confirmed
    before. *)
Theorem verify_cmd_announces ctx g member txn w d code team reg_ch :
  disk w = Some d ->
  Dict.get (str (uid member)) (solos d) = None ->
  find (has_member (uid member)) (teams d) = Some (code, team) ->
  complete (verify_team (uid member) txn team) = true ->
  channel_named g CHANNEL_REGISTRATION = Some reg_ch ->
  In (Send (Chan (ch_id reg_ch))
        (CONFIRMED_TEXT code (verify_team (uid member) txn team)))
     (log (run (verify_cmd ctx g member txn) w)).
Proof.
  intros Hd Hs Hf Hc Hch. rewrite complete_verify_team in Hc.
  assert (Et : CONFIRMED_TEXT code (verify_team (uid member) txn team)
               = CONFIRMED_TEXT code
                   (Team.set_members
                      (update_first (is_member (uid member)) (mark_paid txn)
                         (Team.members team)) team)).
  { unfold CONFIRMED_TEXT, verify_team. cbv zeta.
    now destruct (complete _). }
  rewrite Et. clear Et. unfold mark_paid in *.
  unfold run. destruct_world w. cbn [disk] in Hd. subst w_disk.
  match goal with
  | |- context [verify_cmd ?a ?b ?c ?d ?W] =>
      remember (verify_cmd a b c d W) as r eqn:E
  end.
  unfold verify_cmd in E. exec_in E. rewrite Hs, Hf in E.
  cbn [payments set_solos set_payments solos teams] in E. cbv zeta in E.
  rewrite Hc, Hch in E.
  destruct (Dict.get ("team-" ++ code ++ "-member-" ++ str (uid member))
              (payments d)) as [pay|].
  - match type of E with
    | context [find (is_member ?u) ?l] =>
        destruct (find (is_member u) l) as [mm|]
    end.
    + exec_in E. through_edit E. exec_in E.
      destruct (existsb (Z.eqb (uid member)) w_closed); exec_in E;
        subst r; cbn [snd log]; unfold CONFIRMED_TEXT;
        cbn [Team.team_name Team.members Team.set_members Team.set_confirmed];
        simpl In; auto.
    + exec_in E.
      destruct (existsb (Z.eqb (uid member)) w_closed); exec_in E;
        subst r; cbn [snd log]; unfold CONFIRMED_TEXT;
        cbn [Team.team_name Team.members Team.set_members Team.set_confirmed];
        simpl In; auto.
  - exec_in E.
    destruct (existsb (Z.eqb (uid member)) w_closed); exec_in E;
      subst r; cbn [snd log]; unfold CONFIRMED_TEXT;
      cbn [Team.team_name Team.members Team.set_members Team.set_confirmed];
      simpl In; auto.
Qed.

Lemma verify_cmd_announces_witness :
  In (Send (Chan 10)
        (CONFIRMED_TEXT "ABCDEF"
           (verify_team 5 None
              (Team.mk "Foxes" 1
                 [ Member.mk 1 None true None None (Some "T1");
                   Member.mk 2 (Some "Jett") true (Some "P2") None (Some "T2");
                   Member.mk 3 (Some "Omen") true (Some "P3") None (Some "T3");
                   Member.mk 4 (Some "Sova") true (Some "P4") None (Some "T4");
                   Member.mk 5 (Some "Raze") false (Some "P5") None None ]
                 false None))))
     (log (run (verify_cmd admin_ctx sample_guild (mkUser 5 "eve") None)
             five_world)).
Proof.
  exact (@verify_cmd_announces admin_ctx sample_guild (mkUser 5 "eve") None
           five_world five_store "ABCDEF" _ (mkChannel 10 "registration" true)
           eq_refl eq_refl eq_refl eq_refl eq_refl).
Defined.

(** ** Updates of a notice, whatever the channel does with the fallback send *)

Section Updates.

Variable post : Channel -> Embed -> M Z.

Lemma edit_payment_embed_with_dropped g c m f t w :
  get_channel g c = None
  \/ (exists ch, get_channel g c = Some ch
                 /\ (readable ch = false
                     \/ find (same_message (ch_id ch) m) (messages w) = None)) ->
  edit_payment_embed_with post g c m f t w = (Normal tt, w).
Proof.
  unfold edit_payment_embed_with, fetch_message.
  intros [H|[ch [H [Hr|Hf]]]]; rewrite H; [reflexivity| |]; unfold_monad.
  - rewrite Hr. reflexivity.
  - destruct (readable ch); [rewrite Hf|]; reflexivity.
Qed.

Lemma edit_payment_embed_with_edits g c m f t w ch msg :
  get_channel g c = Some ch -> readable ch = true ->
  find (same_message (ch_id ch) m) (messages w) = Some msg ->
  editable msg = true ->
  edit_payment_embed_with post g c m f t w = edit_payment_embed g c m f t w.
Proof.
  intros H Hr Hf He.
  unfold edit_payment_embed, edit_payment_embed_with, fetch_message,
    edit_message.
  rewrite H. unfold_monad. rewrite Hr, Hf. simp. rewrite He. reflexivity.
Qed.

Lemma edit_payment_embed_with_falls_back g c m f t w ch msg :
  get_channel g c = Some ch -> readable ch = true ->
  find (same_message (ch_id ch) m) (messages w) = Some msg ->
  editable msg = false ->
  edit_payment_embed_with post g c m f t w
  = def (post ch (updated_embed msg f t (UPI_ID w)) ;; pass) w.
Proof.
  intros H Hr Hf He.
  unfold edit_payment_embed_with, fetch_message, edit_message.
  rewrite H. unfold_monad. rewrite Hr, Hf. simp. rewrite He.
  unfold updated_embed. destruct (truthy t); reflexivity.
Qed.

End Updates.

(** ** What [!verify] and [!reject] do to notices *)

(** The member entry the commands act on is there: the team was found by
    it. *)
Lemma found_member (u : Z) (code : string) (team : Team.t)
    (ts : Dict.t Team.t) (f : Member.t -> Member.t) :
  find (has_member u) ts = Some (code, team) ->
  (forall x, Member.discord_id (f x) = Member.discord_id x) ->
  exists x,
    find (is_member u) (Team.members team) = Some x
    /\ find (is_member u) (update_first (is_member u) f (Team.members team))
       = Some (f x).
Proof.
  intros Hfind Hf. apply find_some in Hfind as [_ Hm].
  unfold has_member in Hm. cbn [snd] in Hm.
  destruct (existsb_find_some _ _ Hm) as [x Hx]. exists x.
  split; [exact Hx|]. apply find_update_first; [exact Hx|].
  apply find_some in Hx as [_ Hx]. unfold is_member in *. now rewrite Hf.
Qed.

(** Steps over an update inside a run, keeping what the update did. *)
Ltac through_update E Hkeep :=
  match type of E with
  | context [edit_payment_embed ?x1 ?x2 ?x3 ?x4 ?x5 ?W] =>
      let w2 := fresh "w2" in
      let Hrun := fresh "Hrun" in
      let Hd := fresh "Hd" in
      let Hi := fresh "Hi" in
      let Hc := fresh "Hc" in
      let evs := fresh "evs" in
      let Hlog := fresh "Hlog" in
      let Hs := fresh "Hs" in
      let Hw := fresh "Hw" in
      let Hg := fresh "Hg" in
      let Hn := fresh "Hn" in
      destruct (edit_payment_embed_quiet x1 x2 x3 x4 x5 W)
        as [w2 [Hrun [Hd [Hi [Hc [evs [Hlog [Hs [Hw [Hg Hn]]]]]]]]]];
      rewrite Hrun in E;
      assert (Hkeep : snd (edit_payment_embed x1 x2 x3 x4 x5 W) = w2)
        by (rewrite Hrun; reflexivity);
      clear Hrun;
      destruct w2 as [w2_disk w2_inbox w2_messages w2_next w2_rng w2_pos
                      w2_budget w2_guilds w2_gid w2_upi w2_closed w2_log];
      cbn [disk inbox dms_closed log] in Hd, Hi, Hc, Hlog;
      subst w2_disk w2_inbox w2_closed w2_log
  end.

Ltac notices_done :=
  unfold same_notices, run; cbn [fst snd messages next_message_id log];
  unfold posts, edits; cbn [flat_map app];
  repeat split; reflexivity.

Ltac notices_updated Hkeep :=
  eexists; eexists; unfold same_notices, run; rewrite Hkeep;
  cbn [fst snd messages next_message_id log];
  unfold posts, edits; cbn [flat_map app];
  repeat split; reflexivity.

(** As far as notices go, [!verify] is one update of the notice the payment
    index records for the unit, and nothing at all when the user or the
    index entry is not there. *)
Lemma verify_cmd_notices ctx g member txn w :
  let w' := run (verify_cmd ctx g member txn) w in
  match payment_unit (uid member) (store w) with
  | Some key =>
      match notice_of key (store w) with
      | Some (c, m) =>
          exists f t,
            same_notices w' (run (edit_payment_embed g c m f t) w)
      | None => same_notices w' w
      end
  | None => same_notices w' w
  end.
Proof.
  cbv zeta. unfold store, payment_unit, notice_of.
  change (run (verify_cmd ctx g member txn) w)
    with (snd (verify_cmd ctx g member txn w)).
  destruct_world w.
  match goal with
  | |- context [verify_cmd ?a ?b ?c ?d ?W] =>
      remember (verify_cmd a b c d W) as r eqn:E
  end.
  unfold verify_cmd in E.
  destruct w_disk as [d|]; exec_in E; cbn [disk store_of].
  2: { subst r. notices_done. }
  destruct (Dict.get (str (uid member)) (solos d)) as [solo|] eqn:Hsolo.
  - cbn [payments set_solos set_payments solos teams] in E.
    unfold solo_key.
    destruct (Dict.get ("solo-" ++ str (uid member)) (payments d))
      as [pay|] eqn:Hpay.
    + exec_in E. through_update E Hkeep. exec_in E.
      cbn [Payment.channel_id Payment.message_id Payment.set_status] in *.
      destruct (existsb (Z.eqb (uid member)) w_closed); exec_in E; subst r;
        notices_updated Hkeep.
    + exec_in E.
      destruct (existsb (Z.eqb (uid member)) w_closed); exec_in E; subst r;
        notices_done.
  - destruct (find (has_member (uid member)) (teams d)) as [[code team]|]
      eqn:Hfind.
    + unfold member_key.
      cbn [payments set_solos set_payments solos teams] in E.
      destruct (Dict.get ("team-" ++ code ++ "-member-" ++ str (uid member))
                  (payments d)) as [pay|] eqn:Hpay.
      * match type of E with
        | context [find (is_member ?u)
                     (Team.members
                        (Team.set_members (update_first _ ?f ?l) _))] =>
            destruct (@found_member u code team (teams d) f Hfind)
              as [x [_ Hx]]; [reflexivity|];
            change (Team.members
                      (Team.set_members (update_first (is_member u) f l) team))
              with (update_first (is_member u) f l) in E;
            rewrite Hx in E
        end.
        exec_in E. through_update E Hkeep. exec_in E.
        cbn [Payment.channel_id Payment.message_id Payment.set_status] in *.
        destruct (existsb (Z.eqb (uid member)) w_closed); exec_in E;
          match type of E with
          | context [complete ?t] => destruct (complete t)
          end; exec_in E;
          try (destruct (channel_named g CHANNEL_REGISTRATION);
               exec_in E);
          subst r; notices_updated Hkeep.
      * exec_in E.
        destruct (existsb (Z.eqb (uid member)) w_closed); exec_in E;
          match type of E with
          | context [complete ?t] => destruct (complete t)
          end; exec_in E;
          try (destruct (channel_named g CHANNEL_REGISTRATION);
               exec_in E);
          subst r; notices_done.
    + exec_in E. subst r. notices_done.
Qed.

Lemma reject_cmd_notices ctx g member reason w :
  let w' := run (reject_cmd ctx g member reason) w in
  match payment_unit (uid member) (store w) with
  | Some key =>
      match notice_of key (store w) with
      | Some (c, m) =>
          exists f t,
            same_notices w' (run (edit_payment_embed g c m f t) w)
      | None => same_notices w' w
      end
  | None => same_notices w' w
  end.
Proof.
  cbv zeta. unfold store, payment_unit, notice_of.
  change (run (reject_cmd ctx g member reason) w)
    with (snd (reject_cmd ctx g member reason w)).
  destruct_world w.
  match goal with
  | |- context [reject_cmd ?a ?b ?c ?d ?W] =>
      remember (reject_cmd a b c d W) as r eqn:E
  end.
  unfold reject_cmd in E.
  destruct w_disk as [d|]; exec_in E; cbn [disk store_of].
  2: { subst r. notices_done. }
  destruct (Dict.get (str (uid member)) (solos d)) as [solo|] eqn:Hsolo.
  - cbn [payments set_solos set_payments solos teams] in E.
    unfold solo_key.
    destruct (Dict.get ("solo-" ++ str (uid member)) (payments d))
      as [pay|] eqn:Hpay.
    + exec_in E. through_update E Hkeep. exec_in E.
      cbn [Payment.channel_id Payment.message_id Payment.set_status] in *.
      destruct (existsb (Z.eqb (uid member)) w_closed); exec_in E; subst r;
        notices_updated Hkeep.
    + exec_in E.
      destruct (existsb (Z.eqb (uid member)) w_closed); exec_in E; subst r;
        notices_done.
  - destruct (find (has_member (uid member)) (teams d)) as [[code team]|]
      eqn:Hfind.
    + unfold member_key.
      cbn [payments set_solos set_payments solos teams] in E.
      destruct (Dict.get ("team-" ++ code ++ "-member-" ++ str (uid member))
                  (payments d)) as [pay|] eqn:Hpay.
      * destruct (@found_member (uid member) code team (teams d)
                    (fun x => x) Hfind) as [x [Hx _]]; [reflexivity|].
        rewrite Hx in E.
        exec_in E. through_update E Hkeep. exec_in E.
        cbn [Payment.channel_id Payment.message_id Payment.set_status] in *.
        destruct (existsb (Z.eqb (uid member)) w_closed); exec_in E;
          subst r; notices_updated Hkeep.
      * exec_in E.
        destruct (existsb (Z.eqb (uid member)) w_closed); exec_in E;
          subst r; notices_done.
    + exec_in E. subst r. notices_done.
Qed.

(** ** The notice of a join *)

(** A join publishes the notice of its unit and records it; the update of
    the team's creation notice that closes the handler posts at most the
    fallback of that update. *)
Lemma jointeam_cmd_notice ctx c w d team a b rest g ch :
  admits ctx c d team -> disk w = Some d ->
  inbox w = Some a :: Some b :: rest -> proceeds a ->
  default_guild_in w = Some g -> notice_channel g = Some ch ->
  let w' := run (jointeam_cmd ctx (Some c)) w in
  let unit := member_key (upper (strip c)) (uid (author ctx)) in
  notice_of unit (store w') = Some (ch_id ch, next_message_id w)
  /\ exists closing,
       posts (log w')
       = (closing ++ (ch_id ch, next_message_id w) :: posts (log w))%list
       /\ (closing = []
           \/ exists c0, closing = [(c0, next_message_id w + 1)]).
Proof.
  intros Ha Hd Hi Hx Hdg Hch w' unit. split.
  - destruct (@jointeam_cmd_joins ctx c w d team a b rest Ha Hd Hi Hx)
      as [_ H].
    rewrite Hdg, Hch in H. destruct H as [_ [H _]].
    unfold store. fold w' in H. rewrite H. unfold notice_of, member_noticed.
    cbn [store_of payments set_payments]. unfold unit, new_member.
    cbn [Member.discord_id]. now rewrite dict_get_set_same.
  - unfold proceeds in Hx. subst w'.
    destruct Ha as [Hdm [Hc [Hg [Hm Hl]]]]. apply Nat.leb_gt in Hl.
    unfold run. unfold default_guild_in in Hdg.
    destruct_world w; simpl in Hd, Hi, Hdg; subst.
    match goal with
    | |- context [jointeam_cmd ?x ?y ?W] =>
        remember (jointeam_cmd x y W) as r eqn:E
    end.
    unfold jointeam_cmd, jointeam_cmd_with in E. rewrite Hdm, Hc in E.
    exec_in E.
    rewrite Hg in E. exec_in E. rewrite Hm in E. exec_in E. rewrite Hl in E.
    exec_in E. rewrite Hx in E. unfold default_guild_in in E. exec_in E.
    rewrite Hdg in E.
    rewrite (@post_payment_embed_run g _ _ _ ch Hch) in E. exec_in E.
    cbn [teams set_teams] in E.
    rewrite dict_get_set_same in E. exec_in E.
    cbn [Team.admin_msg Team.set_members] in E.
    destruct (Team.admin_msg team) as [info|].
    + match type of E with
      | context [edit_payment_embed ?x1 ?x2 ?x3 ?x4 ?x5 ?W] =>
          destruct (edit_payment_embed_cases x1 x2 x3 x4 x5 W)
            as [E1|[ch1 [msg [_ [_ [_ [[_ E1]|[_ E1]]]]]]]];
          rewrite E1 in E
      end; subst r; cbn [fst snd log next_message_id];
        unfold posts; cbn [flat_map app].
      * exists []. split; [reflexivity | now left].
      * exists []. split; [reflexivity | now left].
      * eexists [_]. split; [reflexivity | right; eexists; reflexivity].
    + subst r. cbn [fst snd log]. unfold posts; cbn [flat_map app].
      exists []. split; [reflexivity | now left].
Qed.

(** ** C9: one notice per payment unit *)

(** C9, as the spec states it, fails in two ways.  When the platform
    refuses the edit of a notice for lack of permission, the update is not
    dropped: a second notice is posted.  And when a solo player registers
    again, a second notice is published for the same payment unit; the
    index entry of the unit then refers to the new notice, the first one
    stays in the channel. *)
Lemma C9_counterexample :
  (let w' :=
     run (edit_payment_embed sample_guild 11 50 [("Status", "Verified")] None)
       world_locked in
   notice_refs world_locked = [(11, 50)]
   /\ notice_refs w' = [(11, 50); (11, 100)]
   /\ posts (log w') = [(11, 100)])
  /\ (let register :=
        handle_solo_registration (mkUser 7 "ann") None in
      let w1 := run register (set_inbox ann_answers small_world) in
      let w2 := run register (set_inbox ann_answers w1) in
      notice_of "solo-7" (store w1) = Some (11, 100)
      /\ notice_of "solo-7" (store w2) = Some (11, 101)
      /\ posts (log w2) = [(11, 101); (11, 100)]
      /\ notice_refs w2 = [(11, 100); (11, 101)]).
Proof. vm_compute. repeat split; reflexivity. Qed.

(** C9, amended.  A registration publishes exactly one notice for its
    payment unit and records the reference of that notice in the unit's
    entry of the payment index: a solo registration, a team creation, and a
    join (whose handler ends with an update of the team's creation notice).
    [!verify] and [!reject] author no notice of their own: as far as notices
    go they are one update of the notice the index records for the unit.  An
    update is dropped, without error and with nothing posted or changed,
    when the channel is gone or the message is missing or cannot be fetched
    for lack of permission; it edits the notice in place, creating none,
    when the message is fetched and the edit is accepted.  When the message
    is fetched but the edit is refused for lack of permission, the update
    sends the updated content to the same channel, the source's stated
    fallback: the call ends as that send ends, with its error when the
    channel refuses it, and with a second notice when the channel accepts
    it. *)
Theorem C9_notice_updates (post : Channel -> Embed -> M Z) (g : Guild)
    (c m : Z) (f : list (string * string)) (t : option string) (w : World) :
  let update := edit_payment_embed_with post g c m f t in
  ((get_channel g c = None
    \/ exists ch, get_channel g c = Some ch
                  /\ (readable ch = false
                      \/ find (same_message (ch_id ch) m) (messages w)
                         = None)) ->
   update w = (Normal tt, w))
  /\ (forall ch msg,
         get_channel g c = Some ch -> readable ch = true ->
         find (same_message (ch_id ch) m) (messages w) = Some msg ->
         (editable msg = true ->
          outcome update w = Normal tt
          /\ disk (run update w) = disk w
          /\ notice_refs (run update w) = notice_refs w
          /\ posts (log (run update w)) = posts (log w)
          /\ edits (log (run update w)) = (c, m) :: edits (log w))
         /\ (editable msg = false ->
             let e := updated_embed msg f t (UPI_ID w) in
             (forall x w1,
                 post ch e w = (Raised x, w1) -> update w = (Raised x, w1))
             /\ (forall id w1,
                    post ch e w = (Normal id, w1) -> update w = (Normal tt, w1))
             /\ let w' := run (edit_payment_embed g c m f t) w in
                disk w' = disk w
                /\ notice_refs w'
                   = (notice_refs w ++ [(c, next_message_id w)])%list
                /\ posts (log w') = (c, next_message_id w) :: posts (log w)
                /\ edits (log w') = edits (log w)))
  /\ (forall title ch,
         notice_channel g = Some ch ->
         let w1 := run (post_payment_embed g title f) w in
         outcome (post_payment_embed g title f) w
         = Normal (ch_id ch, next_message_id w)
         /\ notice_refs w1
            = (notice_refs w ++ [(ch_id ch, next_message_id w)])%list
         /\ posts (log w1) = (ch_id ch, next_message_id w) :: posts (log w))
  /\ (forall user guild d a1 a2 a3 a4 a5 rest g0 ch,
         disk w = Some d ->
         inbox w
         = Some a1 :: Some a2 :: Some a3 :: Some a4 :: Some a5 :: rest ->
         Forall proceeds [a1; a2; a3; a4; a5] ->
         resolve_guild guild w = Some g0 -> notice_channel g0 = Some ch ->
         let w' := run (handle_solo_registration user guild) w in
         posts (log w') = (ch_id ch, next_message_id w) :: posts (log w)
         /\ notice_of (solo_key (uid user)) (store w')
            = Some (ch_id ch, next_message_id w))
  /\ (forall user guild d content rest g0 ch,
         disk w = Some d -> inbox w = Some content :: rest ->
         proceeds content ->
         outcome (handle_team_registration user guild) w <> Diverged ->
         resolve_guild guild w = Some g0 -> notice_channel g0 = Some ch ->
         let w' := run (handle_team_registration user guild) w in
         posts (log w') = (ch_id ch, next_message_id w) :: posts (log w)
         /\ exists code,
              Dict.mem code (teams d) = false
              /\ notice_of (created_key code) (store w')
                 = Some (ch_id ch, next_message_id w))
  /\ (forall ctx code d team a b rest g0 ch,
         admits ctx code d team -> disk w = Some d ->
         inbox w = Some a :: Some b :: rest -> proceeds a ->
         default_guild_in w = Some g0 -> notice_channel g0 = Some ch ->
         let w' := run (jointeam_cmd ctx (Some code)) w in
         notice_of (member_key (upper (strip code)) (uid (author ctx)))
           (store w')
         = Some (ch_id ch, next_message_id w)
         /\ exists closing,
              posts (log w')
              = (closing ++ (ch_id ch, next_message_id w) :: posts (log w))%list
              /\ (closing = []
                  \/ exists c0, closing = [(c0, next_message_id w + 1)]))
  /\ (forall ctx member txn,
         let w' := run (verify_cmd ctx g member txn) w in
         match payment_unit (uid member) (store w) with
         | Some key =>
             match notice_of key (store w) with
             | Some (c0, m0) =>
                 exists f0 t0,
                   same_notices w'
                     (run (edit_payment_embed g c0 m0 f0 t0) w)
             | None => same_notices w' w
             end
         | None => same_notices w' w
         end)
  /\ (forall ctx member reason,
         let w' := run (reject_cmd ctx g member reason) w in
         match payment_unit (uid member) (store w) with
         | Some key =>
             match notice_of key (store w) with
             | Some (c0, m0) =>
                 exists f0 t0,
                   same_notices w'
                     (run (edit_payment_embed g c0 m0 f0 t0) w)
             | None => same_notices w' w
             end
         | None => same_notices w' w
         end).
Proof.
  intros update. subst update.
  split; [|split; [|split; [|split; [|split; [|split; [|split]]]]]].
  - apply edit_payment_embed_with_dropped.
  - intros ch msg Hc Hr Hf.
    destruct (same_message_ref _ _ _ (proj2 (find_some _ _ Hf))) as [E1 E2].
    pose proof (get_channel_id _ _ Hc) as E3.
    split; intros He.
    + unfold run, outcome.
      rewrite (@edit_payment_embed_with_edits post g c m f t w ch msg
                 Hc Hr Hf He).
      rewrite (@edit_payment_embed_edits g c m f t w ch msg Hc Hr Hf He).
      unfold notice_refs; simpl. rewrite notice_refs_edit.
      rewrite E1, E2, E3. auto.
    + intros e. subst e. split; [|split].
      * intros x w1 Hp.
        rewrite (@edit_payment_embed_with_falls_back post g c m f t w ch msg
                   Hc Hr Hf He).
        unfold def, bind. now rewrite Hp.
      * intros id w1 Hp.
        rewrite (@edit_payment_embed_with_falls_back post g c m f t w ch msg
                   Hc Hr Hf He).
        unfold def, bind. now rewrite Hp.
      * unfold run.
        rewrite (@edit_payment_embed_falls_back g c m f t w ch msg
                   Hc Hr Hf He).
        unfold notice_refs; simpl. rewrite map_app. simpl.
        rewrite E3. auto.
  - intros title ch Hch. cbv zeta. unfold run, outcome.
    rewrite (@post_payment_embed_run g title f w ch Hch).
    unfold notice_refs; simpl. rewrite map_app. auto.
  - intros user guild d a1 a2 a3 a4 a5 rest g0 ch Hd Hi Hp Hg Hch w'.
    destruct (@handle_solo_registration_run user guild w d a1 a2 a3 a4 a5
                rest Hd Hi Hp) as [_ H].
    fold w' in H. rewrite Hg, Hch in H. destruct H as [_ [Hdisk [_ Hpo]]].
    split; [exact Hpo|]. unfold store. rewrite Hdisk.
    unfold notice_of, solo_noticed. cbn [store_of payments set_payments].
    now rewrite dict_get_set_same.
  - intros user guild d content rest g0 ch Hd Hi Hp Ho Hg Hch w'.
    destruct (@handle_team_registration_run user guild w d content rest
                Hd Hi Hp Ho) as [code [_ [_ [Hfresh [_ H]]]]].
    fold w' in H. rewrite Hg, Hch in H. destruct H as [Hdisk [_ Hpo]].
    split; [exact Hpo|]. exists code. split; [exact Hfresh|].
    unfold store. rewrite Hdisk. unfold notice_of, team_noticed.
    cbn [store_of payments set_payments]. now rewrite dict_get_set_same.
  - intros ctx code d team a b rest g0 ch Ha Hd Hi Hp Hg Hch.
    exact (@jointeam_cmd_notice ctx code w d team a b rest g0 ch
             Ha Hd Hi Hp Hg Hch).
  - intros ctx member txn. apply verify_cmd_notices.
  - intros ctx member reason. apply reject_cmd_notices.
Qed.

(** An update on the notice of user 7's solo registration edits it in
    place; on the notice that refuses edits, in a channel that refuses the
    fallback, it raises; [!verify] of user 7 is one update of the notice the
    index records; a solo registration publishes notice 100 and records
    it. *)
Lemma C9_witness :
  (let update :=
     edit_payment_embed_with send_refused sample_guild 11 50
       [("Status", "Verified")] None in
   outcome update world_noticed = Normal tt
   /\ disk (run update world_noticed) = disk world_noticed
   /\ notice_refs (run update world_noticed) = [(11, 50)]
   /\ posts (log (run update world_noticed)) = []
   /\ edits (log (run update world_noticed)) = [(11, 50)])
  /\ edit_payment_embed_with send_refused sample_guild 11 50
       [("Status", "Verified")] None world_locked
     = (Raised Forbidden, world_locked)
  /\ (exists f0 t0,
        same_notices
          (run (verify_cmd admin_ctx sample_guild (mkUser 7 "ann") None)
             world_noticed)
          (run (edit_payment_embed sample_guild 11 50 f0 t0) world_noticed))
  /\ (let w := set_inbox ann_answers small_world in
      let w' := run (handle_solo_registration (mkUser 7 "ann") None) w in
      posts (log w') = [(11, 100)]
      /\ notice_of "solo-7" (store w') = Some (11, 100)).
Proof.
  pose (fields := [("Status", "Verified")]).
  pose (ch := mkChannel 11 "payments" true).
  split; [|split; [|split]].
  - exact (proj1
             (proj1 (proj2
                (C9_notice_updates send_refused sample_guild 11 50 fields None
                   world_noticed))
                ch (mkMessage 11 50 [blank_embed] true)
                eq_refl eq_refl eq_refl)
             eq_refl).
  - exact (proj1
             (proj2
                (proj1 (proj2
                   (C9_notice_updates send_refused sample_guild 11 50 fields None
                      world_locked))
                   ch (mkMessage 11 50 [blank_embed] false)
                   eq_refl eq_refl eq_refl)
                eq_refl)
             Forbidden world_locked eq_refl).
  - exact (proj1 (proj2 (proj2 (proj2 (proj2 (proj2 (proj2
             (C9_notice_updates send_refused sample_guild 11 50 fields None
                world_noticed)))))))
             admin_ctx (mkUser 7 "ann") None).
  - assert (Hp : Forall proceeds ["Ann"; "Sage"; "Gold"; "Plat"; "TXN-7"]).
    { repeat constructor. }
    exact (proj1 (proj2 (proj2 (proj2
             (C9_notice_updates send_refused sample_guild 11 50 fields None
                (set_inbox ann_answers small_world)))))
             (mkUser 7 "ann") None small_store
             "Ann" "Sage" "Gold" "Plat" "TXN-7" [] sample_guild ch
             eq_refl eq_refl Hp eq_refl eq_refl).
Defined.


(** ** The read-only commands, run *)

Lemma pending_cmd_run ctx w :
  pending_cmd ctx w
  = (Normal tt, emit (Send Ctx (pending_reply (store w))) (loaded w)).
Proof.
  unfold pending_cmd, pending_reply, store, loaded. destruct_world w.
  destruct w_disk as [d|]; exec.
  - destruct (pending_solos d ++ pending_members d)%list; reflexivity.
  - reflexivity.
Qed.

Lemma paymentsummary_cmd_run ctx channel w :
  paymentsummary_cmd ctx channel w
  = reply_embed channel (summary_embed (payments (store w))) (loaded w).
Proof.
  unfold paymentsummary_cmd, store, loaded. destruct_world w.
  destruct w_disk as [d|]; reflexivity.
Qed.

Lemma myregistration_cmd_not_in_dm ctx channel w :
  in_dm ctx = false ->
  myregistration_cmd ctx channel w = (Normal tt, emit (Send Ctx USE_DM) w).
Proof.
  intros H. unfold myregistration_cmd. rewrite H. destruct w. reflexivity.
Qed.

Lemma myregistration_cmd_solo ctx channel w s :
  in_dm ctx = true ->
  Dict.get (str (uid (author ctx))) (solos (store w)) = Some s ->
  myregistration_cmd ctx channel w
  = reply_embed channel (solo_card s) (loaded w).
Proof.
  intros Hdm Hs. unfold myregistration_cmd, store, loaded in *. rewrite Hdm.
  destruct_world w. destruct w_disk as [d|]; cbn [disk store_of] in Hs.
  - exec. rewrite Hs. reflexivity.
  - discriminate.
Qed.

Lemma myregistration_cmd_team ctx channel w code team :
  in_dm ctx = true ->
  Dict.get (str (uid (author ctx))) (solos (store w)) = None ->
  find (has_member (uid (author ctx))) (teams (store w)) = Some (code, team) ->
  exists m,
    find (is_member (uid (author ctx))) (Team.members team) = Some m
    /\ myregistration_cmd ctx channel w
       = reply_embed channel (team_card code team m) (loaded w).
Proof.
  intros Hdm Hs Hf. unfold myregistration_cmd, store, loaded in *.
  rewrite Hdm. destruct_world w.
  destruct w_disk as [d|]; cbn [disk store_of] in Hs, Hf; [|discriminate].
  pose proof (find_some _ _ Hf) as [_ Hm].
  destruct (existsb_find_some _ _ Hm) as [m Hm0]. cbn [snd] in Hm0.
  exists m. split; [exact Hm0|].
  exec. rewrite Hs. exec. rewrite Hf. rewrite Hm0. reflexivity.
Qed.

Lemma myregistration_cmd_none ctx channel w :
  in_dm ctx = true ->
  registered (uid (author ctx)) (store w) = false ->
  myregistration_cmd ctx channel w
  = (Normal tt, emit (Send Ctx NO_REGISTRATION) (loaded w)).
Proof.
  unfold registered, Dict.mem. intros Hdm H.
  apply orb_false_iff in H as [Hs Ht].
  unfold myregistration_cmd, store, loaded in *. rewrite Hdm.
  destruct_world w. destruct w_disk as [d|]; cbn [disk store_of] in Hs, Ht.
  - exec. destruct (Dict.get _ (solos d)); [discriminate|]. exec.
    destruct (find (has_member (uid (author ctx))) (teams d)) as [[c t]|]
      eqn:Hf; [|reflexivity].
    apply find_some in Hf.
    assert (existsb (has_member (uid (author ctx))) (teams d) = true)
      by (apply existsb_exists; eauto).
    congruence.
  - reflexivity.
Qed.

Lemma store_loaded w : store (loaded w) = store w.
Proof. unfold store, loaded. destruct_world w. now destruct w_disk. Qed.

Lemma log_loaded w : log (loaded w) = log w.
Proof. unfold loaded. destruct_world w. now destruct w_disk. Qed.

Lemma next_loaded w : next_message_id (loaded w) = next_message_id w.
Proof. unfold loaded. destruct_world w. now destruct w_disk. Qed.

(** X7.  [!pending], [!paymentsummary] and [!myregistration] call no
    [save_data]: each ends normally after exactly one reply (a text or an
    embed), waits for nothing, edits no notice and grants no role.  A
    [data.json] that exists is left exactly as it was.  One that is missing
    is created with empty collections, by [load_data], when the command
    gets as far as opening the store, and stays missing when the caller is
    turned away before: by the permission check of the two admin commands,
    or because [!myregistration] was not sent in a DM. *)
Theorem queries_read_only ctx channel q w :
  let w' := run (ask ctx channel q) w in
  outcome (ask ctx channel q) w = Normal tt
  /\ disk w'
     = (if opens_store ctx q then
          match disk w with
          | Some d => Some d
          | None => Some empty_data
          end
        else disk w)
  /\ saves (log w') = saves (log w)
  /\ waits (log w') = waits (log w)
  /\ grants (log w') = grants (log w)
  /\ edits (log w') = edits (log w)
  /\ (List.length (sends (log w')) + List.length (posts (log w')))%nat
     = S (List.length (sends (log w)) + List.length (posts (log w))).
Proof.
  set (opened := match disk w with Some d => Some d | None => Some empty_data end).
  assert (Hopened : disk (loaded w) = opened).
  { unfold opened, loaded. destruct_world w. now destruct w_disk. }
  assert (Hdenied : forall text,
            let w1 := run (send Ctx text) w in
            outcome (send Ctx text) w = Normal tt
            /\ disk w1 = disk w /\ saves (log w1) = saves (log w)
            /\ waits (log w1) = waits (log w)
            /\ grants (log w1) = grants (log w)
            /\ edits (log w1) = edits (log w)
            /\ (List.length (sends (log w1)) + List.length (posts (log w1)))%nat
               = S (List.length (sends (log w)) + List.length (posts (log w)))).
  { intros text. destruct w. cbn. repeat split; reflexivity. }
  assert (Htext : forall (m : M unit) text,
             m w = (Normal tt, emit (Send Ctx text) (loaded w)) ->
             let w1 := run m w in
             outcome m w = Normal tt
             /\ disk w1 = opened /\ saves (log w1) = saves (log w)
             /\ waits (log w1) = waits (log w)
             /\ grants (log w1) = grants (log w)
             /\ edits (log w1) = edits (log w)
             /\ (List.length (sends (log w1)) + List.length (posts (log w1)))%nat
                = S (List.length (sends (log w)) + List.length (posts (log w)))).
  { intros m text E. unfold run, outcome. rewrite E. cbn [fst snd].
    rewrite <- Hopened, <- (log_loaded w). destruct (loaded w).
    cbn. repeat split; reflexivity. }
  assert (Hrich : forall (m : M unit) e,
             m w = reply_embed channel e (loaded w) ->
             let w1 := run m w in
             outcome m w = Normal tt
             /\ disk w1 = opened /\ saves (log w1) = saves (log w)
             /\ waits (log w1) = waits (log w)
             /\ grants (log w1) = grants (log w)
             /\ edits (log w1) = edits (log w)
             /\ (List.length (sends (log w1)) + List.length (posts (log w1)))%nat
                = S (List.length (sends (log w)) + List.length (posts (log w)))).
  { intros m e E. unfold run, outcome. rewrite E.
    rewrite <- Hopened, <- (log_loaded w). destruct (loaded w).
    cbn. repeat split; try reflexivity. unfold sends, posts. lia. }
  cbv zeta.
  destruct q; cbn [ask opens_store]; unfold with_manage_guild.
  - destruct (guild ctx); [destruct (manage_guild ctx)|];
      try exact (Hdenied MISSING_PERMISSION).
    apply Htext with (text := pending_reply (store w)). apply pending_cmd_run.
  - destruct (guild ctx); [destruct (manage_guild ctx)|];
      try exact (Hdenied MISSING_PERMISSION).
    eapply Hrich. apply paymentsummary_cmd_run.
  - destruct (in_dm ctx) eqn:Hdm.
    + destruct (Dict.get (str (uid (author ctx))) (solos (store w)))
        as [s|] eqn:Hs.
      * apply Hrich with (e := solo_card s).
        exact (@myregistration_cmd_solo ctx channel w s Hdm Hs).
      * destruct (find (has_member (uid (author ctx))) (teams (store w)))
          as [[code team]|] eqn:Hf.
        -- destruct (@myregistration_cmd_team ctx channel w code team Hdm Hs Hf)
             as [m [_ E]].
           eapply Hrich. exact E.
        -- eapply Htext. apply myregistration_cmd_none; [exact Hdm|].
           unfold registered, Dict.mem. rewrite Hs. cbn [orb].
           destruct (existsb _ _) eqn:X; [|reflexivity].
           apply existsb_exists in X as [x [Hin Hx]].
           now rewrite (find_none _ _ Hf x Hin) in Hx.
    + unfold run, outcome.
      rewrite (@myregistration_cmd_not_in_dm ctx channel w Hdm).
      exact (Hdenied USE_DM).
Qed.

(** An admin asks for the pending payments while [data.json] is missing:
    the file is created, empty; nothing is saved. *)
Lemma queries_read_only_witness :
  let w' := run (ask admin_ctx 10 Pending) sample_world in
  disk sample_world = None
  /\ disk w' = Some empty_data
  /\ saves (log w') = []
  /\ sends (log w') = [(Ctx, NO_PENDING)].
Proof.
  pose proof (queries_read_only admin_ctx 10 Pending sample_world) as H.
  cbv zeta in H. destruct H as [_ [Hd [Hs _]]].
  split; [reflexivity|]. split; [exact Hd|]. split; [exact Hs|].
  vm_compute. reflexivity.
Defined.

(** ** The counts of [!paymentsummary] *)

Lemma tally_cases (v p r : Z) (x : Payment.t) :
  let s := Payment.status x in
  (s = "verified" /\ tally (v, p, r) x = (v + 1, p, r))
  \/ (s = "pending" /\ tally (v, p, r) x = (v, p + 1, r))
  \/ (s = "rejected" /\ tally (v, p, r) x = (v, p, r + 1))
  \/ (~ In s STATUSES /\ tally (v, p, r) x = (v, p, r)).
Proof.
  unfold tally. cbv zeta.
  destruct (String.eqb_spec (Payment.status x) "verified") as [E|N1].
  { left. rewrite E. auto. }
  destruct (String.eqb_spec (Payment.status x) "pending") as [E|N2].
  { right; left. rewrite E. auto. }
  destruct (String.eqb_spec (Payment.status x) "rejected") as [E|N3].
  { right; right; left. rewrite E. auto. }
  right; right; right. split; [|reflexivity].
  simpl. intros [H|[H|[H|[]]]]; congruence.
Qed.

(** What the loop counts: nothing but entries whose status is one of the
    three it knows. *)
Lemma tally_fold (l : list Payment.t) :
  forall v0 p0 r0,
  exists v p r,
    fold_left tally l (v0, p0, r0) = (v, p, r)
    /\ v0 <= v /\ p0 <= p /\ r0 <= r
    /\ (v - v0) + (p - p0) + (r - r0)
       = Z.of_nat
           (List.length
              (filter (fun x => existsb (String.eqb (Payment.status x)) STATUSES)
                 l))
    /\ (p = p0 -> Forall (fun x => Payment.status x <> "pending") l).
Proof.
  induction l as [|x l IH]; intros v0 p0 r0.
  - exists v0, p0, r0. simpl.
    split; [reflexivity|]. split; [lia|]. split; [lia|]. split; [lia|].
    split; [lia|]. intros _. constructor.
  - cbn [fold_left filter].
    destruct (tally_cases v0 p0 r0 x) as [[Es Et]|[[Es Et]|[[Es Et]|[Es Et]]]];
      rewrite Et; cbv zeta in Es.
    + destruct (IH (v0 + 1) p0 r0) as [v [p [r [E [Hv [Hp [Hr [Hs Hn]]]]]]]].
      exists v, p, r. rewrite Es.
      match goal with
      | |- context [existsb ?f STATUSES] =>
          change (existsb f STATUSES) with true
      end.
      cbn [List.length].
      split; [exact E|]. split; [lia|]. split; [lia|]. split; [lia|].
      split; [lia|]. intros Hpp.
      constructor; [rewrite Es; discriminate | auto].
    + destruct (IH v0 (p0 + 1) r0) as [v [p [r [E [Hv [Hp [Hr [Hs Hn]]]]]]]].
      exists v, p, r. rewrite Es.
      match goal with
      | |- context [existsb ?f STATUSES] =>
          change (existsb f STATUSES) with true
      end.
      cbn [List.length].
      split; [exact E|]. split; [lia|]. split; [lia|]. split; [lia|].
      split; [lia|]. intros Hpp. lia.
    + destruct (IH v0 p0 (r0 + 1)) as [v [p [r [E [Hv [Hp [Hr [Hs Hn]]]]]]]].
      exists v, p, r. rewrite Es.
      match goal with
      | |- context [existsb ?f STATUSES] =>
          change (existsb f STATUSES) with true
      end.
      cbn [List.length].
      split; [exact E|]. split; [lia|]. split; [lia|]. split; [lia|].
      split; [lia|]. intros Hpp.
      constructor; [rewrite Es; discriminate | auto].
    + destruct (IH v0 p0 r0) as [v [p [r [E [Hv [Hp [Hr [Hs Hn]]]]]]]].
      exists v, p, r.
      assert (Ex : existsb (String.eqb (Payment.status x)) STATUSES = false).
      { destruct (existsb _ _) eqn:X; [|reflexivity].
        apply existsb_exists in X as [s [Hin Hx]].
        apply String.eqb_eq in Hx. subst s. contradiction. }
      rewrite Ex.
      split; [exact E|]. split; [lia|]. split; [lia|]. split; [lia|].
      split; [lia|]. intros Hpp.
      constructor; [|auto].
      intros H. apply Es. rewrite H. simpl. auto.
Qed.

Lemma counted_or_creation (ps : Dict.t Payment.t) :
  Forall payment_ok ps ->
  (List.length
     (filter (fun x => existsb (String.eqb (Payment.status x)) STATUSES)
        (Dict.values ps))
   + List.length (filter is_creation ps))%nat
  = List.length ps.
Proof.
  induction 1 as [|[k x] ps Hx _ IH]; [reflexivity|].
  unfold Dict.values in *. cbn [map filter snd]. unfold is_creation at 1.
  cbn [snd].
  destruct Hx as [[Ht [Hs _]]|[Ht Hs]]; cbn [snd] in *.
  - rewrite Ht, Hs.
    change (existsb (String.eqb "awaiting_members") STATUSES) with false.
    change ("team_created" =? "team_created")%string with true.
    cbn [List.length]. lia.
  - assert (E1 : existsb (String.eqb (Payment.status x)) STATUSES = true).
    { apply existsb_exists. exists (Payment.status x).
      split; [exact Hs | apply String.eqb_refl]. }
    assert (E2 : (Payment.type x =? "team_created")%string = false).
    { destruct Ht as [-> | ->]; reflexivity. }
    rewrite E1, E2. cbn [List.length]. lia.
Qed.

(** X8.  In every reachable store the three counts that [!paymentsummary]
    replies with add up to the number of entries of the payment index that
    are not records of a team's creation: every solo and team-member entry
    is counted exactly once, as verified, pending or rejected, and the
    creation records are never counted. *)
Theorem paymentsummary_counts ctx channel w :
  reachable (disk w) ->
  exists v p r,
    hd_error (log (run (paymentsummary_cmd ctx channel) w))
    = Some (Post channel (next_message_id w)
              (mkEmbed (Some "Payment Summary") "blurple"
                 [ ("Verified", str v); ("Pending", str p);
                   ("Rejected", str r) ] None))
    /\ 0 <= v /\ 0 <= p /\ 0 <= r
    /\ v + p + r
       + Z.of_nat (List.length (filter is_creation (payments (store w))))
       = Z.of_nat (List.length (payments (store w))).
Proof.
  intros Hr. apply reachable_index in Hr as [_ Hok].
  fold (store w) in Hok.
  destruct (tally_fold (Dict.values (payments (store w))) 0 0 0)
    as [v [p [r [E [Hv [Hp [Hrr [Hs _]]]]]]]].
  exists v, p, r. split; [|repeat split; try assumption].
  - unfold run. rewrite paymentsummary_cmd_run.
    unfold summary_embed, summary_counts. rewrite E.
    rewrite <- (next_loaded w). now destruct (loaded w).
  - rewrite <- (counted_or_creation Hok). lia.
Qed.

Lemma paymentsummary_counts_witness :
  exists v p r,
    hd_error (log (run (paymentsummary_cmd admin_ctx 10) world_confirmed))
    = Some (Post 10 (next_message_id world_confirmed)
              (mkEmbed (Some "Payment Summary") "blurple"
                 [ ("Verified", str v); ("Pending", str p);
                   ("Rejected", str r) ] None))
    /\ 0 <= v /\ 0 <= p /\ 0 <= r
    /\ v + p + r
       + Z.of_nat
           (List.length (filter is_creation (payments (store world_confirmed))))
       = Z.of_nat (List.length (payments (store world_confirmed))).
Proof.
  exact (@paymentsummary_counts admin_ctx 10 world_confirmed
           reachable_world_confirmed).
Defined.

Lemma not_pending_get (ps : Dict.t Payment.t) (k : string) :
  Forall (fun x => Payment.status x <> "pending") (Dict.values ps) ->
  is_pending (Dict.get k ps) = false.
Proof.
  intros H. unfold is_pending. destruct (Dict.get k ps) as [p|] eqn:E;
    [|reflexivity].
  apply dict_get_In in E. rewrite Forall_forall in H.
  specialize (H p (in_map snd _ _ E)).
  destruct (String.eqb_spec (Payment.status p) "pending"); congruence.
Qed.

(** X9.  The two reports agree on the absence of pending payments: whenever
    the pending count of [!paymentsummary] is zero, [!pending] replies that
    there are no pending payments. *)
Theorem no_pending_agrees ctx w v r :
  summary_counts (payments (store w)) = (v, 0, r) ->
  pending_cmd ctx w = (Normal tt, emit (Send Ctx NO_PENDING) (loaded w)).
Proof.
  intros H. rewrite pending_cmd_run. unfold summary_counts in H.
  destruct (tally_fold (Dict.values (payments (store w))) 0 0 0)
    as [v' [p' [r' [E [_ [_ [_ [_ Hn]]]]]]]].
  rewrite E in H. injection H as -> -> ->. specialize (Hn eq_refl).
  unfold pending_reply, pending_solos, pending_members.
  assert (E1 : forall (l : Dict.t Solo.t),
             flat_map
               (fun item =>
                  if is_pending
                       (Dict.get ("solo-" ++ fst item) (payments (store w)))
                  then [solo_line (fst item) (snd item)] else []) l = []).
  { induction l as [|x l IH]; [reflexivity|]. cbn [flat_map].
    rewrite (not_pending_get _ _ Hn). exact IH. }
  assert (E2 : forall (l : Dict.t Team.t),
             flat_map
               (fun item =>
                  flat_map
                    (fun m =>
                       if is_pending
                            (Dict.get
                               ("team-" ++ fst item ++ "-member-" ++
                                str (Member.discord_id m))
                               (payments (store w)))
                       then [member_line (fst item) (snd item) m] else [])
                    (Team.members (snd item))) l = []).
  { induction l as [|x l IH]; [reflexivity|]. cbn [flat_map].
    rewrite IH, app_nil_r.
    induction (Team.members (snd x)) as [|m ms IHm]; [reflexivity|].
    cbn [flat_map]. rewrite (not_pending_get _ _ Hn). exact IHm. }
  now rewrite E1, E2.
Qed.

Lemma no_pending_agrees_witness :
  pending_cmd admin_ctx small_world
  = (Normal tt, emit (Send Ctx NO_PENDING) (loaded small_world)).
Proof.
  exact (@no_pending_agrees admin_ctx small_world 0 0 eq_refl).
Defined.

(** ** When the notice reference is written *)

Lemma update_first_app_last {A} (p : A -> bool) (f : A -> A) (l : list A)
    (x : A) :
  existsb p l = false -> p x = true ->
  update_first p f (l ++ [x]) = (l ++ [f x])%list.
Proof.
  induction l as [|y r IH]; simpl; intros Hl Hx.
  - now rewrite Hx.
  - apply orb_false_iff in Hl as [Hy Hr]. rewrite Hy. now rewrite IH.
Qed.

Lemma attach_notice_new_member (user : User) (ign proof : string) (r : MsgRef)
    (team : Team.t) :
  existsb (is_member (uid user)) (Team.members team) = false ->
  Team.members
    (attach_notice (uid user) proof r
       (Team.set_members
          (Team.members team ++ [new_member user ign proof]) team))
  = (Team.members team
     ++ [Member.set_payment_proof (Some proof)
           (Member.set_payment_msg (Some r) (new_member user ign proof))])%list.
Proof.
  intros Hm. unfold attach_notice.
  cbn [Team.members Team.set_members].
  rewrite (@update_first_app_last _ (is_member (uid user))
             (fun m =>
                Member.set_payment_proof (Some proof)
                  (Member.set_payment_msg (Some r) m))
             (Team.members team) (new_member user ign proof) Hm);
    [reflexivity|].
  unfold is_member, new_member. cbn [Member.discord_id]. apply Z.eqb_refl.
Qed.

(** X10.  A solo registration writes the store once.  With a guild and a
    channel to post in, the notice is published first and the single write
    holds the record together with the reference of its notice and the
    pending entry of the payment index; without any guild the record is
    written without a reference and nothing is posted. *)
Theorem solo_registration_writes_once user guild w d a1 a2 a3 a4 a5 rest :
  disk w = Some d ->
  inbox w = Some a1 :: Some a2 :: Some a3 :: Some a4 :: Some a5 :: rest ->
  Forall proceeds [a1; a2; a3; a4; a5] ->
  let w' := run (handle_solo_registration user guild) w in
  let record := solo_record user a1 a2 a3 a4 a5 in
  (forall g ch,
      resolve_guild guild w = Some g -> notice_channel g = Some ch ->
      let r := mkMsgRef (ch_id ch) (next_message_id w) in
      exists d1,
        saves (log w') = d1 :: saves (log w)
        /\ posts (log w') = (ch_id ch, next_message_id w) :: posts (log w)
        /\ Dict.get (str (uid user)) (solos d1)
           = Some (Solo.set_payment_msg (Some r) record)
        /\ Dict.get (solo_key (uid user)) (payments d1)
           = Some (Payment.mk "solo" (Some (uid user)) None (ch_id ch)
                     (next_message_id w) "pending"))
  /\ (resolve_guild guild w = None ->
      exists d1,
        saves (log w') = d1 :: saves (log w)
        /\ posts (log w') = posts (log w)
        /\ Dict.get (str (uid user)) (solos d1) = Some record
        /\ Solo.payment_msg record = None
        /\ payments d1 = payments d).
Proof.
  intros Hd Hi Hp w' record.
  destruct (@handle_solo_registration_run user guild w d a1 a2 a3 a4 a5
              rest Hd Hi Hp) as [_ H].
  fold w' in H. fold record in H. split.
  - intros g ch Hg Hch r. rewrite Hg, Hch in H.
    destruct H as [_ [_ [Hs Hpo]]]. eexists. split; [exact Hs|].
    split; [exact Hpo|]. unfold solo_noticed, solo_saved.
    cbn [solos set_solos payments set_payments]. split.
    + rewrite dict_set_set. apply dict_get_set_same.
    + apply dict_get_set_same.
  - intros Hg. rewrite Hg in H. destruct H as [_ [Hs Hpo]].
    eexists. split; [exact Hs|]. split; [exact Hpo|].
    split; [apply dict_get_set_same|]. split; reflexivity.
Qed.

Lemma solo_registration_writes_once_witness :
  let w :=
    set_inbox [Some "Ann"; Some "Sage"; Some "Gold"; Some "Plat"; Some "TXN-7"]
      small_world in
  let w' := run (handle_solo_registration (mkUser 7 "ann") None) w in
  let record := solo_record (mkUser 7 "ann") "Ann" "Sage" "Gold" "Plat" "TXN-7" in
  exists d1,
    saves (log w') = d1 :: saves (log w)
    /\ posts (log w') = (11, 100) :: posts (log w)
    /\ Dict.get "7" (solos d1)
       = Some (Solo.set_payment_msg (Some (mkMsgRef 11 100)) record)
    /\ Dict.get "solo-7" (payments d1)
       = Some (Payment.mk "solo" (Some 7) None 11 100 "pending").
Proof.
  intros w.
  assert (Hp : Forall proceeds ["Ann"; "Sage"; "Gold"; "Plat"; "TXN-7"]).
  { repeat constructor. }
  exact (proj1
           (@solo_registration_writes_once (mkUser 7 "ann") None w small_store
              "Ann" "Sage" "Gold" "Plat" "TXN-7" [] eq_refl eq_refl Hp)
           sample_guild (mkChannel 11 "payments" true) eq_refl eq_refl).
Defined.

(** X11.  Team creation writes the store twice.  The first write holds the
    new team under its join code, with the captain as only member and
    without a notice reference; the creation notice is published after it,
    and the second write attaches the reference of that notice to the team.
    The captain's own member entry never gets a reference. *)
Theorem team_creation_writes_twice user guild w d content rest g ch :
  disk w = Some d -> inbox w = Some content :: rest ->
  proceeds content ->
  outcome (handle_team_registration user guild) w <> Diverged ->
  resolve_guild guild w = Some g -> notice_channel g = Some ch ->
  let w' := run (handle_team_registration user guild) w in
  let r := mkMsgRef (ch_id ch) (next_message_id w) in
  let team := new_team user (strip content) in
  exists code d1 d2,
    saves (log w') = d2 :: d1 :: saves (log w)
    /\ posts (log w') = (ch_id ch, next_message_id w) :: posts (log w)
    /\ Dict.get code (teams d1) = Some team
    /\ Team.admin_msg team = None
    /\ Dict.get code (teams d2) = Some (Team.set_admin_msg (Some r) team)
    /\ map Member.payment_msg
         (Team.members (Team.set_admin_msg (Some r) team)) = [None].
Proof.
  intros Hd Hi Hp Ho Hg Hch w' r team.
  destruct (@handle_team_registration_run user guild w d content rest
              Hd Hi Hp Ho) as [code [_ [_ [_ [_ H]]]]].
  rewrite Hg, Hch in H. destruct H as [_ [Hs Hpo]].
  exists code. eexists. eexists. split; [exact Hs|]. split; [exact Hpo|].
  split; [apply dict_get_set_same|]. split; [reflexivity|].
  split; [|reflexivity].
  unfold team_noticed, team_created. cbn [teams set_teams set_payments].
  rewrite dict_set_set. apply dict_get_set_same.
Qed.

Lemma team_creation_writes_twice_witness :
  let w := set_inbox [Some "Owls"] small_world in
  let w' := run (handle_team_registration (mkUser 7 "ann") None) w in
  let team := new_team (mkUser 7 "ann") "Owls" in
  exists code d1 d2,
    saves (log w') = d2 :: d1 :: saves (log w)
    /\ posts (log w') = (11, 100) :: posts (log w)
    /\ Dict.get code (teams d1) = Some team
    /\ Team.admin_msg team = None
    /\ Dict.get code (teams d2)
       = Some (Team.set_admin_msg (Some (mkMsgRef 11 100)) team)
    /\ map Member.payment_msg
         (Team.members (Team.set_admin_msg (Some (mkMsgRef 11 100)) team))
       = [None].
Proof.
  intros w.
  assert (Ho : outcome (handle_team_registration (mkUser 7 "ann") None) w
               <> Diverged).
  { vm_compute. discriminate. }
  exact (@team_creation_writes_twice (mkUser 7 "ann") None w small_store
           "Owls" [] sample_guild (mkChannel 11 "payments" true)
           eq_refl eq_refl eq_refl Ho eq_refl eq_refl).
Defined.

(** X12.  A join writes the store twice.  The first write appends the new
    member entry, unpaid and without a notice reference, to the team; the
    member's notice is published after it, and the second write attaches the
    reference of that notice to the entry and adds the pending entry of the
    payment index. *)
Theorem join_writes_twice ctx c w d team a b rest g ch :
  admits ctx c d team -> disk w = Some d ->
  inbox w = Some a :: Some b :: rest -> proceeds a ->
  default_guild_in w = Some g -> notice_channel g = Some ch ->
  let w' := run (jointeam_cmd ctx (Some c)) w in
  let code := upper (strip c) in
  let r := mkMsgRef (ch_id ch) (next_message_id w) in
  let entry := new_member (author ctx) (strip a) (strip b) in
  exists d1 d2 t1 t2,
    saves (log w') = d2 :: d1 :: saves (log w)
    /\ Dict.get code (teams d1) = Some t1
    /\ Team.members t1 = (Team.members team ++ [entry])%list
    /\ Member.payment_msg entry = None /\ Member.paid entry = false
    /\ payments d1 = payments d
    /\ Dict.get code (teams d2) = Some t2
    /\ Team.members t2
       = (Team.members team
          ++ [Member.set_payment_proof (Some (strip b))
                (Member.set_payment_msg (Some r) entry)])%list
    /\ Dict.get (member_key code (uid (author ctx))) (payments d2)
       = Some (Payment.mk "team_member" (Some (uid (author ctx))) (Some code)
                 (ch_id ch) (next_message_id w) "pending").
Proof.
  intros Ha Hd Hi Hp Hg Hch w' code r entry.
  destruct (@jointeam_cmd_joins ctx c w d team a b rest Ha Hd Hi Hp)
    as [_ H].
  rewrite Hg, Hch in H. destruct H as [_ [_ Hs]].
  destruct Ha as [_ [_ [_ [Hm _]]]].
  eexists. eexists. eexists. eexists. split; [exact Hs|].
  split; [apply dict_get_set_same|]. split; [reflexivity|].
  split; [reflexivity|]. split; [reflexivity|]. split; [reflexivity|].
  unfold member_noticed, member_joined.
  cbn [teams set_teams payments set_payments]. split; [|split].
  - rewrite dict_set_set. apply dict_get_set_same.
  - apply (@attach_notice_new_member (author ctx) (strip a) (strip b)
             (mkMsgRef (ch_id ch) (next_message_id w)) team Hm).
  - apply dict_get_set_same.
Qed.

Lemma join_writes_twice_witness :
  let w := set_inbox [Some "Jett"; Some "TXN-1"] small_world in
  let w' := run (jointeam_cmd (dm_ctx 2) (Some "abcdef")) w in
  let team := new_team (mkUser 1 "cap") "Foxes" in
  let entry := new_member (author (dm_ctx 2)) "Jett" "TXN-1" in
  exists d1 d2 t1 t2,
    saves (log w') = d2 :: d1 :: saves (log w)
    /\ Dict.get "ABCDEF" (teams d1) = Some t1
    /\ Team.members t1 = (Team.members team ++ [entry])%list
    /\ Member.payment_msg entry = None /\ Member.paid entry = false
    /\ payments d1 = payments small_store
    /\ Dict.get "ABCDEF" (teams d2) = Some t2
    /\ Team.members t2
       = (Team.members team
          ++ [Member.set_payment_proof (Some "TXN-1")
                (Member.set_payment_msg (Some (mkMsgRef 11 100)) entry)])%list
    /\ Dict.get "team-ABCDEF-member-2" (payments d2)
       = Some (Payment.mk "team_member" (Some 2) (Some "ABCDEF") 11 100
                 "pending").
Proof.
  intros w.
  assert (Ha : admits (dm_ctx 2) "abcdef" small_store
                 (new_team (mkUser 1 "cap") "Foxes")).
  { repeat split; try reflexivity. simpl. lia. }
  exact (@join_writes_twice (dm_ctx 2) "abcdef" w small_store _ "Jett" "TXN-1"
           [] sample_guild (mkChannel 11 "payments" true) Ha eq_refl eq_refl
           eq_refl eq_refl eq_refl).
Defined.

(** ** [!myregistration] after a registration *)

Lemma loaded_some w d : disk w = Some d -> loaded w = w.
Proof. unfold loaded. destruct_world w. cbn. now intros ->. Qed.

Lemma find_has_member_set (u : Z) (code : string) (t t' : Team.t)
    (l : Dict.t Team.t) :
  existsb (has_member u) l = false ->
  Dict.get code l = Some t ->
  has_member u (code, t') = true ->
  find (has_member u) (Dict.set code t' l) = Some (code, t').
Proof.
  induction l as [|[k v] r IH]; simpl; intros Hn Hg Ht; [discriminate|].
  apply orb_false_iff in Hn as [Hk Hr].
  destruct (String.eqb_spec k code) as [->|N].
  - simpl. now rewrite Ht.
  - simpl. rewrite Hk. now apply IH.
Qed.

Lemma find_is_member_last (u : Z) (l : list Member.t) (m : Member.t) :
  existsb (is_member u) l = false -> is_member u m = true ->
  find (is_member u) (l ++ [m]) = Some m.
Proof.
  induction l as [|y r IH]; simpl; intros Hn Hm.
  - now rewrite Hm.
  - apply orb_false_iff in Hn as [Hy Hr]. rewrite Hy. now apply IH.
Qed.

Lemma existsb_is_member_last (u : Z) (l : list Member.t) (m : Member.t) :
  Member.discord_id m = u -> existsb (is_member u) (l ++ [m]) = true.
Proof.
  intros H. rewrite existsb_app. simpl. unfold is_member at 2.
  rewrite H, Z.eqb_refl. now rewrite orb_true_r.
Qed.

(** X13.  What [!myregistration] shows is what the registration stored: run
    by the same user in a DM after a solo registration that was saved, it
    replies with one embed, titled "Your Solo Registration", whose fields
    are the IGN, the real name and the two ranks as answered (stripped), and
    [Paid: False]. *)
Theorem myregistration_after_solo ctx channel guild w d a1 a2 a3 a4 a5 rest :
  in_dm ctx = true ->
  disk w = Some d ->
  inbox w = Some a1 :: Some a2 :: Some a3 :: Some a4 :: Some a5 :: rest ->
  Forall proceeds [a1; a2; a3; a4; a5] ->
  (forall g, resolve_guild guild w = Some g -> notice_channel g <> None) ->
  let w1 := run (handle_solo_registration (author ctx) guild) w in
  myregistration_cmd ctx channel w1
  = reply_embed channel
      (mkEmbed (Some "Your Solo Registration") "blue"
         [ ("IGN", strip a2); ("Real Name", strip a1);
           ("Current Rank", strip a3); ("Peak Rank", strip a4);
           ("Paid", "False") ] None)
      w1.
Proof.
  intros Hdm Hd Hi Hp Hch w1.
  destruct (@handle_solo_registration_run (author ctx) guild w d a1 a2 a3 a4
              a5 rest Hd Hi Hp) as [_ H].
  fold w1 in H.
  destruct (resolve_guild guild w) as [g|] eqn:Hg.
  - destruct (notice_channel g) as [ch|] eqn:Hn;
      [|now contradiction (Hch g eq_refl)].
    destruct H as [_ [Hd1 _]].
    rewrite (@myregistration_cmd_solo ctx channel w1
               (Solo.set_payment_msg
                  (Some (mkMsgRef (ch_id ch) (next_message_id w)))
                  (solo_record (author ctx) a1 a2 a3 a4 a5)) Hdm).
    + now rewrite (loaded_some _ Hd1).
    + unfold store. rewrite Hd1. unfold solo_noticed, solo_saved.
      cbn [store_of solos set_solos set_payments].
      rewrite dict_set_set. apply dict_get_set_same.
  - destruct H as [Hd1 _].
    rewrite (@myregistration_cmd_solo ctx channel w1
               (solo_record (author ctx) a1 a2 a3 a4 a5) Hdm).
    + now rewrite (loaded_some _ Hd1).
    + unfold store. rewrite Hd1. unfold solo_saved.
      cbn [store_of solos set_solos]. apply dict_get_set_same.
Qed.

Lemma myregistration_after_solo_witness :
  let w :=
    set_inbox [Some "Ann"; Some " Sage "; Some "Gold"; Some "Plat"; Some "TXN-7"]
      small_world in
  let w1 := run (handle_solo_registration (author (dm_ctx 7)) None) w in
  myregistration_cmd (dm_ctx 7) 70 w1
  = reply_embed 70
      (mkEmbed (Some "Your Solo Registration") "blue"
         [ ("IGN", strip " Sage "); ("Real Name", strip "Ann");
           ("Current Rank", strip "Gold"); ("Peak Rank", strip "Plat");
           ("Paid", "False") ] None)
      w1.
Proof.
  intros w.
  assert (Hp : Forall proceeds ["Ann"; " Sage "; "Gold"; "Plat"; "TXN-7"]).
  { repeat constructor. }
  assert (Hch : forall g, resolve_guild None w = Some g ->
                          notice_channel g <> None).
  { intros g Hg. injection Hg as <-. discriminate. }
  exact (@myregistration_after_solo (dm_ctx 7) 70 None w small_store
           "Ann" " Sage " "Gold" "Plat" "TXN-7" [] eq_refl eq_refl eq_refl
           Hp Hch).
Defined.

(** X14.  Run by the new member in a DM after a join, [!myregistration]
    replies with the card of the team joined: its name and normalized code
    in the title, the captain, the IGN given (stripped) and [Paid: False].
    This is stated for a user who has no solo record and was in no team
    before. *)
Theorem myregistration_after_join ctx channel c w d team a b rest :
  admits ctx c d team -> disk w = Some d ->
  inbox w = Some a :: Some b :: rest -> proceeds a ->
  Dict.get (str (uid (author ctx))) (solos d) = None ->
  existsb (has_member (uid (author ctx))) (teams d) = false ->
  let w1 := run (jointeam_cmd ctx (Some c)) w in
  myregistration_cmd ctx channel w1
  = reply_embed channel
      (mkEmbed
         (Some ("Team: " ++ Team.team_name team ++ " (Code: " ++
                upper (strip c) ++ ")"))
         "blue"
         [ ("Captain", mention_or_id (Team.captain_id team));
           ("Your IGN", strip a); ("Paid", "False") ] None)
      w1.
Proof.
  intros Ha Hd Hi Hp Hs Hn w1.
  destruct (@jointeam_cmd_joins ctx c w d team a b rest Ha Hd Hi Hp)
    as [_ H].
  fold w1 in H.
  destruct Ha as [Hdm [_ [Hg [Hm _]]]].
  set (u := uid (author ctx)) in *.
  set (code := upper (strip c)) in *.
  set (entry := new_member (author ctx) (strip a) (strip b)) in *.
  assert (Hjoined :
            disk w1 = Some (member_joined d code team entry) ->
            myregistration_cmd ctx channel w1
            = reply_embed channel
                (team_card code
                   (Team.set_members (Team.members team ++ [entry]) team)
                   entry) w1).
  { intros Hd1.
    destruct (@myregistration_cmd_team ctx channel w1 code
                (Team.set_members (Team.members team ++ [entry]) team) Hdm)
      as [m [Hf E]].
    - unfold store. rewrite Hd1. exact Hs.
    - unfold store. rewrite Hd1. unfold member_joined.
      cbn [store_of teams set_teams].
      apply find_has_member_set with (t := team); [exact Hn | exact Hg |].
      unfold has_member. cbn [snd Team.members Team.set_members].
      apply existsb_is_member_last. reflexivity.
    - cbn [Team.members Team.set_members] in Hf.
      rewrite find_is_member_last in Hf;
        [| exact Hm | apply Z.eqb_refl].
      injection Hf as <-. now rewrite E, (loaded_some _ Hd1). }
  destruct (default_guild_in w) as [g|]; [|now apply Hjoined].
  destruct (notice_channel g) as [ch|]; [|now apply Hjoined].
  destruct H as [_ [Hd1 _]].
  set (r := mkMsgRef (ch_id ch) (next_message_id w)) in *.
  set (t1 := Team.set_members (Team.members team ++ [entry]) team).
  destruct (@myregistration_cmd_team ctx channel w1 code
              (attach_notice (Member.discord_id entry) (strip b) r t1) Hdm)
    as [m [Hf E]].
  - unfold store. rewrite Hd1. exact Hs.
  - unfold store. rewrite Hd1. unfold member_noticed, member_joined.
    cbn [store_of teams set_teams set_payments].
    rewrite dict_set_set.
    apply find_has_member_set with (t := team); [exact Hn | exact Hg |].
    unfold has_member. cbn [snd]. unfold t1, entry.
    cbn [Member.discord_id new_member].
    rewrite (@attach_notice_new_member (author ctx) (strip a) (strip b) r
               team Hm).
    apply existsb_is_member_last. reflexivity.
  - unfold t1, entry in Hf. cbn [Member.discord_id new_member] in Hf.
    rewrite (@attach_notice_new_member (author ctx) (strip a) (strip b) r
               team Hm) in Hf.
    rewrite find_is_member_last in Hf;
      [| exact Hm | apply Z.eqb_refl].
    injection Hf as <-. now rewrite E, (loaded_some _ Hd1).
Qed.

Lemma myregistration_after_join_witness :
  let w := set_inbox [Some " Jett"; Some "TXN-1"] small_world in
  let w1 := run (jointeam_cmd (dm_ctx 2) (Some "abcdef")) w in
  myregistration_cmd (dm_ctx 2) 70 w1
  = reply_embed 70
      (mkEmbed
         (Some ("Team: " ++ "Foxes" ++ " (Code: " ++ upper (strip "abcdef")
                ++ ")"))
         "blue"
         [ ("Captain", mention_or_id 1); ("Your IGN", strip " Jett");
           ("Paid", "False") ] None)
      w1.
Proof.
  intros w.
  assert (Ha : admits (dm_ctx 2) "abcdef" small_store
                 (new_team (mkUser 1 "cap") "Foxes")).
  { repeat split; try reflexivity. simpl. lia. }
  exact (@myregistration_after_join (dm_ctx 2) 70 "abcdef" w small_store _
           " Jett" "TXN-1" [] Ha eq_refl eq_refl eq_refl eq_refl eq_refl).
Defined.

(** X15.  [!myregistration] outside a DM replies with its privacy notice and
    does not open the store; in a DM, for a user with no solo record and in
    no team, it replies that there is no saved registration. *)
Theorem myregistration_nothing_to_show ctx channel w :
  (in_dm ctx = false ->
   myregistration_cmd ctx channel w = (Normal tt, emit (Send Ctx USE_DM) w))
  /\ (in_dm ctx = true ->
      registered (uid (author ctx)) (store w) = false ->
      myregistration_cmd ctx channel w
      = (Normal tt, emit (Send Ctx NO_REGISTRATION) (loaded w))).
Proof.
  split.
  - apply myregistration_cmd_not_in_dm.
  - apply myregistration_cmd_none.
Qed.

Lemma myregistration_nothing_to_show_witness :
  myregistration_cmd admin_ctx 10 sample_world
  = (Normal tt, emit (Send Ctx USE_DM) sample_world)
  /\ myregistration_cmd (dm_ctx 2) 70 small_world
     = (Normal tt, emit (Send Ctx NO_REGISTRATION) (loaded small_world)).
Proof.
  split.
  - exact (proj1 (myregistration_nothing_to_show admin_ctx 10 sample_world)
             eq_refl).
  - exact (proj2 (myregistration_nothing_to_show (dm_ctx 2) 70 small_world)
             eq_refl eq_refl).
Defined.

(** ** Registration: refusals and edge cases *)

(** X16.  [!register] gives up early in two cases.  When the user does not
    accept direct messages it says so in the channel of the command and
    asks nothing.  When the reply to the kind-selection question is neither
    [solo] nor [team] (case and surrounding blanks ignored) it replies that
    the option is unrecognized and ends: nothing is written and no further
    question is asked. *)
Theorem register_cmd_gives_up ctx w :
  (existsb (Z.eqb (uid (author ctx))) (dms_closed w) = true ->
   register_cmd ctx w
   = (Normal tt, emit (Send Ctx (COULD_NOT_DM (author ctx))) w))
  /\ (forall reply rest,
         dm_open (author ctx) w -> inbox w = Some reply :: rest ->
         lower (strip reply) <> "solo" -> lower (strip reply) <> "team" ->
         register_cmd ctx w
         = (Normal tt,
            emit (Send (DM (uid (author ctx))) UNRECOGNIZED)
              (kind_asked (author ctx) rest w))).
Proof.
  split.
  - intros H. unfold register_cmd. destruct_world w. cbn [dms_closed] in H.
    exec. rewrite H. reflexivity.
  - unfold dm_open. intros reply rest Ho Hi Hs Ht.
    unfold register_cmd, kind_asked.
    destruct_world w. cbn [dms_closed inbox] in Ho, Hi. subst w_inbox.
    exec. rewrite Ho.
    destruct (String.eqb_spec (lower (strip reply)) "solo"); [contradiction|].
    destruct (String.eqb_spec (lower (strip reply)) "team"); [contradiction|].
    reflexivity.
Qed.

Lemma register_cmd_gives_up_witness :
  let w := set_inbox [Some "duo"] small_world in
  register_cmd (dm_ctx 7) w
  = (Normal tt,
     emit (Send (DM 7) UNRECOGNIZED) (kind_asked (author (dm_ctx 7)) [] w)).
Proof.
  intros w.
  assert (H1 : lower (strip "duo") <> "solo") by discriminate.
  assert (H2 : lower (strip "duo") <> "team") by discriminate.
  exact (proj2 (register_cmd_gives_up (dm_ctx 7) w) "duo" [] eq_refl eq_refl
           H1 H2).
Defined.

(** X17.  Registering as a solo again replaces the stored record: after an
    admin has verified a user, a new complete solo registration of that
    user leaves them with [paid = False], no transaction reference, and a
    pending entry in the payment index that points to the new notice. *)
Theorem solo_reregistration_resets ctx g txn user guild w a1 a2 a3 a4 a5 rest
    tg ch :
  let w1 := run (verify_cmd ctx g user txn) w in
  inbox w = Some a1 :: Some a2 :: Some a3 :: Some a4 :: Some a5 :: rest ->
  Forall proceeds [a1; a2; a3; a4; a5] ->
  resolve_guild guild w1 = Some tg -> notice_channel tg = Some ch ->
  let w2 := run (handle_solo_registration user guild) w1 in
  exists record pay,
    Dict.get (str (uid user)) (solos (store w2)) = Some record
    /\ Solo.paid record = false /\ Solo.payment_txn record = None
    /\ Dict.get (solo_key (uid user)) (payments (store w2)) = Some pay
    /\ Payment.status pay = "pending"
    /\ Solo.payment_msg record
       = Some (mkMsgRef (Payment.channel_id pay) (Payment.message_id pay))
    /\ Payment.message_id pay = next_message_id w1.
Proof.
  intros w1 Hi Hp Hg Hch w2.
  destruct (verify_cmd_run ctx g user txn w) as [_ [Hd [_ [_ [Hin _]]]]].
  fold w1 in Hd, Hin. rewrite <- Hin in Hi.
  destruct (@handle_solo_registration_run user guild w1 _ a1 a2 a3 a4 a5
              rest Hd Hi Hp) as [_ H].
  fold w2 in H. rewrite Hg, Hch in H. destruct H as [_ [Hd2 _]].
  unfold store. rewrite Hd2. unfold solo_noticed, solo_saved.
  cbn [store_of solos set_solos payments set_payments].
  eexists. eexists. split; [|split; [|split; [|split; [|split; [|split]]]]].
  - rewrite dict_set_set. apply dict_get_set_same.
  - reflexivity.
  - reflexivity.
  - apply dict_get_set_same.
  - reflexivity.
  - reflexivity.
  - reflexivity.
Qed.

Lemma solo_reregistration_resets_witness :
  let w :=
    set_inbox [Some "Ann"; Some "Sage"; Some "Gold"; Some "Plat"; Some "TXN-8"]
      both_world in
  let w1 := run (verify_cmd admin_ctx sample_guild (mkUser 7 "ann") None) w in
  let w2 := run (handle_solo_registration (mkUser 7 "ann") None) w1 in
  exists solo,
    Dict.get "7" (solos (store w1)) = Some solo /\ Solo.paid solo = true
    /\ exists record pay,
         Dict.get "7" (solos (store w2)) = Some record
         /\ Solo.paid record = false /\ Solo.payment_txn record = None
         /\ Dict.get "solo-7" (payments (store w2)) = Some pay
         /\ Payment.status pay = "pending"
         /\ Solo.payment_msg record
            = Some (mkMsgRef (Payment.channel_id pay) (Payment.message_id pay))
         /\ Payment.message_id pay = next_message_id w1.
Proof.
  intros w. eexists. split; [vm_compute; reflexivity|].
  split; [reflexivity|].
  assert (Hp : Forall proceeds ["Ann"; "Sage"; "Gold"; "Plat"; "TXN-8"]).
  { repeat constructor. }
  exact (@solo_reregistration_resets admin_ctx sample_guild None
           (mkUser 7 "ann") None w "Ann" "Sage" "Gold" "Plat" "TXN-8" []
           sample_guild (mkChannel 11 "payments" true) eq_refl Hp eq_refl
           eq_refl).
Defined.

(** X18.  Join codes are matched without regard to letter case and to
    surrounding blanks: two invocations of [!jointeam] whose (non-empty)
    arguments have the same upper-cased, stripped form behave alike in
    every world. *)
Theorem jointeam_code_normalized ctx c c' w :
  (c =? EmptyString)%string = false -> (c' =? EmptyString)%string = false ->
  upper (strip c) = upper (strip c') ->
  jointeam_cmd ctx (Some c) w = jointeam_cmd ctx (Some c') w.
Proof.
  intros Hc Hc' H. unfold jointeam_cmd, jointeam_cmd_with. rewrite Hc, Hc'.
  match goal with
  | |- def (bind ?X (fun _ => bind (ret c) ?K)) w = _ =>
      set (k := K); set (x := X)
  end.
  assert (Hk : forall w0, k c w0 = k c' w0).
  { intros w0. subst k. cbv beta. revert H.
    generalize (upper (strip c)) (upper (strip c')).
    intros s s' ->. reflexivity. }
  unfold def, bind, ret.
  destruct (x w) as [[[]| |e|] w1];
    [now rewrite Hk | reflexivity | reflexivity | reflexivity].
Qed.

Lemma jointeam_code_normalized_witness :
  jointeam_cmd (dm_ctx 2) (Some "abcdef") small_world
  = jointeam_cmd (dm_ctx 2) (Some " ABCdef ") small_world.
Proof.
  exact (@jointeam_code_normalized (dm_ctx 2) "abcdef" " ABCdef " small_world
           eq_refl eq_refl eq_refl).
Defined.

(** X19.  [!jointeam] is refused before the store is opened in two cases:
    outside a DM it replies with its privacy notice, whatever its argument;
    in a DM without a code (or with an empty one) it replies with its usage
    line.  In both cases nothing else happens; [data.json] is not even
    created when it is missing. *)
Theorem jointeam_cmd_refused_early ctx code w :
  (in_dm ctx = false ->
   jointeam_cmd ctx code w = (Normal tt, emit (Send Ctx NOT_IN_DM) w))
  /\ (in_dm ctx = true -> code = None \/ code = Some EmptyString ->
      jointeam_cmd ctx code w = (Normal tt, emit (Send Ctx JOIN_USAGE) w)).
Proof.
  split.
  - apply jointeam_cmd_not_in_dm.
  - intros Hdm H. unfold jointeam_cmd, jointeam_cmd_with. rewrite Hdm.
    destruct H as [-> | ->]; destruct w; reflexivity.
Qed.

Lemma jointeam_cmd_refused_early_witness :
  jointeam_cmd admin_ctx (Some "ABCDEF") sample_world
  = (Normal tt, emit (Send Ctx NOT_IN_DM) sample_world)
  /\ jointeam_cmd (dm_ctx 2) None sample_world
     = (Normal tt, emit (Send Ctx JOIN_USAGE) sample_world)
  /\ disk (run (jointeam_cmd (dm_ctx 2) None) sample_world) = None.
Proof.
  split; [|split].
  - exact (proj1 (jointeam_cmd_refused_early admin_ctx (Some "ABCDEF")
                    sample_world) eq_refl).
  - exact (proj2 (jointeam_cmd_refused_early (dm_ctx 2) None sample_world)
             eq_refl (or_introl eq_refl)).
  - reflexivity.
Defined.

(** X20.  In a guild that has no text channel at all, publishing a notice
    raises [IndexError].  A solo registration made there is lost: the
    handler raises after the five answers were collected, before anything is
    written.  A team creation made there raises too, but only after its
    first write: the team is stored, without notice reference and without
    entry in the payment index. *)
Theorem registration_without_channel user guild w d g :
  disk w = Some d ->
  resolve_guild guild w = Some g -> text_channels g = [] ->
  (forall a1 a2 a3 a4 a5 rest,
      inbox w = Some a1 :: Some a2 :: Some a3 :: Some a4 :: Some a5 :: rest ->
      Forall proceeds [a1; a2; a3; a4; a5] ->
      let w' := run (handle_solo_registration user guild) w in
      outcome (handle_solo_registration user guild) w = Raised IndexError
      /\ disk w' = Some d /\ saves (log w') = saves (log w)
      /\ posts (log w') = posts (log w))
  /\ (forall content rest,
         inbox w = Some content :: rest -> proceeds content ->
         outcome (handle_team_registration user guild) w <> Diverged ->
         let w' := run (handle_team_registration user guild) w in
         outcome (handle_team_registration user guild) w = Raised IndexError
         /\ exists code,
              disk w' = Some (team_created d code (new_team user (strip content)))
              /\ Dict.mem code (teams d) = false
              /\ posts (log w') = posts (log w)).
Proof.
  intros Hd Hg Hch.
  assert (Hn : notice_channel g = None).
  { unfold notice_channel, channel_named. now rewrite Hch. }
  split.
  - intros a1 a2 a3 a4 a5 rest Hi Hp. unfold run, outcome.
    unfold resolve_guild, default_guild_in in Hg.
    destruct_world w; cbn [disk inbox bot_guilds GUILD_ID] in Hd, Hi, Hg; subst.
    match goal with
    | |- context [handle_solo_registration ?u ?g ?W] =>
        remember (handle_solo_registration u g W) as res eqn:E
    end.
    unfold handle_solo_registration in E. exec_in E.
    erewrite (@ask_questions_all user _ [a1; a2; a3; a4; a5]) in E;
      [| reflexivity | reflexivity | exact Hp].
    exec_in E.
    cbn [collected asked solo_questions Dict.get Dict.set Dict.empty
         String.eqb Ascii.eqb Bool.eqb] in E.
    exec_in E. unfold default_guild_in in E. exec_in E.
    destruct guild as [g0|].
    + injection Hg as ->. exec_in E.
      rewrite (@post_payment_embed_no_channel g _ _ _ Hn) in E.
      exec_in E. subst res. simpl. auto.
    + exec_in E. rewrite Hg in E.
      rewrite (@post_payment_embed_no_channel g _ _ _ Hn) in E.
      exec_in E. subst res. simpl. auto.
  - unfold proceeds. intros content rest Hi Hp. unfold run, outcome.
    unfold resolve_guild, default_guild_in in Hg.
    destruct_world w; cbn [disk inbox bot_guilds GUILD_ID] in Hd, Hi, Hg; subst.
    match goal with
    | |- context [handle_team_registration ?u ?g ?W] =>
        remember (handle_team_registration u g W) as r eqn:E
    end.
    unfold handle_team_registration in E. exec_in E. rewrite Hp in E.
    rewrite make_join_code_6 in E. exec_in E.
    match type of E with
    | context [ensure_unique_code ?b ?dt ?c ?w1] =>
        destruct (@ensure_unique_code_outcome b dt c w1) as [Hdv|[code Hc]];
        [ apply code_at_shape | apply code_at_shape | | ];
        destruct (ensure_unique_code_frame b dt c w1) as [n Hn'];
        destruct (ensure_unique_code b dt c w1) as [o w2]
    end; simpl in Hn'; subst w2.
    + simpl in Hdv. subst o. exec_in E. subst r. intros H. now contradiction H.
    + destruct Hc as [Ho [Hf [Hl Ha]]]. simpl in Ho. subst o. intros _.
      unfold default_guild_in in E. exec_in E.
      destruct guild as [g0|].
      * injection Hg as ->.
        rewrite (@post_payment_embed_no_channel g _ _ _ Hn) in E.
        exec_in E. subst r. simpl. split; [reflexivity|].
        exists code. auto.
      * rewrite Hg in E.
        rewrite (@post_payment_embed_no_channel g _ _ _ Hn) in E.
        exec_in E. subst r. simpl. split; [reflexivity|].
        exists code. auto.
Qed.

Lemma registration_without_channel_witness :
  let w :=
    set_inbox [Some "Ann"; Some "Sage"; Some "Gold"; Some "Plat"; Some "TXN-7"]
      bare_world in
  let w' := run (handle_solo_registration (mkUser 7 "ann") None) w in
  outcome (handle_solo_registration (mkUser 7 "ann") None) w
  = Raised IndexError
  /\ disk w' = Some small_store /\ saves (log w') = saves (log w)
  /\ posts (log w') = posts (log w).
Proof.
  intros w.
  assert (Hp : Forall proceeds ["Ann"; "Sage"; "Gold"; "Plat"; "TXN-7"]).
  { repeat constructor. }
  exact (proj1
           (@registration_without_channel (mkUser 7 "ann") None w small_store
              bare_guild eq_refl eq_refl eq_refl)
           "Ann" "Sage" "Gold" "Plat" "TXN-7" [] eq_refl Hp).
Defined.

(** ** Rosters and references along the steps of the store *)

Lemma not_member_not_in (u : Z) (l : list Member.t) :
  existsb (is_member u) l = false -> ~ In u (map Member.discord_id l).
Proof.
  induction l as [|m r IH]; simpl; [tauto|].
  intros H. apply orb_false_iff in H as [Hm Hr].
  unfold is_member in Hm. apply Z.eqb_neq in Hm.
  intros [E|E]; [congruence | now apply IH].
Qed.

Lemma roster_ok_same_ids (c c' : string) (t t' : Team.t) :
  map Member.discord_id (Team.members t')
  = map Member.discord_id (Team.members t) ->
  roster_ok (c, t) -> roster_ok (c', t').
Proof.
  unfold roster_ok. cbn [snd]. intros E [Hl Hn].
  rewrite E. split; [|exact Hn].
  rewrite <- (length_map Member.discord_id) in Hl |- *. now rewrite E.
Qed.

Lemma step_keeps_rosters (d d' : Data) :
  rosters_ok (Some d) -> store_step d d' -> rosters_ok (Some d').
Proof.
  unfold rosters_ok. cbn [store_of]. intros Hd Hs.
  assert (Hget : forall c t, Dict.get c (teams d) = Some t -> roster_ok (c, t)).
  { intros c t Hc. apply dict_get_In in Hc.
    rewrite Forall_forall in Hd. exact (Hd _ Hc). }
  destruct Hs as [u n Ht _ | code team Hf Hl Hc Hm Ht _
                  | code team c m Hg Hl Ht _ | code team e Hg He Hlt Hp Ht _
                  | code team u pr c m Hg Ht _ | u st _ Ht _
                  | code team u _ Ht _ | code team u txn Hfind Ht _];
    rewrite Ht; clear Ht; try assumption.
  - apply dict_Forall_set; [assumption|]. unfold roster_ok. cbn [snd].
    rewrite Hm. split; [lia|].
    destruct (Team.members team) as [|m [|m' r]]; try discriminate.
    simpl. constructor; [tauto | constructor].
  - apply dict_Forall_set; [assumption|].
    apply roster_ok_same_ids with (c := code) (t := team);
      [reflexivity | now apply Hget].
  - apply dict_Forall_set; [assumption|].
    destruct (Hget _ _ Hg) as [Hlen Hnd]. cbn [snd] in Hlen, Hnd.
    unfold roster_ok. cbn [snd Team.members Team.set_members].
    rewrite length_app, map_app. cbn [List.length map]. split; [lia|].
    apply NoDup_app; [exact Hnd | constructor; [tauto | constructor] |].
    intros a Ha [<-|[]]. now apply (not_member_not_in _ _ He).
  - apply dict_Forall_set; [assumption|].
    apply roster_ok_same_ids with (c := code) (t := team);
      [|now apply Hget].
    unfold attach_notice. cbn [Team.members Team.set_members].
    now apply update_first_ids.
  - apply update_first_Forall; [assumption|]. intros x _ _.
    apply find_some in Hfind as [Hin _].
    rewrite Forall_forall in Hd.
    apply roster_ok_same_ids with (c := code) (t := team);
      [apply verify_team_ids | exact (Hd _ Hin)].
Qed.

Lemma mem_set_mono {V} (c k : string) (v : V) (d : Dict.t V) :
  Dict.mem c d = true -> Dict.mem c (Dict.set k v d) = true.
Proof.
  unfold Dict.mem. induction d as [|[k0 v0] r IH]; simpl; [discriminate|].
  destruct (String.eqb_spec k0 k) as [->|N]; simpl.
  - destruct (k =? c)%string; auto.
  - destruct (k0 =? c)%string; auto.
Qed.

Lemma mem_set_same {V} (k : string) (v : V) (d : Dict.t V) :
  Dict.mem k (Dict.set k v d) = true.
Proof. unfold Dict.mem. now rewrite dict_get_set_same. Qed.

Lemma mem_update_first {V} (c : string) (p : string * V -> bool) (v : V)
    (d : Dict.t V) :
  Dict.mem c (update_first p (fun item => (fst item, v)) d) = Dict.mem c d.
Proof.
  unfold Dict.mem. induction d as [|[k0 v0] r IH]; simpl; [reflexivity|].
  destruct (p (k0, v0)); simpl.
  - now destruct (k0 =? c)%string.
  - destruct (k0 =? c)%string; [reflexivity | exact IH].
Qed.

Lemma names_weaken (ts ts' : Dict.t Team.t) (ps : Dict.t Payment.t) :
  (forall c, Dict.mem c ts = true -> Dict.mem c ts' = true) ->
  Forall (names_stored_team ts) ps -> Forall (names_stored_team ts') ps.
Proof.
  intros H. apply Forall_impl. intros item Hi c Hc. apply H. now apply Hi.
Qed.

Lemma names_mark_status (ts : Dict.t Team.t) (key status : string)
    (ps : Dict.t Payment.t) :
  Forall (names_stored_team ts) ps ->
  Forall (names_stored_team ts) (mark_status key status ps).
Proof.
  intros H. unfold mark_status.
  destruct (Dict.get key ps) as [pay|] eqn:E; [|exact H].
  apply dict_Forall_set; [exact H|].
  apply dict_get_In in E. rewrite Forall_forall in H.
  exact (H _ E).
Qed.

Lemma step_keeps_references (d d' : Data) :
  index_refers (Some d) -> store_step d d' -> index_refers (Some d').
Proof.
  unfold index_refers. cbn [store_of]. intros Hd Hs.
  destruct Hs as [u n Ht Hp | code team Hf Hl Hc Hm Ht Hp
                  | code team c m Hg Hl Ht Hp | code team e Hg He Hlt Hpd Ht Hp
                  | code team u pr c m Hg Ht Hp | u st _ Ht Hp
                  | code team u Hfind Ht Hp | code team u txn Hfind Ht Hp];
    rewrite Ht, Hp; clear Ht Hp.
  - destruct n as [[c m]|]; [|assumption].
    apply dict_Forall_set; [assumption|]. intros c0 H0. discriminate.
  - eapply names_weaken; [|exact Hd]. intros c. apply mem_set_mono.
  - apply dict_Forall_set.
    + eapply names_weaken; [|exact Hd]. intros c0. apply mem_set_mono.
    + intros c0 H0. cbn [snd Payment.team_code] in H0. injection H0 as <-.
      apply mem_set_same.
  - eapply names_weaken; [|exact Hd]. intros c. apply mem_set_mono.
  - apply dict_Forall_set.
    + eapply names_weaken; [|exact Hd]. intros c0. apply mem_set_mono.
    + intros c0 H0. cbn [snd Payment.team_code] in H0. injection H0 as <-.
      apply mem_set_same.
  - now apply names_mark_status.
  - now apply names_mark_status.
  - apply names_mark_status.
    eapply names_weaken; [|exact Hd]. intros c H.
    now rewrite mem_update_first.
Qed.

(** X21.  In every reachable store, a team has at least one and at most
    five member entries, and no two entries of a team carry the same Discord
    id: a join is the only step that adds an entry, and it is taken only for
    a user who is not in the team, while the team has fewer than five. *)
Theorem reachable_rosters (o : option Data) (code : string) (team : Team.t) :
  reachable o ->
  Dict.get code (teams (store_of o)) = Some team ->
  (1 <= List.length (Team.members team) <= 5)%nat
  /\ NoDup (map Member.discord_id (Team.members team)).
Proof.
  intros Hr Hg.
  assert (H : rosters_ok o).
  { clear Hg. induction Hr as [|w ctx c _ IH].
    - constructor.
    - refine (proj1 (@invoke_preserves rosters_ok _ _ ctx c w IH)).
      + intros _. constructor.
      + intros d d'. apply step_keeps_rosters. }
  unfold rosters_ok in H. rewrite Forall_forall in H.
  exact (H _ (dict_get_In _ _ Hg)).
Qed.

Lemma reachable_rosters_witness :
  exists team,
    Dict.get "ABCDEF" (teams (store_of (disk world_full))) = Some team
    /\ List.length (Team.members team) = 5%nat
    /\ (1 <= List.length (Team.members team) <= 5)%nat
    /\ NoDup (map Member.discord_id (Team.members team)).
Proof.
  eexists. split; [vm_compute; reflexivity|]. split; [reflexivity|].
  apply (@reachable_rosters (disk world_full) "ABCDEF" _ reachable_world_full).
  vm_compute. reflexivity.
Defined.

(** X22.  In every reachable store, an entry of the payment index that
    names a team (the creation record of a team, the payment of a team
    member) names a join code under which a team is stored. *)
Theorem reachable_index_refers (o : option Data) (key : string)
    (pay : Payment.t) (c : string) :
  reachable o ->
  Dict.get key (payments (store_of o)) = Some pay ->
  Payment.team_code pay = Some c ->
  exists team, Dict.get c (teams (store_of o)) = Some team.
Proof.
  intros Hr Hg Hc.
  assert (H : index_refers o).
  { clear Hg. induction Hr as [|w ctx c0 _ IH].
    - constructor.
    - refine (proj1 (@invoke_preserves index_refers _ _ ctx c0 w IH)).
      + intros _. constructor.
      + intros d d'. apply step_keeps_references. }
  unfold index_refers in H. rewrite Forall_forall in H.
  specialize (H _ (dict_get_In _ _ Hg) c Hc). unfold Dict.mem in H.
  destruct (Dict.get c (teams (store_of o))) as [team|]; [eauto|discriminate].
Qed.

Lemma reachable_index_refers_witness :
  exists team, Dict.get "ABCDEF" (teams (store_of (disk world_full))) = Some team.
Proof.
  apply (@reachable_index_refers (disk world_full) "team-ABCDEF-member-3"
           (Payment.mk "team_member" (Some 3) (Some "ABCDEF") 11 102 "pending")
           "ABCDEF" reachable_world_full).
  - vm_compute. reflexivity.
  - reflexivity.
Defined.

(** ** Invariants of the store when handlers overlap *)

Section Overlap.

Variable I : option Data -> Prop.
Hypothesis I_empty : I None -> I (Some empty_data).
Hypothesis I_step : forall d d', I (Some d) -> store_step d d' -> I (Some d').

Lemma preserves_jointeam_cmd_with (wait : Z -> M string) ctx code :
  (forall t, preserves I (wait t) (fun _ => True)) ->
  preserves I (jointeam_cmd_with wait ctx code) (fun _ => True).
Proof.
  intros Hwait. unfold jointeam_cmd_with.
  steps_with ltac:(idtac;
                   lazymatch goal with
                   | |- preserves _ load_data _ =>
                       apply preserves_load; exact I_empty
                   | |- preserves _ (post_payment_embed _ _ _) _ =>
                       apply preserves_post_payment_embed
                   | |- preserves _ (edit_payment_embed _ _ _ _ _) _ =>
                       apply preserves_edit_payment_embed
                   | |- preserves _ (wait _) _ => apply Hwait
                   end).
  - match goal with
    | |- I (Some (set_teams (Dict.set ?c (Team.set_members (_ ++ [?e]) ?t) _)
                    _)) =>
        eapply I_step; [eassumption|];
        eapply step_joined with (code := c) (team := t) (entry := e)
    end; try eassumption; try reflexivity.
    now apply Nat.leb_gt.
  - eapply I_step; [eassumption|].
    eapply step_join_noticed; try eassumption; reflexivity.
Qed.

Lemma preserves_wait_for_during (meanwhile : Z -> M unit) (t : Z) :
  preserves I (meanwhile t) (fun _ => True) ->
  preserves I (wait_for_during meanwhile t) (fun _ => True).
Proof.
  intros Hm w Hw. unfold wait_for_during.
  exact (preserves_wait_for I t (run (meanwhile t) w) (proj1 (Hm w Hw))).
Qed.

Lemma preserves_then (m k : M unit) :
  preserves I m (fun _ => True) -> preserves I k (fun _ => True) ->
  preserves I (then_ m k) (fun _ => True).
Proof.
  intros Hm Hk w Hw. unfold then_. split; [|auto].
  exact (proj1 (Hk (run m w) (proj1 (Hm w Hw)))).
Qed.

Lemma preserves_invoke_join_during (meanwhile : Z -> M unit) ctx code :
  (forall t, preserves I (meanwhile t) (fun _ => True)) ->
  preserves I (invoke_join_during meanwhile ctx code) (fun _ => True).
Proof.
  intros Hm. unfold invoke_join_during. apply preserves_try_except.
  - apply preserves_jointeam_cmd_with. intros t.
    apply preserves_wait_for_during, Hm.
  - apply preserves_send.
Qed.

Theorem serves_preserves (m : M unit) :
  serves m -> preserves I m (fun _ => True).
Proof.
  induction 1 as [|m ctx c _ IH|m meanwhile ctx code _ IH _ IHm
                  |m change _ IH Hch].
  - now apply preserves_ret.
  - apply preserves_then; [exact IH|].
    now apply invoke_preserves.
  - apply preserves_then; [exact IH|].
    now apply preserves_invoke_join_during.
  - apply preserves_then; [exact IH|].
    intros w Hw. simpl. rewrite Hch. auto.
Qed.

End Overlap.

Lemma overlapped_invariant (I : option Data -> Prop) (o : option Data) :
  I None ->
  (forall d d', I (Some d) -> store_step d d' -> I (Some d')) ->
  (I None -> I (Some empty_data)) ->
  overlapped_reachable o -> I o.
Proof.
  intros H0 Hstep Hempty [m [w [Hm [Hw ->]]]].
  refine (proj1 (@serves_preserves I Hempty Hstep m Hm w _)).
  now rewrite Hw.
Qed.

(** With nothing else running, the overlapped join is the join. *)
Lemma invoke_join_during_nothing ctx code :
  invoke_join_during (fun _ => pass) ctx code = invoke ctx (JoinTeam code).
Proof. reflexivity. Qed.

Lemma set_disk_same (w : World) : set_disk (disk w) w = w.
Proof. now destruct w. Qed.

(** Stores reachable by commands run one after the other are reachable. *)
Lemma reachable_overlapped (o : option Data) :
  reachable o -> overlapped_reachable o.
Proof.
  induction 1 as [|w ctx c _ [m [w0 [Hm [H0 E]]]]].
  - exists pass, sample_world. split; [constructor|]. split; reflexivity.
  - exists (then_ (then_ m (fun w1 => (Normal tt, set_disk (disk w1) w)))
              (invoke ctx c)), w0.
    split; [|split; [exact H0|]].
    + apply serves_command.
      apply serves_platform with (change := fun w1 => set_disk (disk w1) w);
        [exact Hm|].
      intros w1. now destruct w.
    + unfold then_ at 1 2. unfold run at 2 3. cbn [snd].
      fold (run m w0). rewrite <- E. now rewrite set_disk_same.
Qed.

(** ** Worlds the event loop brings about *)

Lemma served_reachable (w : World) : served w -> overlapped_reachable (disk w).
Proof. intros [m [w0 [Hm [H0 ->]]]]. exists m, w0. auto. Qed.

Lemma served_start : served sample_world.
Proof. exists pass, sample_world. split; [constructor|]. split; reflexivity. Qed.

Lemma served_inbox (w : World) (replies : list (option string)) :
  served w -> served (set_inbox replies w).
Proof.
  intros [m [w0 [Hm [H0 ->]]]].
  exists (then_ m (fun w1 => (Normal tt, set_inbox replies w1))), w0.
  split; [|split; [exact H0 | reflexivity]].
  apply serves_platform with (change := set_inbox replies); [exact Hm|].
  intros w1. now destruct w1.
Qed.

Lemma served_invoke (w : World) ctx c :
  served w -> served (run (invoke ctx c) w).
Proof.
  intros [m [w0 [Hm [H0 ->]]]]. exists (then_ m (invoke ctx c)), w0.
  split; [now apply serves_command|]. split; [exact H0 | reflexivity].
Qed.

Lemma served_after (w : World) ctx c replies :
  served w -> served (after w ctx c replies).
Proof. intros H. apply served_invoke, served_inbox, H. Qed.

Lemma served_join_during (w : World) meanwhile ctx code :
  served w -> (forall t, serves (meanwhile t)) ->
  served (run (invoke_join_during meanwhile ctx code) w).
Proof.
  intros [m [w0 [Hm [H0 ->]]]] Hmw.
  exists (then_ m (invoke_join_during meanwhile ctx code)), w0.
  split; [now apply serves_join|]. split; [exact H0 | reflexivity].
Qed.

Lemma serves_fifth_completes (t : Z) : serves (fifth_completes t).
Proof.
  unfold fifth_completes. destruct (t =? 300); [|constructor].
  apply serves_command.
  exact (@serves_command pass (dm_ctx 5) (JoinTeam (Some "abcdef"))
           serves_nothing).
Qed.

Lemma served_world_four : served world_four.
Proof. do 8 apply served_after. apply served_start. Qed.

(** X28.  The one-state invariants of the store survive joins that
    overlap other commands.  In every store the event loop can bring about,
    joins overlapping whatever else it serves, a team's [confirmed] flag is
    true exactly when the team has five members who are all paid; a team
    has between one and five member entries, no two of them for the same
    user, under a code of six characters; an entry of the payment index is
    either a creation record with status ["awaiting_members"] or a payment
    with status pending, verified or rejected; and an entry that names a
    team names one that is stored. *)
Theorem overlapped_stores_consistent (o : option Data) :
  overlapped_reachable o ->
  (forall code t,
      Dict.get code (teams (store_of o)) = Some t ->
      (Team.confirmed t = true <->
       List.length (Team.members t) = 5%nat
       /\ forall m, In m (Team.members t) -> Member.paid m = true)
      /\ (1 <= List.length (Team.members t) <= 5)%nat
      /\ NoDup (map Member.discord_id (Team.members t))
      /\ String.length code = 6%nat)
  /\ (forall key p,
         Dict.get key (payments (store_of o)) = Some p ->
         ((Payment.type p = "team_created"
           /\ Payment.status p = "awaiting_members")
          \/ ((Payment.type p = "solo" \/ Payment.type p = "team_member")
              /\ In (Payment.status p) ["pending"; "verified"; "rejected"]))
         /\ forall c,
              Payment.team_code p = Some c ->
              exists team, Dict.get c (teams (store_of o)) = Some team).
Proof.
  intros Hr.
  assert (Hflags : confirmed_iff_complete o).
  { apply overlapped_invariant;
      [ constructor | intros d d'; apply step_keeps_flags | intros _; constructor
      | assumption ]. }
  assert (Hrosters : rosters_ok o).
  { apply overlapped_invariant;
      [ constructor | intros d d'; apply step_keeps_rosters | intros _; constructor
      | assumption ]. }
  assert (Hindex : index_ok o).
  { apply overlapped_invariant;
      [ split; constructor | intros d d'; apply step_keeps_index | intros _; split; constructor
      | assumption ]. }
  assert (Hrefers : index_refers o).
  { apply overlapped_invariant;
      [ constructor | intros d d'; apply step_keeps_references | intros _; constructor
      | assumption ]. }
  split.
  - intros code t Hg. apply dict_get_In in Hg.
    unfold confirmed_iff_complete in Hflags. rewrite Forall_forall in Hflags.
    unfold rosters_ok in Hrosters. rewrite Forall_forall in Hrosters.
    destruct Hindex as [Hcodes _]. rewrite Forall_forall in Hcodes.
    pose proof (Hflags _ Hg) as Hf. unfold flag_agrees in Hf; simpl in Hf.
    destruct (Hrosters _ Hg) as [Hlen Hnd]. simpl in Hlen, Hnd.
    split; [rewrite Hf; apply complete_spec|].
    split; [exact Hlen|]. split; [exact Hnd|]. exact (Hcodes _ Hg).
  - intros key p Hg. pose proof (dict_get_In _ _ Hg) as Hin. split.
    + destruct Hindex as [_ Hp]. rewrite Forall_forall in Hp.
      destruct (Hp _ Hin) as [[Ht [Hs _]]|H]; [left | right]; auto.
    + intros c Hc. unfold index_refers in Hrefers.
      rewrite Forall_forall in Hrefers.
      specialize (Hrefers _ Hin c Hc). unfold Dict.mem in Hrefers.
      destruct (Dict.get c (teams (store_of o))) as [team|];
        [eauto | discriminate].
Qed.

(** The world of the overlapped join of C4 is one of them. *)
Lemma served_overlap_world : served overlap_world.
Proof.
  apply served_join_during; [|exact serves_fifth_completes].
  apply served_inbox, served_world_four.
Qed.

Lemma overlapped_stores_consistent_witness :
  exists t,
    Dict.get "ABCDEF" (teams (store overlap_world)) = Some t
    /\ map Member.discord_id (Team.members t) = [1; 2; 3; 4; 6]
    /\ Team.confirmed t = false
    /\ (Team.confirmed t = true <->
        List.length (Team.members t) = 5%nat
        /\ forall m, In m (Team.members t) -> Member.paid m = true)
    /\ (1 <= List.length (Team.members t) <= 5)%nat
    /\ NoDup (map Member.discord_id (Team.members t))
    /\ String.length "ABCDEF" = 6%nat.
Proof.
  eexists. split; [vm_compute; reflexivity|].
  split; [reflexivity|]. split; [reflexivity|].
  apply (proj1 (@overlapped_stores_consistent (disk overlap_world)
                  (@served_reachable overlap_world served_overlap_world))
           "ABCDEF").
  vm_compute. reflexivity.
Defined.

(** X29.  A command that runs from its invocation to its end with nothing
    served in between never takes a confirmation back: a team that is
    confirmed in the store the command starts from, whatever overlapping
    brought that store about, is still there and confirmed when the command
    has ended. *)
Theorem confirmed_kept_by_whole_commands (w : World) (ctx : Context)
    (c : Command) (code : string) :
  overlapped_reachable (disk w) ->
  confirmed_at code (disk w) ->
  confirmed_at code (disk (run (invoke ctx c) w)).
Proof.
  intros Hr Hc.
  assert (Hf : confirmed_iff_complete (disk w)).
  { apply overlapped_invariant;
      [ constructor | intros d d'; apply step_keeps_flags | intros _; constructor
      | assumption ]. }
  set (J := fun o => confirmed_iff_complete o /\ confirmed_at code o).
  refine (proj2 (proj1 (@invoke_preserves J _ _ ctx c w (conj Hf Hc)))).
  - intros [_ [t [Hg _]]]. discriminate.
  - intros d d' [H1 H2] Hs. split.
    + now apply step_keeps_flags with d.
    + now apply step_keeps_confirmed with d.
Qed.

Lemma confirmed_kept_by_whole_commands_witness :
  confirmed_at "ABCDEF" (disk world_confirmed)
  /\ confirmed_at "ABCDEF"
       (disk (run (invoke admin_ctx (Reject (mkUser 3 "player") None))
                world_confirmed)).
Proof.
  assert (Hc : confirmed_at "ABCDEF" (disk world_confirmed)).
  { eexists. split; vm_compute; reflexivity. }
  split; [exact Hc|].
  exact (@confirmed_kept_by_whole_commands world_confirmed admin_ctx
           (Reject (mkUser 3 "player") None) "ABCDEF"
           (@reachable_overlapped _ reachable_world_confirmed) Hc).
Defined.


(** ** C3: when the notice reference is persisted *)

(** C3, as the spec states it, fails: team creation and team join write the
    entity first and its notice reference in a second write, with the
    notice published in between.  The first write of a team creation holds
    the team without a reference, and the captain's member entry has none
    in the second either; the first write of a join holds the member entry
    without a reference. *)
Lemma C3_counterexample :
  (let w := set_inbox [Some "Owls"] small_world in
   let w' := run (handle_team_registration (mkUser 7 "ann") None) w in
   exists first second created noticed,
     saves (log w') = [second; first]
     /\ Dict.get "GHIJKL" (teams first) = Some created
     /\ Team.admin_msg created = None
     /\ Dict.get "GHIJKL" (teams second) = Some noticed
     /\ Team.admin_msg noticed = Some (mkMsgRef 11 100)
     /\ map Member.payment_msg (Team.members noticed) = [None])
  /\ (let w := set_inbox [Some "Jett"; Some "TXN-1"] small_world in
      let w' := run (jointeam_cmd (dm_ctx 2) (Some "abcdef")) w in
      exists first second joined noticed,
        saves (log w') = [second; first]
        /\ Dict.get "ABCDEF" (teams first) = Some joined
        /\ map Member.payment_msg (Team.members joined) = [None; None]
        /\ Dict.get "ABCDEF" (teams second) = Some noticed
        /\ map Member.payment_msg (Team.members noticed)
           = [None; Some (mkMsgRef 11 100)]).
Proof.
  split; intros w w'.
  - exists (nth 1 (saves (log w')) empty_data),
      (nth 0 (saves (log w')) empty_data).
    eexists. eexists.
    split; [vm_compute; reflexivity|].
    split; [vm_compute; reflexivity|]. split; [reflexivity|].
    split; [vm_compute; reflexivity|]. split; reflexivity.
  - exists (nth 1 (saves (log w')) empty_data),
      (nth 0 (saves (log w')) empty_data).
    eexists. eexists.
    split; [vm_compute; reflexivity|].
    split; [vm_compute; reflexivity|]. split; [reflexivity|].
    split; [vm_compute; reflexivity|]. reflexivity.
Qed.

(** C3, amended.  A solo registration publishes its notice first and
    persists the reference in the same write as the solo record, its only
    write; with no guild to post in, the record is written without a
    reference.  Team creation and team join write the entity first, without
    a reference (the new team under a fresh code, the member entry appended
    to its team), publish the notice, and attach the reference of that
    notice in a second write.  The member entry of the captain never gets a
    reference. *)
Theorem C3_notice_references (w : World) (d : Data) :
  disk w = Some d ->
  (forall user guild a1 a2 a3 a4 a5 rest,
      inbox w = Some a1 :: Some a2 :: Some a3 :: Some a4 :: Some a5 :: rest ->
      Forall proceeds [a1; a2; a3; a4; a5] ->
      let w' := run (handle_solo_registration user guild) w in
      let record := solo_record user a1 a2 a3 a4 a5 in
      (forall g ch,
          resolve_guild guild w = Some g -> notice_channel g = Some ch ->
          let r := mkMsgRef (ch_id ch) (next_message_id w) in
          exists written,
            saves (log w') = written :: saves (log w)
            /\ posts (log w') = (ch_id ch, next_message_id w) :: posts (log w)
            /\ Dict.get (str (uid user)) (solos written)
               = Some (Solo.set_payment_msg (Some r) record))
      /\ (resolve_guild guild w = None ->
          exists written,
            saves (log w') = written :: saves (log w)
            /\ posts (log w') = posts (log w)
            /\ Dict.get (str (uid user)) (solos written) = Some record
            /\ Solo.payment_msg record = None))
  /\ (forall user guild content rest g ch,
         inbox w = Some content :: rest -> proceeds content ->
         outcome (handle_team_registration user guild) w <> Diverged ->
         resolve_guild guild w = Some g -> notice_channel g = Some ch ->
         let w' := run (handle_team_registration user guild) w in
         let r := mkMsgRef (ch_id ch) (next_message_id w) in
         let team := new_team user (strip content) in
         exists code first second,
           saves (log w') = second :: first :: saves (log w)
           /\ posts (log w') = (ch_id ch, next_message_id w) :: posts (log w)
           /\ Dict.get code (teams d) = None
           /\ Dict.get code (teams first) = Some team
           /\ Team.admin_msg team = None
           /\ Dict.get code (teams second)
              = Some (Team.set_admin_msg (Some r) team)
           /\ map Member.payment_msg
                (Team.members (Team.set_admin_msg (Some r) team)) = [None])
  /\ (forall ctx c team a b rest g ch,
         admits ctx c d team ->
         inbox w = Some a :: Some b :: rest -> proceeds a ->
         default_guild_in w = Some g -> notice_channel g = Some ch ->
         let w' := run (jointeam_cmd ctx (Some c)) w in
         let code := upper (strip c) in
         let r := mkMsgRef (ch_id ch) (next_message_id w) in
         let entry := new_member (author ctx) (strip a) (strip b) in
         exists first second joined noticed,
           saves (log w') = second :: first :: saves (log w)
           /\ Dict.get code (teams first) = Some joined
           /\ Team.members joined = (Team.members team ++ [entry])%list
           /\ Member.payment_msg entry = None
           /\ Dict.get code (teams second) = Some noticed
           /\ Team.members noticed
              = (Team.members team
                 ++ [Member.set_payment_proof (Some (strip b))
                       (Member.set_payment_msg (Some r) entry)])%list).
Proof.
  intros Hd. split; [|split].
  - intros user guild a1 a2 a3 a4 a5 rest Hi Hp w' record.
    destruct (@handle_solo_registration_run user guild w d a1 a2 a3 a4 a5
                rest Hd Hi Hp) as [_ H].
    fold w' in H. fold record in H. split.
    + intros g ch Hg Hch r. rewrite Hg, Hch in H.
      destruct H as [_ [_ [Hs Hpo]]]. eexists. split; [exact Hs|].
      split; [exact Hpo|]. unfold solo_noticed, solo_saved.
      cbn [solos set_solos payments set_payments].
      rewrite dict_set_set. apply dict_get_set_same.
    + intros Hg. rewrite Hg in H. destruct H as [_ [Hs Hpo]].
      eexists. split; [exact Hs|]. split; [exact Hpo|].
      split; [apply dict_get_set_same | reflexivity].
  - intros user guild content rest g ch Hi Hp Ho Hg Hch w' r team.
    destruct (@handle_team_registration_run user guild w d content rest
                Hd Hi Hp Ho) as [code [_ [_ [Hfresh [_ H]]]]].
    rewrite Hg, Hch in H. destruct H as [_ [Hs Hpo]].
    exists code. eexists. eexists. split; [exact Hs|]. split; [exact Hpo|].
    split; [now apply dict_mem_false|].
    split; [apply dict_get_set_same|]. split; [reflexivity|].
    split; [|reflexivity].
    unfold team_noticed, team_created. cbn [teams set_teams set_payments].
    rewrite dict_set_set. apply dict_get_set_same.
  - intros ctx c team a b rest g ch Ha Hi Hp Hg Hch w' code r entry.
    destruct (@jointeam_cmd_joins ctx c w d team a b rest Ha Hd Hi Hp)
      as [_ H].
    rewrite Hg, Hch in H. destruct H as [_ [_ Hs]].
    destruct Ha as [_ [_ [_ [Hm _]]]].
    eexists. eexists. eexists. eexists. split; [exact Hs|].
    split; [apply dict_get_set_same|]. split; [reflexivity|].
    split; [reflexivity|].
    unfold member_noticed, member_joined.
    cbn [teams set_teams payments set_payments]. split.
    + rewrite dict_set_set. apply dict_get_set_same.
    + apply (@attach_notice_new_member (author ctx) (strip a) (strip b)
               (mkMsgRef (ch_id ch) (next_message_id w)) team Hm).
Qed.

(** A team creation and a solo registration on a store that holds one
    team. *)
Lemma C3_witness :
  (let w := set_inbox [Some "Owls"] small_world in
   let w' := run (handle_team_registration (mkUser 7 "ann") None) w in
   let team := new_team (mkUser 7 "ann") "Owls" in
   exists code first second,
     saves (log w') = second :: first :: saves (log w)
     /\ posts (log w') = (11, 100) :: posts (log w)
     /\ Dict.get code (teams small_store) = None
     /\ Dict.get code (teams first) = Some team
     /\ Team.admin_msg team = None
     /\ Dict.get code (teams second)
        = Some (Team.set_admin_msg (Some (mkMsgRef 11 100)) team)
     /\ map Member.payment_msg
          (Team.members (Team.set_admin_msg (Some (mkMsgRef 11 100)) team))
        = [None])
  /\ (let w := set_inbox ann_answers small_world in
      let w' := run (handle_solo_registration (mkUser 7 "ann") None) w in
      let record :=
        solo_record (mkUser 7 "ann") "Ann" "Sage" "Gold" "Plat" "TXN-7" in
      exists written,
        saves (log w') = written :: saves (log w)
        /\ posts (log w') = (11, 100) :: posts (log w)
        /\ Dict.get "7" (solos written)
           = Some (Solo.set_payment_msg (Some (mkMsgRef 11 100)) record)).
Proof.
  split.
  - intros w.
    assert (Ho : outcome (handle_team_registration (mkUser 7 "ann") None) w
                 <> Diverged).
    { vm_compute. discriminate. }
    exact (proj1 (proj2 (@C3_notice_references w small_store eq_refl))
             (mkUser 7 "ann") None "Owls" [] sample_guild
             (mkChannel 11 "payments" true)
             eq_refl eq_refl Ho eq_refl eq_refl).
  - intros w.
    assert (Hp : Forall proceeds ["Ann"; "Sage"; "Gold"; "Plat"; "TXN-7"]).
    { repeat constructor. }
    exact (proj1
             (proj1 (@C3_notice_references w small_store eq_refl)
                (mkUser 7 "ann") None "Ann" "Sage" "Gold" "Plat" "TXN-7" []
                eq_refl Hp)
             sample_guild (mkChannel 11 "payments" true) eq_refl eq_refl).
Defined.


(** ** C7: verifying twice *)

Lemma payment_unit_verified (u : Z) (txn : option string) (d : Data) :
  payment_unit u (verify_store u txn d) = payment_unit u d.
Proof.
  unfold payment_unit, verify_store.
  destruct (Dict.get (str u) (solos d)) as [solo|] eqn:Hs.
  - cbn [solos set_solos set_payments]. now rewrite dict_get_set_same.
  - destruct (find (has_member u) (teams d)) as [[code team]|] eqn:Hf.
    + cbn [solos teams set_teams set_payments]. rewrite Hs.
      rewrite (@find_update_first _ (has_member u)
                 (fun item => (fst item, verify_team u txn team)) (teams d)
                 (code, team) Hf); [reflexivity|].
      cbn [fst]. rewrite has_member_verify_team.
      exact (proj2 (find_some _ _ Hf)).
    + now rewrite Hs, Hf.
Qed.

Lemma notice_of_mark_status (key k status : string) (ps : Dict.t Payment.t)
    (d : Data) :
  notice_of key (set_payments (mark_status k status ps) d)
  = notice_of key (set_payments ps d).
Proof.
  unfold notice_of, mark_status. cbn [payments set_payments].
  destruct (Dict.get k ps) as [pay|] eqn:Hk; [|reflexivity].
  destruct (String.eqb_spec k key) as [->|N].
  - now rewrite dict_get_set_same, Hk.
  - now rewrite dict_get_set_other.
Qed.

Lemma notice_of_verified (key : string) (u : Z) (txn : option string)
    (d : Data) :
  notice_of key (verify_store u txn d) = notice_of key d.
Proof.
  unfold verify_store.
  destruct (Dict.get (str u) (solos d)) as [solo|].
  - rewrite notice_of_mark_status. reflexivity.
  - destruct (find (has_member u) (teams d)) as [[code team]|];
      [|reflexivity].
    unfold notice_of. cbn [payments set_teams].
    fold (notice_of key
            (set_payments
               (mark_status (member_key code u) "verified" (payments d)) d)).
    rewrite notice_of_mark_status. reflexivity.
Qed.

Lemma find_same_message_edit (c m c' m' : Z) (e : Embed) (l : list Message)
    (msg : Message) :
  find (same_message c m) l = Some msg ->
  exists msg',
    find (same_message c m)
      (map (fun x =>
              if same_message c' m' x
              then mkMessage (msg_channel x) (msg_id x) [e] (editable x)
              else x) l)
    = Some msg'
    /\ editable msg' = editable msg.
Proof.
  induction l as [|x r IH]; simpl; [discriminate|].
  destruct (same_message c m x) eqn:Hx.
  - intros H. injection H as <-.
    destruct (same_message c' m' x); simpl.
    + unfold same_message in *. simpl. rewrite Hx. eauto.
    + rewrite Hx. eauto.
  - intros H. destruct (same_message c' m' x); simpl.
    + unfold same_message in *. simpl. rewrite Hx. auto.
    + rewrite Hx. auto.
Qed.

(** What a verification leaves on the record it acts on. *)
Lemma verify_store_marks (u : Z) (txn : option string) (d : Data) :
  let d' := verify_store u txn d in
  let txn' := or_default txn VERIFIED_BY_ADMIN in
  (forall solo,
      Dict.get (str u) (solos d) = Some solo ->
      exists solo',
        Dict.get (str u) (solos d') = Some solo'
        /\ Solo.paid solo' = true /\ Solo.payment_txn solo' = Some txn'
        /\ forall pay,
             Dict.get (solo_key u) (payments d) = Some pay ->
             Dict.get (solo_key u) (payments d')
             = Some (Payment.set_status "verified" pay))
  /\ (forall code team,
         Dict.get (str u) (solos d) = None ->
         find (has_member u) (teams d) = Some (code, team) ->
         exists team' m,
           find (has_member u) (teams d') = Some (code, team')
           /\ find (is_member u) (Team.members team') = Some m
           /\ Member.paid m = true /\ Member.payment_txn m = Some txn'
           /\ forall pay,
                Dict.get (member_key code u) (payments d) = Some pay ->
                Dict.get (member_key code u) (payments d')
                = Some (Payment.set_status "verified" pay)).
Proof.
  intros d' txn'. subst d'. unfold verify_store. split.
  - intros solo Hs. rewrite Hs. eexists. split; [|split; [|split]].
    + cbn [solos set_solos set_payments]. apply dict_get_set_same.
    + reflexivity.
    + reflexivity.
    + intros pay Hp. cbn [payments set_payments]. now apply mark_status_get.
  - intros code team Hs Hf. rewrite Hs, Hf.
    pose proof (find_some _ _ Hf) as [_ Hm].
    destruct (existsb_find_some _ _ Hm) as [m0 Hm0]. cbn [snd] in Hm0.
    exists (verify_team u txn team), (mark_paid txn m0).
    split; [|split; [|split; [|split]]].
    + cbn [teams set_teams].
      rewrite (@find_update_first _ (has_member u)
                 (fun item => (fst item, verify_team u txn team)) (teams d)
                 (code, team) Hf); [reflexivity|].
      cbn [fst]. now rewrite has_member_verify_team.
    + assert (E : Team.members (verify_team u txn team)
                  = update_first (is_member u) (mark_paid txn)
                      (Team.members team)).
      { unfold verify_team. cbv zeta. now destruct (complete _). }
      rewrite E. apply find_update_first; [exact Hm0|].
      apply find_some in Hm0 as [_ Hm0]. exact Hm0.
    + reflexivity.
    + reflexivity.
    + intros pay Hp. cbn [payments set_payments set_teams].
      now apply mark_status_get.
Qed.

(** C7, as the spec states it, fails: when the platform refuses the edit of
    the notice, each of the two verifications posts a new notice, and the
    existing one is never edited. *)
Lemma C7_counterexample :
  let verify := verify_cmd admin_ctx sample_guild (mkUser 7 "ann") in
  let w2 := run (verify (Some "T2")) (run (verify (Some "T1")) world_refusing) in
  notice_of "solo-7" (store world_refusing) = Some (11, 50)
  /\ notice_refs world_refusing = [(11, 50)]
  /\ notice_refs w2 = [(11, 50); (11, 100); (11, 101)]
  /\ posts (log w2) = [(11, 101); (11, 100)]
  /\ edits (log w2) = [].
Proof. vm_compute. repeat split; reflexivity. Qed.

(** C7, amended.  Verifying an identity twice in succession leaves the
    store that the second verification alone leaves, the very store of the
    first when both carry the same reference: on the solo record, or else
    on the member entry of the first team that has the identity, [paid] is
    true and the transaction reference is the one of the second call, the
    sentinel ["verified-by-admin"] when it has none; the entry of the
    payment index, when there is one, has the status ["verified"].  The
    index still records the same notice after the first call, and each call
    is, as far as notices go, one update of that notice: when the notice is
    fetched and the platform accepts the edits, it is edited in place both
    times and no notice is created. *)
Theorem C7_verify_twice ctx1 ctx2 g member t1 t2 w :
  let u := uid member in
  let w1 := run (verify_cmd ctx1 g member t1) w in
  let w2 := run (verify_cmd ctx2 g member t2) w1 in
  let txn' := or_default t2 VERIFIED_BY_ADMIN in
  store w2 = verify_store u t2 (store w)
  /\ (t1 = t2 -> store w2 = store w1)
  /\ (forall solo,
         Dict.get (str u) (solos (store w)) = Some solo ->
         exists solo',
           Dict.get (str u) (solos (store w2)) = Some solo'
           /\ Solo.paid solo' = true /\ Solo.payment_txn solo' = Some txn'
           /\ forall pay,
                Dict.get (solo_key u) (payments (store w)) = Some pay ->
                Dict.get (solo_key u) (payments (store w2))
                = Some (Payment.set_status "verified" pay))
  /\ (forall code team,
         Dict.get (str u) (solos (store w)) = None ->
         find (has_member u) (teams (store w)) = Some (code, team) ->
         exists team' m,
           find (has_member u) (teams (store w2)) = Some (code, team')
           /\ find (is_member u) (Team.members team') = Some m
           /\ Member.paid m = true /\ Member.payment_txn m = Some txn'
           /\ forall pay,
                Dict.get (member_key code u) (payments (store w)) = Some pay ->
                Dict.get (member_key code u) (payments (store w2))
                = Some (Payment.set_status "verified" pay))
  /\ (forall key c m,
         payment_unit u (store w) = Some key ->
         notice_of key (store w) = Some (c, m) ->
         notice_of key (store w1) = Some (c, m)
         /\ (exists f1 n1,
               same_notices w1 (run (edit_payment_embed g c m f1 n1) w))
         /\ (exists f2 n2,
               same_notices w2 (run (edit_payment_embed g c m f2 n2) w1))
         /\ forall ch msg,
              get_channel g c = Some ch -> readable ch = true ->
              find (same_message (ch_id ch) m) (messages w) = Some msg ->
              editable msg = true ->
              notice_refs w2 = notice_refs w
              /\ posts (log w2) = posts (log w)
              /\ edits (log w2) = (c, m) :: (c, m) :: edits (log w)).
Proof.
  intros u w1 w2 txn'.
  assert (E1 : store w1 = verify_store u t1 (store w))
    by apply store_of_run_verify.
  assert (E2 : store w2 = verify_store u t2 (store w)).
  { unfold w2. rewrite store_of_run_verify. fold u. rewrite E1.
    apply verify_store_again. }
  split; [exact E2|]. split; [intros <-; now rewrite E2, E1|].
  destruct (verify_store_marks u t2 (store w)) as [Hsolo Hteam].
  rewrite <- E2 in Hsolo, Hteam.
  split; [exact Hsolo|]. split; [exact Hteam|].
  intros key c m Hu Hn.
  assert (Hn1 : notice_of key (store w1) = Some (c, m)).
  { rewrite E1, notice_of_verified. exact Hn. }
  assert (Hu1 : payment_unit u (store w1) = Some key).
  { rewrite E1, payment_unit_verified. exact Hu. }
  pose proof (verify_cmd_notices ctx1 g member t1 w) as N1.
  cbv zeta in N1. fold u w1 in N1. rewrite Hu, Hn in N1.
  pose proof (verify_cmd_notices ctx2 g member t2 w1) as N2.
  cbv zeta in N2. fold u w2 in N2. rewrite Hu1, Hn1 in N2.
  split; [exact Hn1|]. split; [exact N1|]. split; [exact N2|].
  intros ch msg Hc Hr Hf He.
  destruct N1 as [f1 [n1 [M1 [_ [P1 D1]]]]].
  destruct N2 as [f2 [n2 [M2 [_ [P2 D2]]]]].
  destruct (same_message_ref _ _ _ (proj2 (find_some _ _ Hf))) as [I1 I2].
  pose proof (get_channel_id _ _ Hc) as I3.
  unfold run in M1, P1, D1.
  rewrite (@edit_payment_embed_edits g c m f1 n1 w ch msg Hc Hr Hf He)
    in M1, P1, D1.
  cbn [snd messages set_messages emit set_log log] in M1, P1, D1.
  destruct (@find_same_message_edit (ch_id ch) m (msg_channel msg)
              (msg_id msg) (updated_embed msg f1 n1 (UPI_ID w)) (messages w)
              msg Hf) as [msg1 [Hf1 He1]].
  rewrite <- M1 in Hf1. rewrite He in He1.
  destruct (same_message_ref _ _ _ (proj2 (find_some _ _ Hf1))) as [J1 J2].
  unfold run in M2, P2, D2.
  rewrite (@edit_payment_embed_edits g c m f2 n2 w1 ch msg1 Hc Hr Hf1 He1)
    in M2, P2, D2.
  cbn [snd messages set_messages emit set_log log] in M2, P2, D2.
  unfold notice_refs. rewrite M2, notice_refs_edit, M1, notice_refs_edit.
  split; [reflexivity|].
  rewrite P2, D2. unfold posts, edits in *. cbn [flat_map app] in *.
  rewrite P1, D1. rewrite I1, I2, J1, J2, I3. auto.
Qed.

(** User 7, a solo player whose notice is in the payments channel, is
    verified twice, the second time without a reference. *)
Lemma C7_witness :
  let verify := verify_cmd admin_ctx sample_guild (mkUser 7 "ann") in
  let w2 := run (verify None) (run (verify (Some "T1")) world_noticed) in
  (exists solo',
     Dict.get "7" (solos (store w2)) = Some solo'
     /\ Solo.paid solo' = true
     /\ Solo.payment_txn solo' = Some "verified-by-admin"
     /\ Dict.get "solo-7" (payments (store w2))
        = Some (Payment.mk "solo" (Some 7) None 11 50 "verified"))
  /\ notice_refs w2 = [(11, 50)]
  /\ posts (log w2) = []
  /\ edits (log w2) = [(11, 50); (11, 50)].
Proof.
  intros verify w2.
  pose proof (@C7_verify_twice admin_ctx admin_ctx sample_guild
                (mkUser 7 "ann") (Some "T1") None world_noticed) as H.
  cbv zeta in H. fold verify in H. fold w2 in H.
  destruct H as [_ [_ [Hsolo [_ Hnotice]]]]. split.
  - destruct (Hsolo _ eq_refl) as [solo' [H1 [H2 [H3 H4]]]].
    exists solo'. split; [exact H1|]. split; [exact H2|].
    split; [exact H3|]. exact (H4 _ eq_refl).
  - exact (proj2 (proj2 (proj2 (Hnotice "solo-7" 11 50 eq_refl eq_refl)))
             (mkChannel 11 "payments" true)
             (mkMessage 11 50 [blank_embed] true)
             eq_refl eq_refl eq_refl eq_refl).
Defined.


(** ** C10: an identity in several teams *)

Lemma find_first_match {A} (p : A -> bool) (before after : list A) (x : A) :
  forallb (fun y => negb (p y)) before = true -> p x = true ->
  find p (before ++ x :: after) = Some x.
Proof.
  induction before as [|y r IH]; simpl; intros Hb Hx.
  - now rewrite Hx.
  - apply andb_true_iff in Hb as [Hy Hr]. apply negb_true_iff in Hy.
    rewrite Hy. auto.
Qed.

Lemma update_first_match {A} (p : A -> bool) (f : A -> A)
    (before after : list A) (x : A) :
  forallb (fun y => negb (p y)) before = true -> p x = true ->
  update_first p f (before ++ x :: after) = (before ++ f x :: after)%list.
Proof.
  induction before as [|y r IH]; simpl; intros Hb Hx.
  - now rewrite Hx.
  - apply andb_true_iff in Hb as [Hy Hr]. apply negb_true_iff in Hy.
    rewrite Hy. now rewrite IH.
Qed.

Lemma mark_status_other (key key' status : string) (ps : Dict.t Payment.t) :
  key <> key' ->
  Dict.get key' (mark_status key status ps) = Dict.get key' ps.
Proof.
  intros N. unfold mark_status. destruct (Dict.get key ps); [|reflexivity].
  now apply dict_get_set_other.
Qed.

Lemma member_key_code (code code' : string) (u : Z) :
  String.length code = 6%nat -> String.length code' = 6%nat ->
  member_key code u = member_key code' u -> code = code'.
Proof.
  unfold member_key. intros H H' E.
  do 7 (destruct code as [|? code]; try discriminate).
  do 7 (destruct code' as [|? code']; try discriminate).
  cbn in E. congruence.
Qed.

(** C10.  [!jointeam] checks the membership in the named team only: a user
    who is a member of another team is admitted, and is then a member of
    both, the other team being left as it was.  For a user without a solo
    record, [!verify] rewrites the first team (in dict order) that has the
    user and no other team, [!reject] rewrites no team, and both set the
    status of the index entry of that first team only: the entries of the
    user in every later team, and their index entries, stay as they were.
    For a user with a solo record, neither command touches a team. *)
Theorem C10_first_team_only :
  (forall ctx c w d team a b rest other other_team,
      admits ctx c d team -> disk w = Some d ->
      inbox w = Some a :: Some b :: rest -> proceeds a ->
      other <> upper (strip c) ->
      Dict.get other (teams d) = Some other_team ->
      existsb (is_member (uid (author ctx))) (Team.members other_team) = true ->
      let d' := store (run (jointeam_cmd ctx (Some c)) w) in
      Dict.get other (teams d') = Some other_team
      /\ exists joined,
           Dict.get (upper (strip c)) (teams d') = Some joined
           /\ existsb (is_member (uid (author ctx))) (Team.members joined)
              = true)
  /\ (forall ctx g member txn reason w before code team after,
         let u := uid member in
         Dict.get (str u) (solos (store w)) = None ->
         teams (store w) = (before ++ (code, team) :: after)%list ->
         forallb (fun item => negb (has_member u item)) before = true ->
         has_member u (code, team) = true ->
         let verified := store (run (verify_cmd ctx g member txn) w) in
         let rejected := store (run (reject_cmd ctx g member reason) w) in
         teams verified
         = (before ++ (code, verify_team u txn team) :: after)%list
         /\ payments verified
            = mark_status (member_key code u) "verified" (payments (store w))
         /\ teams rejected = teams (store w)
         /\ payments rejected
            = mark_status (member_key code u) "rejected" (payments (store w))
         /\ forall code',
              String.length code = 6%nat -> String.length code' = 6%nat ->
              code' <> code ->
              Dict.get (member_key code' u) (payments verified)
              = Dict.get (member_key code' u) (payments (store w))
              /\ Dict.get (member_key code' u) (payments rejected)
                 = Dict.get (member_key code' u) (payments (store w)))
  /\ (forall ctx g member txn reason w solo,
         Dict.get (str (uid member)) (solos (store w)) = Some solo ->
         teams (store (run (verify_cmd ctx g member txn) w))
         = teams (store w)
         /\ teams (store (run (reject_cmd ctx g member reason) w))
            = teams (store w)).
Proof.
  split; [|split].
  - intros ctx c w d team a b rest other other_team Ha Hd Hi Hp Hne Hg Hm d'.
    subst d'.
    destruct (@jointeam_cmd_joins ctx c w d team a b rest Ha Hd Hi Hp)
      as [_ H].
    assert (E : exists d1,
               store (run (jointeam_cmd ctx (Some c)) w) = d1
               /\ (d1 = member_joined d (upper (strip c)) team
                          (new_member (author ctx) (strip a) (strip b))
                   \/ exists r,
                        d1 = member_noticed d (upper (strip c)) team
                               (new_member (author ctx) (strip a) (strip b))
                               (strip b) r)).
    { unfold store.
      destruct (default_guild_in w) as [g|];
        [destruct (notice_channel g) as [ch|]|].
      - destruct H as [_ [H _]]. rewrite H. eexists. split; [reflexivity|].
        right. eexists. reflexivity.
      - destruct H as [H _]. rewrite H. eexists. split; [reflexivity|].
        now left.
      - destruct H as [H _]. rewrite H. eexists. split; [reflexivity|].
        now left. }
    destruct E as [d1 [-> [->|[r ->]]]];
      unfold member_noticed, member_joined;
      cbn [teams set_teams set_payments].
    + split.
      * rewrite dict_get_set_other by congruence. exact Hg.
      * eexists. split; [apply dict_get_set_same|].
        cbn [Team.members Team.set_members]. rewrite existsb_app.
        unfold new_member at 1. cbn [existsb is_member Member.discord_id].
        unfold is_member. cbn [Member.discord_id].
        rewrite Z.eqb_refl. now rewrite orb_true_r.
    + split.
      * rewrite !dict_get_set_other by congruence. exact Hg.
      * eexists. split; [rewrite dict_set_set; apply dict_get_set_same|].
        destruct Ha as [_ [_ [_ [Hnm _]]]].
        change (Member.discord_id
                  (new_member (author ctx) (strip a) (strip b)))
          with (uid (author ctx)).
        rewrite (@attach_notice_new_member (author ctx) (strip a) (strip b)
                   r team Hnm).
        rewrite existsb_app. cbn [existsb is_member Member.discord_id].
        unfold is_member, new_member. cbn.
        rewrite Z.eqb_refl. now rewrite orb_true_r.
  - intros ctx g member txn reason w before code team after u Hs Ht Hb Hm
      verified rejected.
    subst verified rejected.
    rewrite store_of_run_verify, store_of_run_reject.
    unfold verify_store, reject_store. fold u. rewrite Hs, Ht.
    rewrite (find_first_match (has_member u) before after (code, team) Hb Hm).
    cbn [teams set_teams payments set_payments].
    rewrite (update_first_match (has_member u)
               (fun item => (fst item, verify_team u txn team))
               before after (code, team) Hb Hm).
    cbn [fst]. rewrite ?Ht. do 4 (split; [reflexivity|]).
    intros code' Hl Hl' Hne.
    assert (N : member_key code u <> member_key code' u).
    { intros E. apply Hne. symmetry. exact (@member_key_code code code' u Hl Hl' E). }
    split; now apply mark_status_other.
  - intros ctx g member txn reason w solo Hs.
    rewrite store_of_run_verify, store_of_run_reject.
    unfold verify_store, reject_store. rewrite Hs. split; reflexivity.
Qed.

(** User 2, a member of the first of two teams, joins the second; and in a
    store where user 2 is a member of both, verification and rejection act
    on the first. *)
Lemma C10_witness :
  (let w :=
     set_inbox [Some "Jett"; Some "TXN-9"]
       (set_disk (Some one_of_two_store) sample_world) in
   let d' := store (run (jointeam_cmd (dm_ctx 2) (Some "ghijkl")) w) in
   (exists foxes,
      Dict.get "ABCDEF" (teams one_of_two_store) = Some foxes
      /\ Dict.get "ABCDEF" (teams d') = Some foxes
      /\ exists joined,
           Dict.get "GHIJKL" (teams d') = Some joined
           /\ existsb (is_member 2) (Team.members joined) = true)
   /\ map (fun code => roster code d') ["ABCDEF"; "GHIJKL"]
      = [[1; 2]; [7; 2]])
  /\ (let user := mkUser 2 "player" in
      let verified :=
        store (run (verify_cmd admin_ctx sample_guild user None)
                 two_teams_world) in
      let rejected :=
        store (run (reject_cmd admin_ctx sample_guild user "late")
                 two_teams_world) in
      exists foxes owls,
        teams two_teams_store = [("ABCDEF", foxes); ("GHIJKL", owls)]
        /\ teams verified
           = [("ABCDEF", verify_team 2 None foxes); ("GHIJKL", owls)]
        /\ map Member.paid (Team.members (verify_team 2 None foxes))
           = [false; true]
        /\ map Member.paid (Team.members owls) = [false; false]
        /\ teams rejected = teams two_teams_store
        /\ option_map Payment.status
             (Dict.get "team-ABCDEF-member-2" (payments verified))
           = Some "verified"
        /\ option_map Payment.status
             (Dict.get "team-ABCDEF-member-2" (payments rejected))
           = Some "rejected"
        /\ Dict.get "team-GHIJKL-member-2" (payments verified)
           = Dict.get "team-GHIJKL-member-2" (payments two_teams_store)
        /\ Dict.get "team-GHIJKL-member-2" (payments rejected)
           = Dict.get "team-GHIJKL-member-2" (payments two_teams_store)).
Proof.
  split.
  - intros w d'.
    assert (Ha : admits (dm_ctx 2) "ghijkl" one_of_two_store
                   (new_team (mkUser 7 "ann") "Owls")).
    { repeat split; try reflexivity. simpl. lia. }
    split; [|vm_compute; reflexivity].
    eexists. split; [reflexivity|].
    exact (proj1 C10_first_team_only (dm_ctx 2) "ghijkl" w
             one_of_two_store (new_team (mkUser 7 "ann") "Owls")
             "Jett" "TXN-9" [] "ABCDEF" _
             Ha eq_refl eq_refl eq_refl
             ltac:(discriminate) eq_refl eq_refl).
  - intros user verified rejected.
    pose (foxes :=
            Team.mk "Foxes" 1
              [ Member.mk 1 None false None None None;
                Member.mk 2 (Some "Jett") false (Some "P2") None None ]
              false None).
    pose (owls :=
            Team.mk "Owls" 7
              [ Member.mk 7 None false None None None;
                Member.mk 2 (Some "Jett") false (Some "Q2") None None ]
              false None).
    exists foxes, owls.
    destruct (proj1 (proj2 C10_first_team_only) admin_ctx sample_guild user None
                "late" two_teams_world [] "ABCDEF" foxes [("GHIJKL", owls)]
                eq_refl eq_refl eq_refl eq_refl)
      as [Hv [Hpv [Hr [Hpr Hother]]]].
    destruct (Hother "GHIJKL" eq_refl eq_refl ltac:(discriminate))
      as [Ho1 Ho2].
    fold verified in Hv, Hpv, Ho1. fold rejected in Hr, Hpr, Ho2.
    split; [reflexivity|]. split; [exact Hv|]. split; [reflexivity|].
    split; [reflexivity|]. split; [exact Hr|].
    split; [rewrite Hpv; reflexivity|].
    split; [rewrite Hpr; reflexivity|].
    split; [exact Ho1 | exact Ho2].
Defined.


(** ** [parse_member_arg] and [mention_or_id] *)

Lemma forall_string_app (p : ascii -> bool) (a b : string) :
  forall_string p (a ++ b) = forall_string p a && forall_string p b.
Proof.
  induction a as [|c r IH]; simpl; [reflexivity|].
  now rewrite IH, andb_assoc.
Qed.

Lemma forall_string_impl (p q : ascii -> bool) (s : string) :
  (forall c, p c = true -> q c = true) ->
  forall_string p s = true -> forall_string q s = true.
Proof.
  intros H. induction s as [|c r IH]; simpl; [reflexivity|].
  rewrite !andb_true_iff. intros [Hc Hr]. auto.
Qed.

Lemma filter_string_app (p : ascii -> bool) (a b : string) :
  filter_string p (a ++ b) = filter_string p a ++ filter_string p b.
Proof.
  induction a as [|c r IH]; simpl; [reflexivity|].
  destruct (p c); simpl; now rewrite IH.
Qed.

Lemma filter_string_all (p : ascii -> bool) (s : string) :
  forall_string p s = true -> filter_string p s = s.
Proof.
  induction s as [|c r IH]; simpl; [reflexivity|].
  rewrite andb_true_iff. intros [Hc Hr]. now rewrite Hc, IH.
Qed.

Lemma digit_not_space (c : ascii) :
  is_digit c = true -> negb (is_space c) = true.
Proof.
  unfold is_digit, is_space. cbv zeta. generalize (nat_of_ascii c). intros n.
  rewrite andb_true_iff, !Nat.leb_le. intros [H1 H2].
  apply negb_true_iff, orb_false_iff.
  split; apply andb_false_iff.
  - right. apply Nat.leb_gt. lia.
  - right. apply Nat.leb_gt. lia.
Qed.

Lemma lstrip_nonspace (s : string) :
  forall_string (fun c => negb (is_space c)) s = true -> lstrip s = s.
Proof.
  destruct s as [|c r]; simpl; [reflexivity|].
  rewrite andb_true_iff. intros [Hc _].
  apply negb_true_iff in Hc. now rewrite Hc.
Qed.

Lemma rstrip_nonspace (s : string) :
  forall_string (fun c => negb (is_space c)) s = true -> rstrip s = s.
Proof.
  induction s as [|c r IH]; simpl; [reflexivity|].
  rewrite andb_true_iff. intros [Hc Hr].
  apply negb_true_iff in Hc. rewrite (IH Hr), Hc. now destruct r.
Qed.

(** [strip] leaves a string without blanks as it is. *)
Lemma strip_nonspace (s : string) :
  forall_string (fun c => negb (is_space c)) s = true -> strip s = s.
Proof.
  intros H. unfold strip. rewrite (lstrip_nonspace _ H).
  now apply rstrip_nonspace.
Qed.

Lemma endswith_app (suffix a : string) : endswith suffix (a ++ suffix) = true.
Proof.
  induction a as [|c r IH]; cbn [append].
  - destruct suffix; cbn [endswith]; now rewrite String.eqb_refl.
  - cbn [endswith]. now destruct (String c (r ++ suffix) =? suffix)%string.
Qed.

Lemma digits_of_uint (d : Decimal.uint) :
  forall_string is_digit (NilEmpty.string_of_uint d) = true.
Proof. induction d; simpl; auto. Qed.

(** [str(n)] of a natural number is a non-empty string of digits, and [int]
    reads it back. *)
Lemma str_digits (n : Z) : 0 <= n -> isdigit (str n) = true.
Proof.
  intros Hn. unfold str. destruct n as [|p|p]; [reflexivity| |lia].
  cbn [Z.to_int NilZero.string_of_int]. unfold isdigit, NilZero.string_of_uint.
  pose proof (Unsigned.to_uint_nonnil p) as Hnil.
  destruct (Pos.to_uint p) eqn:E; try contradiction;
    rewrite <- E at 2; rewrite digits_of_uint; reflexivity.
Qed.

Lemma int_str (n : Z) : 0 <= n -> int (str n) = Some n.
Proof.
  intros Hn. unfold int, str. destruct n as [|p|p]; [reflexivity| |lia].
  cbn [Z.to_int NilZero.string_of_int].
  rewrite NilZero.usu by apply Unsigned.to_uint_nonnil.
  cbn [option_map]. unfold Z.of_uint.
  now rewrite DecimalPos.Unsigned.of_to.
Qed.

Lemma isdigit_all (s : string) :
  isdigit s = true -> forall_string is_digit s = true.
Proof. unfold isdigit. rewrite andb_true_iff. tauto. Qed.

Lemma digits_not_mention (s : string) :
  isdigit s = true -> startswith "<@" s = false.
Proof.
  unfold isdigit, startswith. destruct s as [|c r]; [discriminate|].
  cbn [negb String.eqb forall_string andb]. rewrite andb_true_iff.
  intros [Hc _]. cbn [prefix].
  destruct (ascii_dec "<" c) as [<-|]; [discriminate | reflexivity].
Qed.

Lemma append_empty (s : string) : s ++ EmptyString = s.
Proof. induction s as [|c r IH]; simpl; congruence. Qed.

(** A mention with [body] between its brackets, when [body] has no blanks,
    is read as the digits of [body]. *)
Lemma parse_mention (body : string) (members : list GuildMember) :
  forall_string (fun c => negb (is_space c)) body = true ->
  parse_member_arg ("<@" ++ body ++ ">") members
  = match int (filter_string is_digit body) with
    | Some n => get_member members n
    | None => None
    end.
Proof.
  intros Hb. unfold parse_member_arg. cbv zeta.
  rewrite strip_nonspace.
  2: { change ("<@" ++ body ++ ">") with (String "<" (String "@" (body ++ ">"))).
       cbn [forall_string]. rewrite forall_string_app, Hb. reflexivity. }
  assert (E1 : startswith "<@" ("<@" ++ body ++ ">") = true).
  { unfold startswith. cbn. destruct (ascii_dec "<" "<"); [|congruence].
    destruct (ascii_dec "@" "@"); [|congruence].
    now destruct (body ++ ">"). }
  assert (E2 : endswith ">" ("<@" ++ body ++ ">") = true).
  { change ("<@" ++ body ++ ">") with (("<@" ++ body) ++ ">").
    apply endswith_app. }
  rewrite E1, E2. cbn [andb].
  change ("<@" ++ body ++ ">") with (String "<" (String "@" (body ++ ">"))).
  cbn [filter_string]. change (is_digit "<") with false.
  change (is_digit "@") with false. cbv iota.
  rewrite filter_string_app. cbn [filter_string].
  change (is_digit ">") with false. cbv iota.
  now rewrite append_empty.
Qed.


Lemma get_member_sound (members : list GuildMember) (n : Z) (m : GuildMember) :
  get_member members n = Some m -> In m members /\ gm_id m = n.
Proof.
  unfold get_member. intros H. apply find_some in H as [Hin Hid].
  split; [exact Hin | now apply Z.eqb_eq].
Qed.

(** X23.  [parse_member_arg] reads back what [mention_or_id] writes: for a
    user id (a natural number), the mention [<@id>], the nickname form of
    the mention [<@!id>] and the bare id all resolve to
    [guild.get_member(id)]. *)
Theorem parse_member_arg_round_trip (n : Z) (members : list GuildMember) :
  0 <= n ->
  parse_member_arg (mention_or_id n) members = get_member members n
  /\ parse_member_arg ("<@!" ++ str n ++ ">") members = get_member members n
  /\ parse_member_arg (str n) members = get_member members n.
Proof.
  intros Hn.
  pose proof (isdigit_all _ (str_digits Hn)) as Hd.
  pose proof (forall_string_impl _ _ _ digit_not_space Hd) as Hs.
  split; [|split].
  - unfold mention_or_id. rewrite (parse_mention _ members Hs).
    now rewrite (filter_string_all _ _ Hd), (int_str Hn).
  - change ("<@!" ++ str n ++ ">") with ("<@" ++ ("!" ++ str n) ++ ">").
    rewrite parse_mention.
    + change ("!" ++ str n) with (String "!" (str n)).
      cbn [filter_string]. change (is_digit "!") with false. cbv iota.
      now rewrite (filter_string_all _ _ Hd), (int_str Hn).
    + change ("!" ++ str n) with (String "!" (str n)).
      cbn [forall_string]. now rewrite Hs.
  - unfold parse_member_arg. cbv zeta. rewrite (strip_nonspace _ Hs).
    rewrite (digits_not_mention _ (str_digits Hn)). cbn [andb].
    now rewrite (str_digits Hn), (int_str Hn).
Qed.

Lemma parse_member_arg_round_trip_witness :
  parse_member_arg (mention_or_id 42) sample_members
  = get_member sample_members 42
  /\ parse_member_arg ("<@!" ++ str 42 ++ ">") sample_members
     = get_member sample_members 42
  /\ parse_member_arg (str 42) sample_members = get_member sample_members 42.
Proof.
  assert (H : 0 <= 42) by lia.
  exact (@parse_member_arg_round_trip 42 sample_members H).
Defined.

(** X24.  What a successful [parse_member_arg] guarantees: the member
    returned is a member of the guild; when the (stripped) argument is a
    number, the member is the one with that id, so that a member whose name
    is a number cannot be addressed by name; when it has the shape of a
    mention, the member's id is the number its digits spell; otherwise the
    member's name, or non-empty nickname, is the argument itself. *)
Theorem parse_member_arg_sound (arg : string) (members : list GuildMember)
    (m : GuildMember) :
  parse_member_arg arg members = Some m ->
  In m members
  /\ (isdigit (strip arg) = true -> int (strip arg) = Some (gm_id m))
  /\ (startswith "<@" (strip arg) && endswith ">" (strip arg) = true ->
      int (filter_string is_digit (strip arg)) = Some (gm_id m))
  /\ (startswith "<@" (strip arg) && endswith ">" (strip arg) = false ->
      isdigit (strip arg) = false -> named (strip arg) m = true).
Proof.
  unfold parse_member_arg. cbv zeta. intros H.
  destruct (startswith "<@" (strip arg) && endswith ">" (strip arg)) eqn:Em.
  - destruct (int (filter_string is_digit (strip arg))) as [n|] eqn:Ei;
      [|discriminate].
    apply get_member_sound in H as [Hin <-].
    split; [exact Hin|]. split; [|split; [reflexivity | discriminate]].
    intros Hd. apply digits_not_mention in Hd.
    rewrite Hd in Em. discriminate.
  - destruct (isdigit (strip arg)) eqn:Ed.
    + destruct (int (strip arg)) as [n|] eqn:Ei; [|discriminate].
      apply get_member_sound in H as [Hin <-].
      split; [exact Hin|]. split; [reflexivity|].
      split; discriminate.
    + apply find_some in H as [Hin Hn].
      split; [exact Hin|]. split; [discriminate|].
      split; [discriminate | auto].
Qed.

Lemma parse_member_arg_sound_witness :
  In (mkGuildMember 42 "bob" (Some "Bobby")) sample_members
  /\ (isdigit (strip " Bobby ") = true ->
      int (strip " Bobby ") = Some 42)
  /\ (startswith "<@" (strip " Bobby ") && endswith ">" (strip " Bobby ")
      = true ->
      int (filter_string is_digit (strip " Bobby ")) = Some 42)
  /\ (startswith "<@" (strip " Bobby ") && endswith ">" (strip " Bobby ")
      = false ->
      isdigit (strip " Bobby ") = false ->
      named (strip " Bobby ") (mkGuildMember 42 "bob" (Some "Bobby")) = true).
Proof.
  exact (@parse_member_arg_sound " Bobby " sample_members
           (mkGuildMember 42 "bob" (Some "Bobby")) eq_refl).
Defined.

(** ** Startup: providing channels and roles *)

Lemma name_in_In (n : string) (l : list string) :
  name_in n l = true <-> In n l.
Proof.
  unfold name_in. rewrite existsb_exists. split.
  - intros [x [Hin Hx]]. apply String.eqb_eq in Hx. now subst.
  - intros H. exists n. split; [exact H | apply String.eqb_refl].
Qed.

Lemma ensure_channels_spec (names ex : list string) :
  forall s,
    let s' := fst (ensure_channels names ex s) in
    srv_name s' = srv_name s /\ srv_roles s' = srv_roles s
    /\ may_create_channels s' = may_create_channels s
    /\ may_create_roles s' = may_create_roles s
    /\ guild_id (srv_guild s') = guild_id (srv_guild s)
    /\ (may_create_channels s = false -> s' = s)
    /\ exists new,
         text_channels (srv_guild s')
         = (text_channels (srv_guild s) ++ new)%list
         /\ (may_create_channels s = true ->
             map ch_name new = missing names ex).
Proof.
  induction names as [|n names IH]; intros s; cbn [ensure_channels missing filter].
  - cbn. repeat split; try reflexivity. exists []. now rewrite app_nil_r.
  - destruct (name_in n ex) eqn:En; cbn [negb].
    + apply IH.
    + unfold create_text_channel.
      destruct (may_create_channels s) eqn:Ep.
      * match goal with
        | |- context [ensure_channels names ex ?s1] =>
            specialize (IH s1); destruct (ensure_channels names ex s1)
              as [s2 out]
        end.
        cbn [fst srv_name srv_roles may_create_channels may_create_roles
             srv_guild guild_id text_channels] in *.
        destruct IH as [H1 [H2 [H3 [H4 [H5 [_ [new [H6 H7]]]]]]]].
        do 5 (split; [congruence|]). split; [discriminate|].
        eexists (_ :: new). rewrite H6, <- app_assoc. split; [reflexivity|].
        intros _. cbn [map ch_name]. f_equal. apply H7. first [reflexivity | exact Ep].
      * specialize (IH s). destruct (ensure_channels names ex s) as [s2 out].
        cbn [fst] in *.
        destruct IH as [H1 [H2 [H3 [H4 [H5 [H0 [new [H6 H7]]]]]]]].
        do 5 (split; [congruence|]).
        split; [intros _; apply H0; exact Ep|].
        exists new. split; [exact H6|]. discriminate.
Qed.

Lemma ensure_roles_spec (names ex : list string) :
  forall s,
    let s' := fst (ensure_roles names ex s) in
    srv_name s' = srv_name s /\ srv_guild s' = srv_guild s
    /\ may_create_channels s' = may_create_channels s
    /\ may_create_roles s' = may_create_roles s
    /\ next_channel_id s' = next_channel_id s
    /\ (may_create_roles s = false -> s' = s)
    /\ exists new,
         srv_roles s' = (srv_roles s ++ new)%list
         /\ (may_create_roles s = true -> new = missing names ex).
Proof.
  induction names as [|n names IH]; intros s; cbn [ensure_roles missing filter].
  - cbn. repeat split; try reflexivity. exists []. now rewrite app_nil_r.
  - destruct (name_in n ex) eqn:En; cbn [negb].
    + apply IH.
    + unfold create_role.
      destruct (may_create_roles s) eqn:Ep.
      * match goal with
        | |- context [ensure_roles names ex ?s1] =>
            specialize (IH s1); destruct (ensure_roles names ex s1)
              as [s2 out]
        end.
        cbn [fst srv_name srv_roles may_create_channels may_create_roles
             srv_guild next_channel_id] in *.
        destruct IH as [H1 [H2 [H3 [H4 [H5 [_ [new [H6 H7]]]]]]]].
        do 5 (split; [congruence|]). split; [discriminate|].
        eexists (_ :: new). rewrite H6, <- app_assoc. split; [reflexivity|].
        intros _. f_equal. apply H7. first [reflexivity | exact Ep].
      * specialize (IH s). destruct (ensure_roles names ex s) as [s2 out].
        cbn [fst] in *.
        destruct IH as [H1 [H2 [H3 [H4 [H5 [H0 [new [H6 H7]]]]]]]].
        do 5 (split; [congruence|]).
        split; [intros _; apply H0; exact Ep|].
        exists new. split; [exact H6|]. discriminate.
Qed.

(** A loop that finds every name present creates nothing and prints
    nothing. *)
Lemma ensure_channels_present (names ex : list string) (s : Server) :
  (forall n, In n names -> In n ex) -> ensure_channels names ex s = (s, []).
Proof.
  induction names as [|n names IH]; intros H; cbn [ensure_channels];
    [reflexivity|].
  rewrite (proj2 (name_in_In n ex)) by (apply H; now left).
  apply IH. intros x Hx. apply H. now right.
Qed.

Lemma ensure_roles_present (names ex : list string) (s : Server) :
  (forall n, In n names -> In n ex) -> ensure_roles names ex s = (s, []).
Proof.
  induction names as [|n names IH]; intros H; cbn [ensure_roles];
    [reflexivity|].
  rewrite (proj2 (name_in_In n ex)) by (apply H; now left).
  apply IH. intros x Hx. apply H. now right.
Qed.

Lemma in_old_or_missing (names ex : list string) (n : string) :
  In n names -> In n (ex ++ missing names ex).
Proof.
  intros H. apply in_or_app.
  destruct (name_in n ex) eqn:E.
  - left. now apply name_in_In.
  - right. unfold missing. apply filter_In. split; [exact H|]. now rewrite E.
Qed.

(** What one run does, in terms of the server it was given. *)
Lemma ensure_channels_and_roles_spec (s : Server) :
  let s' := fst (ensure_channels_and_roles s) in
  srv_name s' = srv_name s
  /\ may_create_channels s' = may_create_channels s
  /\ may_create_roles s' = may_create_roles s
  /\ guild_id (srv_guild s') = guild_id (srv_guild s)
  /\ (may_create_channels s = false -> srv_guild s' = srv_guild s)
  /\ (may_create_roles s = false -> srv_roles s' = srv_roles s)
  /\ (exists new,
        text_channels (srv_guild s')
        = (text_channels (srv_guild s) ++ new)%list
        /\ (may_create_channels s = true ->
            map ch_name new = missing REQUIRED_CHANNELS (channel_names s)))
  /\ (exists new,
        srv_roles s' = (srv_roles s ++ new)%list
        /\ (may_create_roles s = true ->
            new = missing REQUIRED_ROLES (srv_roles s))).
Proof.
  unfold ensure_channels_and_roles. cbv zeta.
  pose proof (ensure_channels_spec REQUIRED_CHANNELS (channel_names s) s) as Hc.
  destruct (ensure_channels REQUIRED_CHANNELS (channel_names s) s)
    as [s1 out1].
  pose proof (ensure_roles_spec REQUIRED_ROLES (srv_roles s1) s1) as Hr.
  destruct (ensure_roles REQUIRED_ROLES (srv_roles s1) s1) as [s2 out2].
  cbn [fst] in *.
  destruct Hc as [C1 [C2 [C3 [C4 [C5 [C0 [newc [C6 C7]]]]]]]].
  destruct Hr as [R1 [R2 [R3 [R4 [R5 [R0 [newr [R6 R7]]]]]]]].
  split; [congruence|]. split; [congruence|]. split; [congruence|].
  split; [congruence|]. split; [|split; [|split]].
  - intros Hp. rewrite R2. now rewrite (C0 Hp).
  - intros Hp. rewrite C4 in R0. rewrite <- C2. now rewrite (R0 Hp).
  - exists newc. rewrite R2. split; [exact C6 | exact C7].
  - exists newr. rewrite R6, C2. split; [reflexivity|].
    intros Hp. rewrite <- C2. apply R7. congruence.
Qed.

(** X25.  With the permissions to create channels and roles,
    [ensure_channels_and_roles] leaves a guild in which the four channels
    (registration, payments, fixtures, results) and the three roles
    (Registered Player, Team Captain, Tournament Admin) all exist.  Without
    them it leaves the channels and roles as they were; the refusals are
    caught, it does not raise. *)
Theorem ensure_channels_and_roles_provides (s : Server) :
  let s' := fst (ensure_channels_and_roles s) in
  (may_create_channels s = true ->
   forall n, In n REQUIRED_CHANNELS -> In n (channel_names s'))
  /\ (may_create_roles s = true ->
      forall r, In r REQUIRED_ROLES -> In r (srv_roles s'))
  /\ (may_create_channels s = false -> may_create_roles s = false ->
      text_channels (srv_guild s') = text_channels (srv_guild s)
      /\ srv_roles s' = srv_roles s).
Proof.
  intros s'.
  destruct (ensure_channels_and_roles_spec s)
    as [_ [_ [_ [_ [N1 [N2 [[newc [C1 C2]] [newr [R1 R2]]]]]]]]].
  fold s' in N1, N2, C1, R1. split; [|split].
  - intros Hp n Hn. unfold channel_names. rewrite C1, map_app, (C2 Hp).
    now apply in_old_or_missing.
  - intros Hp r Hr. rewrite R1, (R2 Hp). now apply in_old_or_missing.
  - intros Hc Hr. split; [now rewrite (N1 Hc) | now apply N2].
Qed.

Lemma ensure_channels_and_roles_provides_witness :
  In "payments" (channel_names (fst (ensure_channels_and_roles fresh_server)))
  /\ In "Team Captain" (srv_roles (fst (ensure_channels_and_roles fresh_server)))
  /\ text_channels (srv_guild (fst (ensure_channels_and_roles closed_server)))
     = text_channels (srv_guild closed_server)
  /\ srv_roles (fst (ensure_channels_and_roles closed_server))
     = srv_roles closed_server.
Proof.
  split; [|split].
  - apply (proj1 (ensure_channels_and_roles_provides fresh_server) eq_refl).
    right. left. reflexivity.
  - apply (proj1 (proj2 (ensure_channels_and_roles_provides fresh_server))
             eq_refl).
    right. left. reflexivity.
  - exact (proj2 (proj2 (ensure_channels_and_roles_provides closed_server))
             eq_refl eq_refl).
Defined.

Lemma NoDup_missing (names ex : list string) :
  NoDup names -> NoDup (missing names ex).
Proof. apply NoDup_filter. Qed.

Lemma missing_not_in (names ex : list string) (n : string) :
  In n ex -> ~ In n (missing names ex).
Proof.
  intros H Hin. unfold missing in Hin. apply filter_In in Hin as [_ Hn].
  rewrite (proj2 (name_in_In n ex) H) in Hn. discriminate.
Qed.

Lemma count_occ_app_not_in (l new : list string) (n : string) :
  ~ In n new ->
  count_occ string_dec (l ++ new) n = count_occ string_dec l n.
Proof.
  intros H. rewrite count_occ_app.
  rewrite (proj1 (count_occ_not_In string_dec new n) H). lia.
Qed.

(** X26.  [ensure_channels_and_roles] only adds: the channels and roles of
    the guild are kept, in place, and what is new comes after them.  A name
    that was present is not created again, so the number of channels of that
    name stays what it was.  Running it a second time changes nothing. *)
Theorem ensure_channels_and_roles_only_adds (s : Server) :
  let s1 := fst (ensure_channels_and_roles s) in
  (exists new, text_channels (srv_guild s1)
               = (text_channels (srv_guild s) ++ new)%list)
  /\ (exists new, srv_roles s1 = (srv_roles s ++ new)%list)
  /\ (forall n, In n (channel_names s) ->
                count_occ string_dec (channel_names s1) n
                = count_occ string_dec (channel_names s) n)
  /\ (forall r, In r (srv_roles s) ->
                count_occ string_dec (srv_roles s1) r
                = count_occ string_dec (srv_roles s) r)
  /\ fst (ensure_channels_and_roles s1) = s1.
Proof.
  intros s1.
  destruct (ensure_channels_and_roles_spec s)
    as [_ [P1 [P2 [_ [N1 [N2 [[newc [C1 C2]] [newr [R1 R2]]]]]]]]].
  fold s1 in P1, P2, N1, N2, C1, R1.
  split; [eauto|]. split; [eauto|]. split; [|split].
  - intros n Hn. unfold channel_names. rewrite C1, map_app.
    destruct (may_create_channels s) eqn:Hp.
    + rewrite (C2 eq_refl). apply count_occ_app_not_in.
      now apply missing_not_in.
    + specialize (N1 eq_refl). rewrite N1 in C1.
      assert (newc = []).
      { apply (f_equal (@List.length Channel)) in C1.
        rewrite length_app in C1. destruct newc; [reflexivity|].
        simpl in C1. lia. }
      subst newc. now rewrite app_nil_r.
  - intros r Hr. rewrite R1.
    destruct (may_create_roles s) eqn:Hp.
    + rewrite (R2 eq_refl). apply count_occ_app_not_in.
      now apply missing_not_in.
    + specialize (N2 eq_refl). rewrite N2 in R1.
      assert (newr = []).
      { apply (f_equal (@List.length string)) in R1.
        rewrite length_app in R1. destruct newr; [reflexivity|].
        simpl in R1. lia. }
      subst newr. now rewrite app_nil_r.
  - unfold ensure_channels_and_roles at 1. cbv zeta.
    assert (Ec : fst (ensure_channels REQUIRED_CHANNELS (channel_names s1) s1)
                 = s1).
    { destruct (may_create_channels s) eqn:Hp.
      - rewrite ensure_channels_present; [reflexivity|].
        intros n Hn. unfold channel_names at 1.
        rewrite C1, map_app, (C2 eq_refl). now apply in_old_or_missing.
      - apply (ensure_channels_spec REQUIRED_CHANNELS (channel_names s1) s1).
        congruence. }
    destruct (ensure_channels REQUIRED_CHANNELS (channel_names s1) s1)
      as [s2 out2]. cbn [fst] in Ec. subst s2.
    assert (Er : fst (ensure_roles REQUIRED_ROLES (srv_roles s1) s1) = s1).
    { destruct (may_create_roles s) eqn:Hp.
      - rewrite ensure_roles_present; [reflexivity|].
        intros n Hn. rewrite R1 at 1. rewrite (R2 eq_refl).
        now apply in_old_or_missing.
      - apply (ensure_roles_spec REQUIRED_ROLES (srv_roles s1) s1).
        congruence. }
    destruct (ensure_roles REQUIRED_ROLES (srv_roles s1) s1) as [s3 out3].
    exact Er.
Qed.

Lemma ensure_channels_and_roles_only_adds_witness :
  count_occ string_dec
    (channel_names (fst (ensure_channels_and_roles closed_server))) "payments"
  = count_occ string_dec (channel_names closed_server) "payments".
Proof.
  apply (proj1 (proj2 (proj2
           (ensure_channels_and_roles_only_adds closed_server)))).
  left. reflexivity.
Defined.

Lemma ensure_all_map (l : list Server) :
  fst (ensure_all l) = map (fun s => fst (ensure_channels_and_roles s)) l.
Proof.
  induction l as [|s l IH]; cbn [ensure_all map]; [reflexivity|].
  destruct (ensure_channels_and_roles s) as [s' o].
  destruct (ensure_all l) as [r' o']. cbn [fst] in *. now rewrite IH.
Qed.

Lemma update_first_other {A} (p : A -> bool) (f : A -> A) (l : list A) :
  forall i x, nth_error l i = Some x -> p x = false ->
              nth_error (update_first p f l) i = Some x.
Proof.
  induction l as [|a l IH]; intros [|i] x; cbn [nth_error update_first];
    try discriminate.
  - intros H Hp. injection H as ->. now rewrite Hp.
  - intros H Hp. destruct (p a); cbn [nth_error]; auto.
Qed.

(** X27.  [on_ready] sets up the configured guild only.  With a [GUILD_ID]
    set, every guild the bot is in other than that one is left exactly as it
    was, and when the bot is not in the guild of that id nothing is set up
    at all and a warning is printed.  Without a [GUILD_ID] every guild the
    bot is in is set up. *)
Theorem on_ready_scope (b : Bot) :
  let b' := fst (on_ready b) in
  (forall gid,
      env_GUILD_ID b = Some gid -> gid <> 0 ->
      List.length (servers b') = List.length (servers b)
      /\ (forall i s,
             nth_error (servers b) i = Some s -> is_guild gid s = false ->
             nth_error (servers b') i = Some s)
      /\ (find (is_guild gid) (servers b) = None ->
          servers b' = servers b
          /\ In ("Warning: GUILD_ID " ++ str gid ++
                 " not found among bot guilds.")
               (snd (on_ready b))))
  /\ (env_GUILD_ID b = None ->
      servers b'
      = map (fun s => fst (ensure_channels_and_roles s)) (servers b)).
Proof.
  cbv zeta. unfold on_ready. cbv zeta. split.
  - intros gid Hg Hz. rewrite Hg.
    apply Z.eqb_neq in Hz. rewrite Hz.
    destruct (find (is_guild gid) (servers b)) as [g|] eqn:Hf.
    + destruct (ensure_channels_and_roles g) as [g' o].
      cbn [fst snd servers]. split; [apply update_first_length|].
      split; [|discriminate].
      intros i s Hi Hs. now apply update_first_other.
    + cbn [fst snd servers]. split; [reflexivity|]. split; [auto|].
      intros _. split; [reflexivity|]. right. left. reflexivity.
  - intros Hg. rewrite Hg. rewrite <- ensure_all_map.
    destruct (ensure_all (servers b)) as [l o]. reflexivity.
Qed.

Lemma on_ready_scope_witness :
  nth_error (servers (fst (on_ready sample_bot))) 0 = Some fresh_server.
Proof.
  assert (H : 2 <> 0) by lia.
  exact (proj1 (proj2 (proj1 (on_ready_scope sample_bot) 2 eq_refl H))
           0%nat fresh_server eq_refl eq_refl).
Defined.
